(** * Indoor-positioning pipeline: Loader and DNN_Regression

    A shallow embedding of [src/utils/loader.py] and
    [src/models/dnn_regression.py].  The Python objects the two classes
    manipulate (tuples, named tuples, numpy arrays, scikit-learn scalers,
    pandas frames, Keras layer graphs) are modelled as Rocq data; Python
    statements become computations in a state-and-exception monad over a
    [World] that holds standard output, the files, the heap of scaler
    objects and the random generator.

    Floating-point numbers are idealised: array entries are real numbers
    ([R]), values read from the CSV file are rationals ([Q]). *)

From Stdlib Require Import String List ZArith QArith Qround Reals Lra Lia.
From Stdlib Require Import Permutation.
From stdpp Require Import base list.
Import ListNotations.

Set Warnings "-register-all".
#[local] Open Scope string_scope.

(** ** Python values, exceptions and the monad *)

Module Py.

(** A 2-D numpy array, row by row. *)
Definition matrix : Type := list (list R).

Inductive scaler_kind : Type := StandardScaler | MinMaxScaler | Normalizer.

(** A reference to a scikit-learn scaler object: its class and its
    address on the heap. *)
Record estimator : Type := { est_kind : scaler_kind; est_loc : nat }.

Inductive pyval : Type :=
| PyNone
| PyBool (b : bool)
| PyInt (z : Z)
| PyFloat (r : R)
| PyStr (s : string)
| PyTuple (items : list pyval)
| PyNamedTuple (typename : string) (fields : list (string * pyval))
| PyVector (v : list R)
| PyArray (m : matrix)
| PyEstimator (e : estimator)
| PyFunction (name : string)
| PyBoundMethod (self : pyval) (name : string).

Inductive exn : Type :=
| AttributeError (type_name attr : string)
| TypeError (msg : string)
| ValueError (msg : string)
| IndexError (msg : string)
| KeyError (key : string)
| UnboundLocalError (name : string)
| FileNotFoundError (path : string)
| NotFittedError
| SystemExit (code : Z)
| NaNOutsideModel.

Inductive result (A : Type) : Type :=
| Ok (a : A)
| Raise (e : exn).
#[global] Arguments Ok {A} a.
#[global] Arguments Raise {A} e.

Definition scaler_class_name (k : scaler_kind) : string :=
  match k with
  | StandardScaler => "StandardScaler"
  | MinMaxScaler => "MinMaxScaler"
  | Normalizer => "Normalizer"
  end.

Definition type_name (v : pyval) : string :=
  match v with
  | PyNone => "NoneType"
  | PyBool _ => "bool"
  | PyInt _ => "int"
  | PyFloat _ => "float"
  | PyStr _ => "str"
  | PyTuple _ => "tuple"
  | PyNamedTuple tn _ => tn
  | PyVector _ | PyArray _ => "numpy.ndarray"
  | PyEstimator e => scaler_class_name (est_kind e)
  | PyFunction _ => "function"
  | PyBoundMethod _ _ => "builtin_function_or_method"
  end.

Definition mem_string (s : string) (l : list string) : bool :=
  existsb (String.eqb s) l.

(** The public (non-dunder) attribute names of the built-in types. *)
Definition tuple_attrs : list string := ["count"; "index"].

Definition namedtuple_attrs : list string :=
  ["count"; "index"; "_fields"; "_field_defaults"; "_make"; "_replace";
   "_asdict"].

Definition str_attrs : list string :=
  ["capitalize"; "casefold"; "center"; "count"; "encode"; "endswith";
   "expandtabs"; "find"; "format"; "format_map"; "index"; "isalnum";
   "isalpha"; "isascii"; "isdecimal"; "isdigit"; "isidentifier";
   "islower"; "isnumeric"; "isprintable"; "isspace"; "istitle";
   "isupper"; "join"; "ljust"; "lower"; "lstrip"; "maketrans";
   "partition"; "removeprefix"; "removesuffix"; "replace"; "rfind";
   "rindex"; "rjust"; "rpartition"; "rsplit"; "rstrip"; "split";
   "splitlines"; "startswith"; "strip"; "swapcase"; "title"; "translate";
   "upper"; "zfill"].

(** Methods of the scalers used by the two classes.  [Normalizer] is
    stateless and has no [inverse_transform]. *)
Definition scaler_attrs (k : scaler_kind) : list string :=
  match k with
  | StandardScaler | MinMaxScaler =>
      ["fit"; "transform"; "fit_transform"; "inverse_transform"]
  | Normalizer => ["fit"; "transform"; "fit_transform"]
  end.

Fixpoint assoc (k : string) (l : list (string * pyval)) : option pyval :=
  match l with
  | [] => None
  | (k', v) :: l' => if String.eqb k k' then Some v else assoc k l'
  end.

(** [v.attr] *)
Definition getattr (v : pyval) (attr : string) : result pyval :=
  let builtin (names : list string) :=
    if mem_string attr names then Ok (PyBoundMethod v attr)
    else Raise (AttributeError (type_name v) attr) in
  match v with
  | PyNamedTuple _ fields =>
      match assoc attr fields with
      | Some x => Ok x
      | None => builtin namedtuple_attrs
      end
  | PyTuple _ => builtin tuple_attrs
  | PyStr _ => builtin str_attrs
  | PyEstimator e => builtin (scaler_attrs (est_kind e))
  | _ => Raise (AttributeError (type_name v) attr)
  end.

(** [v[:, j]] *)
Definition getitem_column (v : pyval) (j : nat) : result pyval :=
  match v with
  | PyArray m =>
      if forallb (fun row => Nat.ltb j (length row)) m
      then Ok (PyVector (map (fun row => nth j row 0%R) m))
      else Raise (IndexError "index is out of bounds for axis 1")
  | PyVector _ => Raise (IndexError "too many indices for array")
  | PyTuple _ | PyNamedTuple _ _ =>
      Raise (TypeError "tuple indices must be integers or slices, not tuple")
  | PyStr _ =>
      Raise (TypeError "string indices must be integers")
  | _ => Raise (TypeError "object is not subscriptable")
  end.

(** [len(v)] *)
Definition len (v : pyval) : result nat :=
  match v with
  | PyArray m => Ok (length m)
  | PyVector l => Ok (length l)
  | PyTuple l => Ok (length l)
  | PyNamedTuple _ fields => Ok (length fields)
  | PyStr s => Ok (String.length s)
  | _ => Raise (TypeError "object has no len()")
  end.

(** Truth value of an object, as tested by [if]. *)
Definition truthy (v : pyval) : result bool :=
  match v with
  | PyNone => Ok false
  | PyBool b => Ok b
  | PyInt z => Ok (negb (Z.eqb z 0))
  | PyFloat r => Ok (if Req_dec_T r 0 then false else true)
  | PyStr s => Ok (negb (String.eqb s EmptyString))
  | PyTuple l => Ok (negb (Nat.eqb (length l) 0))
  | PyNamedTuple _ l => Ok (negb (Nat.eqb (length l) 0))
  | PyVector [x] | PyArray [[x]] => Ok (if Req_dec_T x 0 then false else true)
  | PyVector [] | PyArray [] => Ok false
  | PyVector _ | PyArray _ =>
      Raise (ValueError "The truth value of an array is ambiguous")
  | PyEstimator _ | PyFunction _ | PyBoundMethod _ _ => Ok true
  end.

End Py.
Import Py.

(** ** Keras: layer graphs and models *)

Module Keras.

(** A symbolic tensor is the expression that built it. *)
Inductive tensor : Type :=
| Input (shape : list nat) (name : string)
| Dense (units : nat) (activation : option string) (name : option string)
        (x : tensor)
| Dropout (rate : pyval) (x : tensor)
| Concatenate (xs : list tensor).

Record CompileArgs : Type := {
  c_optimizer : pyval;
  c_loss : string;
  c_metrics : list string
}.

Inductive Callback : Type :=
| ModelCheckpoint (filepath : pyval) (save_weights_only : bool)
    (monitor mode : string) (save_best_only : bool) (verbose : Z)
| EarlyStopping (monitor : string) (patience : pyval) (mode : string)
    (restore_best_weights : bool) (verbose : Z).

Record FitArgs : Type := {
  f_x : list pyval;
  f_y : list pyval;
  f_epochs : pyval;
  f_batch_size : pyval;
  f_validation_data : list pyval * list pyval;
  f_callbacks : list Callback
}.

(** A model object: its graph, the arguments of [compile] and the calls of
    [fit] it has received.  The weights and the numerical training are the
    library's and are not represented. *)
Record Model : Type := {
  inputs : list tensor;
  outputs : list tensor;
  compiled : option CompileArgs;
  fitted : list FitArgs
}.

End Keras.

(** ** The world: output, files, library objects, random numbers *)

Module Runtime.

(** A NaN cell of a frame is [None]. *)
Definition cell : Type := option Q.

(** A parsed CSV file: the header line and the data lines. *)
Record Table : Type := { header : list string; lines : list (list cell) }.

(** Fitted attributes of a scaler object: [mean_]/[scale_] for
    [StandardScaler], [min_]/[scale_] for [MinMaxScaler]; [Normalizer] keeps
    no statistics. *)
Inductive fit_state : Type :=
| NotFitted
| StandardFit (mean_ scale_ : list R)
| MinMaxFit (min_ scale_ : list R)
| NormalizerFit.

Record World : Type := {
  stdout : list (list pyval);      (* one entry per call of print *)
  opened : list string;            (* paths of the files read so far *)
  files : string -> option Table;
  heap : list fit_state;           (* scaler objects, by address *)
  models : list Keras.Model;       (* Keras model objects, by address *)
  rng : nat -> nat;                (* the random generator's draws *)
  rng_pos : nat
}.

Definition with_stdout (out : list (list pyval)) (w : World) : World :=
  {| stdout := out; opened := opened w; files := files w; heap := heap w;
     models := models w; rng := rng w; rng_pos := rng_pos w |}.

Definition with_opened (o : list string) (w : World) : World :=
  {| stdout := stdout w; opened := o; files := files w; heap := heap w;
     models := models w; rng := rng w; rng_pos := rng_pos w |}.

Definition with_heap (h : list fit_state) (w : World) : World :=
  {| stdout := stdout w; opened := opened w; files := files w; heap := h;
     models := models w; rng := rng w; rng_pos := rng_pos w |}.

Definition with_models (ms : list Keras.Model) (w : World) : World :=
  {| stdout := stdout w; opened := opened w; files := files w;
     heap := heap w; models := ms; rng := rng w; rng_pos := rng_pos w |}.

Definition with_rng_pos (p : nat) (w : World) : World :=
  {| stdout := stdout w; opened := opened w; files := files w;
     heap := heap w; models := models w; rng := rng w; rng_pos := p |}.

Definition M (A : Type) : Type := World -> World * result A.

Definition ret {A} (a : A) : M A := fun w => (w, Ok a).

Definition raise {A} (e : exn) : M A := fun w => (w, Raise e).

Definition bind {A B} (m : M A) (k : A -> M B) : M B :=
  fun w =>
    match m w with
    | (w', Ok a) => k a w'
    | (w', Raise e) => (w', Raise e)
    end.

Definition lift {A} (r : result A) : M A := fun w => (w, r).

Definition print (args : list pyval) : M unit :=
  fun w => (with_stdout (stdout w ++ [args]) w, Ok tt).

(** [sys.exit(code)] raises [SystemExit]; uncaught, it ends the process. *)
Definition sys_exit {A} (code : Z) : M A := raise (SystemExit code).

Definition set_heap (h : list fit_state) : M unit :=
  fun w => (with_heap h w, Ok tt).

Definition get_heap : M (list fit_state) := fun w => (w, Ok (heap w)).

(** Allocate a fresh, unfitted scaler object. *)
Definition new_scaler (k : scaler_kind) : M estimator :=
  fun w =>
    (with_heap (heap w ++ [NotFitted]) w,
     Ok {| est_kind := k; est_loc := length (heap w) |}).

(** Allocate a Keras model object; the result is its address. *)
Definition new_model (m : Keras.Model) : M nat :=
  fun w => (with_models (models w ++ [m]) w, Ok (length (models w))).

Definition get_model (addr : nat) : M Keras.Model :=
  fun w =>
    match models w !! addr with
    | Some m => (w, Ok m)
    | None => (w, Raise (ValueError "no such model object"))
    end.

Definition set_model (addr : nat) (m : Keras.Model) : M unit :=
  fun w => (with_models (<[addr := m]> (models w)) w, Ok tt).

(** Draw [n] random numbers. *)
Definition draw (n : nat) : M (list nat) :=
  fun w =>
    (with_rng_pos (rng_pos w + n) w,
     Ok (map (fun i => rng w (rng_pos w + i)%nat) (seq 0 n))).

(** Open a file for reading. *)
Definition open_file (path : string) : M Table :=
  fun w =>
    let w' := with_opened (opened w ++ [path]) w in
    match files w path with
    | Some t => (w', Ok t)
    | None => (w', Raise (FileNotFoundError path))
    end.

End Runtime.
Import Runtime.

Declare Scope py_scope.
Delimit Scope py_scope with py.
Notation "x <- e ;; k" := (bind e (fun x => k))
  (at level 100, e at next level, right associativity) : py_scope.
Notation "e ;; k" := (bind e (fun _ => k))
  (at level 100, right associativity) : py_scope.

(** ** numpy: the array operations the two classes use *)

Module Numpy.
#[local] Open Scope R_scope.

Definition width (X : matrix) : nat := length (hd [] X).

(** [X.reshape((-1, 1))]: all entries, row-major, in one column. *)
Definition reshape_column (X : matrix) : matrix :=
  map (fun x => [x]) (concat X).

Fixpoint chunks (k n : nat) (flat : list R) : matrix :=
  match n with
  | O => []
  | S n' => take k flat :: chunks k n' (drop k flat)
  end.

(** [X.reshape(shape)] for a 2-D target shape. *)
Definition reshape (shape : nat * nat) (X : matrix) : result matrix :=
  let flat := concat X in
  if Nat.eqb (length flat) (fst shape * snd shape)
  then Ok (chunks (snd shape) (fst shape) flat)
  else Raise (ValueError "cannot reshape array")%string.

(** [np.column_stack((xs, ys))] *)
Definition column_stack (xs ys : list R) : result matrix :=
  if Nat.eqb (length xs) (length ys)
  then Ok (zip_with (fun x y => [x; y]) xs ys)
  else Raise (ValueError "all the input array dimensions must match")%string.

(** [np.asarray(..., dtype=float)] of frame cells.  A NaN cell has no real
    number to stand for it. *)
Definition to_float (c : cell) : result R :=
  match c with
  | Some q => Ok (Q2R q)
  | None => Raise NaNOutsideModel
  end.

Fixpoint asarray (cs : list cell) : result (list R) :=
  match cs with
  | [] => Ok []
  | c :: cs' =>
      match to_float c, asarray cs' with
      | Ok x, Ok xs => Ok (x :: xs)
      | Raise e, _ => Raise e
      | _, Raise e => Raise e
      end
  end.

Fixpoint asarray2 (rows : list (list cell)) : result matrix :=
  match rows with
  | [] => Ok []
  | r :: rows' =>
      match asarray r, asarray2 rows' with
      | Ok x, Ok xs => Ok (x :: xs)
      | Raise e, _ => Raise e
      | _, Raise e => Raise e
      end
  end.

End Numpy.

(** ** scikit-learn: scalers, the split and the metrics *)

Module Sklearn.
#[local] Open Scope R_scope.

Definition Rsum (l : list R) : R := fold_right Rplus 0 l.

Definition mean (l : list R) : R := Rsum l / INR (length l).

(** Population variance ([ddof = 0]). *)
Definition variance (l : list R) : R :=
  mean (map (fun x => (x - mean l) * (x - mean l)) l).

Definition list_min (l : list R) : R := fold_right Rmin (hd 0 l) l.

Definition list_max (l : list R) : R := fold_right Rmax (hd 0 l) l.

(** [_handle_zeros_in_scale]: a zero scale is replaced by one. *)
Definition handle_zeros_in_scale (s : R) : R :=
  if Req_dec_T s 0 then 1 else s.

Definition column (j : nat) (X : matrix) : list R :=
  map (fun row => nth j row 0) X.

Definition columns_of (X : matrix) : list (list R) :=
  map (fun j => column j X) (seq 0 (Numpy.width X)).

(** [check_array]: a 2-D array with at least one sample and one feature. *)
Definition check_array (X : matrix) : result unit :=
  if Nat.eqb (length X) 0
  then Raise (ValueError "Found array with 0 sample(s)")%string
  else if Nat.eqb (Numpy.width X) 0
  then Raise (ValueError "Found array with 0 feature(s)")%string
  else if forallb (fun row => Nat.eqb (length row) (Numpy.width X)) X
  then Ok tt
  else Raise (ValueError "inhomogeneous shape")%string.

(** What [fit] stores in the scaler object. *)
Definition fit_params (k : scaler_kind) (X : matrix) : fit_state :=
  let cols := columns_of X in
  match k with
  | StandardScaler =>
      StandardFit (map mean cols)
        (map (fun c => handle_zeros_in_scale (sqrt (variance c))) cols)
  | MinMaxScaler =>
      let scale :=
        map (fun c =>
               (1 - 0) / handle_zeros_in_scale (list_max c - list_min c))
            cols in
      MinMaxFit (zip_with (fun c s => 0 - list_min c * s) cols scale) scale
  | Normalizer => NormalizerFit
  end.

Definition l2_norm (row : list R) : R :=
  sqrt (Rsum (map (fun x => x * x) row)).

(** [transform] with the fitted attributes [st]. *)
Definition transform_with (st : fit_state) (X : matrix) : result matrix :=
  match st with
  | NotFitted => Raise NotFittedError
  | StandardFit mean_ scale_ =>
      Ok (map (fun row =>
                 zip_with (fun x p => (x - fst p) / snd p) row
                          (zip mean_ scale_)) X)
  | MinMaxFit min_ scale_ =>
      Ok (map (fun row =>
                 zip_with (fun x p => x * snd p + fst p) row
                          (zip min_ scale_)) X)
  | NormalizerFit =>
      Ok (map (fun row =>
                 map (fun x => x / handle_zeros_in_scale (l2_norm row)) row)
              X)
  end.

(** [scaler.fit_transform(X)]: validates, re-fits the object in place
    (overwriting what an earlier fit stored) and transforms. *)
Definition fit_transform (e : estimator) (X : matrix) : M matrix :=
  (lift (check_array X) ;;
   h <- get_heap ;;
   let st := fit_params (est_kind e) X in
   set_heap (<[est_loc e := st]> h) ;;
   lift (transform_with st X))%py.

(** In-place [X op= params] of numpy: [params] has one entry per column, or
    a single entry that is broadcast. *)
Definition broadcast_rows (f : R -> R * R -> R) (params : list (R * R))
    (X : matrix) : result matrix :=
  if Nat.eqb (length params) (Numpy.width X)
  then Ok (map (fun row => zip_with f row params) X)
  else
    match params with
    | [p] => Ok (map (map (fun x => f x p)) X)
    | _ => Raise (ValueError "operands could not be broadcast together")%string
    end.

(** [scaler.inverse_transform(X)] on a 2-D array. *)
Definition inverse_transform (e : estimator) (X : matrix) : M matrix :=
  match est_kind e with
  | Normalizer =>
      raise (AttributeError "Normalizer" "inverse_transform")%string
  | StandardScaler | MinMaxScaler =>
      (h <- get_heap ;;
       match h !! est_loc e with
       | Some (StandardFit mean_ scale_) =>
           lift (check_array X) ;;
           lift (broadcast_rows (fun x p => x * snd p + fst p)
                                (zip mean_ scale_) X)
       | Some (MinMaxFit min_ scale_) =>
           lift (check_array X) ;;
           lift (broadcast_rows (fun x p => (x - fst p) / snd p)
                                (zip min_ scale_) X)
       | _ => raise NotFittedError
       end)%py
  end.

(** *** [train_test_split] *)

Definition insert_at {A} (i : nat) (x : A) (l : list A) : list A :=
  take i l ++ x :: drop i l.

(** A permutation of [l] determined by the random draws [ds]. *)
Fixpoint shuffle {A} (ds : list nat) (l : list A) : list A :=
  match l, ds with
  | x :: l', d :: ds' => insert_at (d mod S (length l')) x (shuffle ds' l')
  | _, _ => l
  end.

(** [rng.permutation(n)] *)
Definition permutation (n : nat) : M (list nat) :=
  (ds <- draw n ;; ret (shuffle ds (seq 0 n)))%py.

(** [_validate_shuffle_split] for a float [test_size] and no
    [train_size]. *)
Definition validate_shuffle_split (n_samples : nat) (test_size : Q)
    : result (nat * nat) :=
  if Qle_bool test_size 0 || Qle_bool 1 test_size
  then Raise (ValueError "test_size should be in the (0, 1) range")%string
  else
    let n_test :=
      Z.to_nat (Qceiling (test_size * inject_Z (Z.of_nat n_samples))) in
    let n_train := (n_samples - n_test)%nat in
    if Nat.eqb n_train 0
    then Raise (ValueError "the resulting train set will be empty")%string
    else Ok (n_train, n_test).

(** Positional indexing, as [_safe_indexing] and [DataFrame.take] do. *)
Definition iloc {A} (l : list A) (positions : list nat) : list A :=
  omap (fun i => l !! i) positions.

(** [train_test_split(data, test_size=...)] on the rows of a frame: the
    first [n_test] entries of a random permutation index the test rows, the
    next [n_train] the training rows. *)
Definition train_test_split {A} (data : list A) (test_size : Q)
    : M (list A * list A) :=
  (sizes <- lift (validate_shuffle_split (length data) test_size) ;;
   perm <- permutation (length data) ;;
   let ind_test := take (snd sizes) perm in
   let ind_train := take (fst sizes) (drop (snd sizes) perm) in
   ret (iloc data ind_train, iloc data ind_test))%py.

(** *** Metrics *)

(** Regression targets as a 2-D array; a 1-D array is one column. *)
Definition as_targets (v : pyval) : result matrix :=
  match v with
  | PyVector l => Ok (map (fun x => [x]) l)
  | PyArray m => Ok m
  | _ => Raise (ValueError "Expected array-like")%string
  end.

Definition check_reg_targets (y_true y_pred : pyval)
    : result (matrix * matrix) :=
  match as_targets y_true, as_targets y_pred with
  | Ok t, Ok p =>
      match check_array t, check_array p with
      | Ok _, Ok _ =>
          if negb (Nat.eqb (length t) (length p))
          then Raise (ValueError "inconsistent numbers of samples")%string
          else if negb (Nat.eqb (Numpy.width t) (Numpy.width p))
          then Raise (ValueError "different number of outputs")%string
          else Ok (t, p)
      | Raise e, _ => Raise e
      | _, Raise e => Raise e
      end
  | Raise e, _ => Raise e
  | _, Raise e => Raise e
  end.

Definition squared_errors (t p : list R) : list R :=
  zip_with (fun a b => (a - b) * (a - b)) t p.

(** [mean_squared_error(y_true, y_pred)] *)
Definition mse (y_true y_pred : pyval) : result R :=
  match check_reg_targets y_true y_pred with
  | Ok (t, p) =>
      Ok (mean (zip_with (fun ct cp => mean (squared_errors ct cp))
                         (columns_of t) (columns_of p)))
  | Raise e => Raise e
  end.

Definition r2_column (t p : list R) : R :=
  let numerator := Rsum (squared_errors t p) in
  let denominator := Rsum (map (fun a => (a - mean t) * (a - mean t)) t) in
  if Req_dec_T denominator 0
  then (if Req_dec_T numerator 0 then 1 else 0)
  else 1 - numerator / denominator.

(** [r2_score(y_true, y_pred)]; with fewer than two samples the library
    returns NaN. *)
Definition r2 (y_true y_pred : pyval) : result R :=
  match check_reg_targets y_true y_pred with
  | Ok (t, p) =>
      if Nat.ltb (length t) 2 then Raise NaNOutsideModel
      else Ok (mean (zip_with r2_column (columns_of t) (columns_of p)))
  | Raise e => Raise e
  end.

End Sklearn.

(** ** pandas: frames *)

Module Pandas.

(** A frame: the column names and the rows, each with its index label.
    Every row has one cell per column. *)
Record DataFrame : Type := {
  columns : list string;
  rows : list (nat * list cell)
}.

Definition shape (df : DataFrame) : nat * nat :=
  (length (rows df), length (columns df)).

(** Position of the column called [name]. *)
Fixpoint col_index (name : string) (cols : list string) : option nat :=
  match cols with
  | [] => None
  | c :: cols' =>
      if String.eqb name c then Some O
      else option_map S (col_index name cols')
  end.

(** [pd.read_csv(path, header=0)]: rows get the labels 0, 1, 2, ...; a
    line with fewer fields than the header is padded with NaN, one with
    more is a parse error. *)
Definition read_csv (path : string) : M DataFrame :=
  (t <- open_file path ;;
   let k := length (header t) in
   if existsb (fun l => Nat.ltb k (length l)) (lines t)
   then raise (ValueError "Error tokenizing data")
   else ret {| columns := header t;
               rows := zip (seq 0 (length (lines t)))
                           (map (resize k None) (lines t)) |})%py.

(** [df[name]]: the cells of one column. *)
Definition getitem (df : DataFrame) (name : string) : result (list cell) :=
  match col_index name (columns df) with
  | Some j => Ok (map (fun r => default None (snd r !! j)) (rows df))
  | None => Raise (KeyError name)
  end.

(** Comparison of a cell with a number; NaN equals nothing. *)
Definition cell_eqb (c : cell) (q : Q) : bool :=
  match c with
  | Some x => Qeq_bool x q
  | None => false
  end.

(** [df[df[name] == v]] *)
Definition filter_eq (df : DataFrame) (name : string) (v : Q)
    : result DataFrame :=
  match col_index name (columns df) with
  | Some j =>
      Ok {| columns := columns df;
            rows := List.filter
                      (fun r => cell_eqb (default None (snd r !! j)) v)
                      (rows df) |}
  | None => Raise (KeyError name)
  end.

Fixpoint col_indices (names cols : list string) : result (list nat) :=
  match names with
  | [] => Ok []
  | n :: names' =>
      match col_index n cols, col_indices names' cols with
      | Some j, Ok js => Ok (j :: js)
      | None, _ => Raise (KeyError n)
      | _, Raise e => Raise e
      end
  end.

(** [df[names]]: the sub-frame of the listed columns. *)
Definition getitem_list (df : DataFrame) (names : list string)
    : result DataFrame :=
  match col_indices names (columns df) with
  | Ok js =>
      Ok {| columns := names;
            rows := map (fun r =>
                           (fst r, map (fun j => default None (snd r !! j)) js))
                        (rows df) |}
  | Raise e => Raise e
  end.

(** [df.fillna(v)] *)
Definition fillna (v : Q) (df : DataFrame) : DataFrame :=
  {| columns := columns df;
     rows := map (fun r => (fst r, map (fun c => Some (default v c)) (snd r)))
                 (rows df) |}.

(** Write the cells [vs] into the positions [js] of a row. *)
Fixpoint write_cells (js : list nat) (vs : list cell) (row : list cell)
    : list cell :=
  match js, vs with
  | j :: js', v :: vs' => write_cells js' vs' (<[j := v]> row)
  | _, _ => row
  end.

(** [df[names] = sub], where [sub] has the rows of [df] in the same order.
    The right-hand side was read from [df[names]], so the names exist. *)
Definition setitem_list (df : DataFrame) (names : list string)
    (sub : DataFrame) : DataFrame :=
  let js := omap (fun n => col_index n (columns df)) names in
  {| columns := columns df;
     rows := zip_with (fun r s => (fst r, write_cells js (snd s) (snd r)))
                      (rows df) (rows sub) |}.

(** Python's [round] on a float: ties go to the even integer. *)
Definition py_round (q : Q) : Z :=
  let f := Qfloor q in
  match Qcompare (q - inject_Z f) (1 # 2) with
  | Lt => f
  | Gt => (f + 1)%Z
  | Eq => if Z.even f then f else (f + 1)%Z
  end.

(** [df.sample(frac=frac)]: [round(frac * len(df))] rows drawn without
    replacement. *)
Definition sample (frac : Q) (df : DataFrame) : M DataFrame :=
  if negb (Qle_bool 0 frac)
  then raise (ValueError "A negative number of rows requested")
  else if negb (Qle_bool frac 1)
  then raise (ValueError "Cannot take a larger sample than population")
  else
    (let n := length (rows df) in
     let size := Z.to_nat (py_round (frac * inject_Z (Z.of_nat n))) in
     perm <- Sklearn.permutation n ;;
     ret {| columns := columns df;
            rows := Sklearn.iloc (rows df) (take size perm) |})%py.

End Pandas.
Import Pandas.

(** ** [src/utils/loader.py] *)

Module Loader.

Record Loader : Type := {
  path : string;
  frac : Q;
  prepocessor : string;
  prefix : string;
  no_val_rss : Z;
  floor : Z;
  test_size : Q;
  rssi_scaler : option estimator;
  coords_preprocessing : option estimator;
  training_fname : string;
  testing_fname : string;
  data_fname : string;
  num_aps : Z;
  training_data : pyval;
  training_df : option DataFrame;
  testing_data : pyval;
  testing_df : option DataFrame;
  no_waps : option (list string);     (* unset until [load_data] runs *)
  waps_size : option nat
}.

(** [pat in s] on strings. *)
Fixpoint contains (pat s : string) : bool :=
  String.prefix pat s
  || match s with
     | EmptyString => false
     | String _ s' => contains pat s'
     end.

Definition py_of_scaler (e : option estimator) : pyval :=
  match e with
  | Some e => PyEstimator e
  | None => PyNone
  end.

Definition the_frame (df : option DataFrame) : result DataFrame :=
  match df with
  | Some d => Ok d
  | None => Raise (TypeError "'NoneType' object is not subscriptable")
  end.

Definition the_no_waps (self : Loader) : result (list string) :=
  match no_waps self with
  | Some l => Ok l
  | None => Raise (AttributeError "Loader" "no_waps")
  end.

(** Lines 61-80. *)
Definition load_data (self : Loader) : M Loader :=
  (data <- read_csv (data_fname self) ;;
   data <- lift (filter_eq data "floor" (inject_Z (floor self))) ;;
   split <- Sklearn.train_test_split (rows data) (test_size self) ;;
   let training_df := {| columns := columns data; rows := fst split |} in
   let testing_df := {| columns := columns data; rows := snd split |} in
   let no_waps := List.filter (contains "AP") (columns training_df) in
   sampled <-
     (if negb (Qle_bool 1 (frac self))
      then
        tr <- sample (frac self) training_df ;;
        te <- sample (frac self) testing_df ;;
        ret (tr, te)
      else ret (training_df, testing_df)) ;;
   ret {| path := path self; frac := frac self;
          prepocessor := prepocessor self; prefix := prefix self;
          no_val_rss := no_val_rss self; floor := floor self;
          test_size := test_size self; rssi_scaler := rssi_scaler self;
          coords_preprocessing := coords_preprocessing self;
          training_fname := training_fname self;
          testing_fname := testing_fname self;
          data_fname := data_fname self; num_aps := num_aps self;
          training_data := training_data self;
          training_df := Some (fst sampled);
          testing_data := testing_data self;
          testing_df := Some (snd sampled);
          no_waps := Some no_waps;
          waps_size := Some (length no_waps) |})%py.

(** Lines 90-92: [df[no_waps] = df[no_waps].fillna(no_val_rss)]. *)
Definition fill_frame (no_waps : list string) (v : Z) (df : DataFrame)
    : result DataFrame :=
  match getitem_list df no_waps with
  | Ok sub => Ok (setitem_list df no_waps (fillna (inject_Z v) sub))
  | Raise e => Raise e
  end.

Definition fill_missing (self : Loader) : M Loader :=
  (no_waps <- lift (the_no_waps self) ;;
   training_df <- lift (the_frame (training_df self)) ;;
   training_df <- lift (fill_frame no_waps (no_val_rss self) training_df) ;;
   testing_df <- lift (the_frame (testing_df self)) ;;
   testing_df <- lift (fill_frame no_waps (no_val_rss self) testing_df) ;;
   ret {| path := path self; frac := frac self;
          prepocessor := prepocessor self; prefix := prefix self;
          no_val_rss := no_val_rss self; floor := floor self;
          test_size := test_size self; rssi_scaler := rssi_scaler self;
          coords_preprocessing := coords_preprocessing self;
          training_fname := training_fname self;
          testing_fname := testing_fname self;
          data_fname := data_fname self; num_aps := num_aps self;
          training_data := training_data self;
          training_df := Some training_df;
          testing_data := testing_data self;
          testing_df := Some testing_df;
          no_waps := Loader.no_waps self;
          waps_size := waps_size self |})%py.

(** [np.asarray(df[no_waps])] *)
Definition rss_of (df : DataFrame) (no_waps : list string) : result matrix :=
  match getitem_list df no_waps with
  | Ok sub => Numpy.asarray2 (map snd (rows sub))
  | Raise e => Raise e
  end.

(** Lines 98-105 for one split: fit the scaler on the flattened values and
    give the result the shape of the raw array. *)
Definition scale_rss (scaler : option estimator) (shape : nat * nat)
    (rss : matrix) : M matrix :=
  match scaler with
  | Some e =>
      (flat_scaled <- Sklearn.fit_transform e (Numpy.reshape_column rss) ;;
       lift (Numpy.reshape shape flat_scaled))%py
  | None => ret rss
  end.

(** Lines 108-114 for one split. *)
Definition coords_of (df : DataFrame) : result matrix :=
  match getitem df "xr" with
  | Ok xs =>
      match Numpy.asarray xs with
      | Ok coord_x =>
          match getitem df "yr" with
          | Ok ys =>
              match Numpy.asarray ys with
              | Ok coord_y => Numpy.column_stack coord_x coord_y
              | Raise e => Raise e
              end
          | Raise e => Raise e
          end
      | Raise e => Raise e
      end
  | Raise e => Raise e
  end.

(** Lines 94-160. *)
Definition scale_and_bundle (self : Loader) : M Loader :=
  (no_waps <- lift (the_no_waps self) ;;
   training_df <- lift (the_frame (training_df self)) ;;
   rss_training <- lift (rss_of training_df no_waps) ;;
   testing_df <- lift (the_frame (testing_df self)) ;;
   rss_testing <- lift (rss_of testing_df no_waps) ;;
   rss_training_scaled <-
     scale_rss (rssi_scaler self)
               (length (rows training_df), length no_waps) rss_training ;;
   rss_testing_scaled <-
     scale_rss (rssi_scaler self)
               (length (rows testing_df), length no_waps) rss_testing ;;
   training_coords <- lift (coords_of training_df) ;;
   testing_coords <- lift (coords_of testing_df) ;;
   scaled <-
     match coords_preprocessing self with
     | Some e =>
         tr <- Sklearn.fit_transform e training_coords ;;
         te <- Sklearn.fit_transform e testing_coords ;;
         ret (tr, Some te)
     | None =>
         (* training_coords_scaled is assigned twice; testing_coords_scaled
            is never bound *)
         ret (testing_coords, None)
     end ;;
   let training_labels :=
     PyNamedTuple "TrainLabel"
       [("coords", PyArray training_coords);
        ("coords_scaled", PyArray (fst scaled));
        ("coords_scaler", py_of_scaler (coords_preprocessing self))] in
   let training_data :=
     PyNamedTuple "TrainData"
       [("rss", PyArray rss_training);
        ("rss_scaled", PyArray rss_training_scaled);
        ("rss_scaler", py_of_scaler (rssi_scaler self));
        ("labels", training_labels)] in
   testing_coords_scaled <-
     match snd scaled with
     | Some te => ret te
     | None => raise (UnboundLocalError "testing_coords_scaled")
     end ;;
   let testing_labels :=
     PyNamedTuple "TestLabel"
       [("coords", PyArray testing_coords);
        ("coords_scaled", PyArray testing_coords_scaled);
        ("coords_scaler", py_of_scaler (coords_preprocessing self))] in
   let testing_data :=
     PyNamedTuple "TestData"
       [("rss", PyArray rss_testing);
        ("rss_scaled", PyArray rss_testing_scaled);
        ("labels", testing_labels)] in
   ret {| path := path self; frac := frac self;
          prepocessor := prepocessor self; prefix := prefix self;
          no_val_rss := no_val_rss self; floor := floor self;
          test_size := test_size self; rssi_scaler := rssi_scaler self;
          coords_preprocessing := coords_preprocessing self;
          training_fname := training_fname self;
          testing_fname := testing_fname self;
          data_fname := data_fname self; num_aps := num_aps self;
          training_data := training_data;
          training_df := Some training_df;
          testing_data := testing_data;
          testing_df := Some testing_df;
          no_waps := Loader.no_waps self;
          waps_size := waps_size self |})%py.

(** Lines 88-160. *)
Definition process_data (self : Loader) : M Loader :=
  (self <- fill_missing self ;; scale_and_bundle self)%py.

(** The scaler objects for a preprocessor name (lines 34-48). *)
Definition make_scalers (preprocessor prefix : string)
    : M (estimator * estimator) :=
  (if String.eqb preprocessor "standard_scaler" then
     a <- new_scaler StandardScaler ;;
     b <- new_scaler StandardScaler ;; ret (a, b)
   else if String.eqb preprocessor "min_max_scaler" then
     a <- new_scaler MinMaxScaler ;;
     b <- new_scaler MinMaxScaler ;; ret (a, b)
   else if String.eqb preprocessor "normalization" then
     a <- new_scaler Normalizer ;;
     b <- new_scaler Normalizer ;; ret (a, b)
   else
     print [PyStr "{} - Preprocessing Method is not Supported!";
            PyStr prefix] ;;
     sys_exit 0)%py.

(** [Loader(path, frac, preprocessor, prefix, no_val_rss, floor,
    test_size)], lines 17-59. *)
Definition init (path : string) (frac : Q) (preprocessor prefix : string)
    (no_val_rss floor : Z) (test_size : Q) : M Loader :=
  (scalers <- make_scalers preprocessor prefix ;;
   let self :=
     {| path := path; frac := frac; prepocessor := preprocessor;
        prefix := prefix; no_val_rss := no_val_rss; floor := floor;
        test_size := test_size;
        rssi_scaler := Some (fst scalers);
        coords_preprocessing := Some (snd scalers);
        training_fname := path ++ "trainingData.csv";
        testing_fname := path ++ "testingData.csv";
        data_fname := path ++ "data.csv";
        num_aps := 0;
        training_data := PyNone; training_df := None;
        testing_data := PyNone; testing_df := None;
        no_waps := None; waps_size := None |} in
   self <- load_data self ;;
   process_data self)%py.

End Loader.

(** ** [src/models/dnn_regression.py] *)

Module DNN_Regression.
Import Keras.

Record DNN_Regression : Type := {
  random_state : pyval;
  training_data : pyval;
  testing_data : pyval;
  preprocessor : pyval;
  batch_size : pyval;
  epochs : pyval;
  optimizer : pyval;
  validation_split : pyval;
  dropout : pyval;
  tx_power : pyval;
  patience : pyval;
  checkpoint_filepath : pyval;
  save_model : pyval;
  model : option nat;              (* [None] or the address of a model *)
  rss_train_scaled : pyval;
  power_train : pyval;
  xr_train_scaled : pyval;
  yr_train_scaled : pyval;
  rss_test_scaled : pyval;
  power_test : pyval;
  xr_test_scaled : pyval;
  yr_test_scaled : pyval
}.

Definition with_model (m : option nat) (self : DNN_Regression)
    : DNN_Regression :=
  {| random_state := random_state self;
     training_data := training_data self;
     testing_data := testing_data self;
     preprocessor := preprocessor self;
     batch_size := batch_size self; epochs := epochs self;
     optimizer := optimizer self;
     validation_split := validation_split self;
     dropout := dropout self; tx_power := tx_power self;
     patience := patience self;
     checkpoint_filepath := checkpoint_filepath self;
     save_model := save_model self;
     model := m;
     rss_train_scaled := rss_train_scaled self;
     power_train := power_train self;
     xr_train_scaled := xr_train_scaled self;
     yr_train_scaled := yr_train_scaled self;
     rss_test_scaled := rss_test_scaled self;
     power_test := power_test self;
     xr_test_scaled := xr_test_scaled self;
     yr_test_scaled := yr_test_scaled self |}.

Definition is_none (v : pyval) : bool :=
  match v with
  | PyNone => true
  | _ => false
  end.

(** [v.labels.coords_scaled[:, j]] *)
Definition label_column (v : pyval) (j : nat) : M pyval :=
  (labels <- lift (getattr v "labels") ;;
   coords_scaled <- lift (getattr labels "coords_scaled") ;;
   lift (getitem_column coords_scaled j))%py.

(** The constructor, lines 15-59.  An assignment that ends in a comma
    stores a 1-element tuple. *)
Definition init (training_data testing_data random_state preprocessor
    batch_size epochs optimizer validation_split dropout tx_power patience
    checkpoint_filepath save_model : pyval) : M DNN_Regression :=
  (let self_training_data := PyTuple [training_data] in
   let self_testing_data := PyTuple [testing_data] in
   let self_optimizer := PyTuple [optimizer] in
   rss_train_scaled <- lift (getattr self_training_data "rss_scaled") ;;
   power_train <- lift (getattr self_training_data "power") ;;
   xr_train_scaled <- label_column self_testing_data 0 ;;
   yr_train_scaled <- label_column self_testing_data 1 ;;
   rss_test_scaled <- lift (getattr self_testing_data "rss_scaled") ;;
   power_test <- lift (getattr self_testing_data "power") ;;
   xr_test_scaled <- label_column self_testing_data 0 ;;
   yr_test_scaled <- label_column self_testing_data 1 ;;
   (if is_none random_state then ret tt
    else raise (TypeError "'module' object is not callable")) ;;
   ret {| random_state := random_state;
          training_data := self_training_data;
          testing_data := self_testing_data;
          preprocessor := preprocessor;
          batch_size := batch_size; epochs := epochs;
          optimizer := self_optimizer;
          validation_split := validation_split;
          dropout := dropout; tx_power := tx_power;
          patience := patience;
          checkpoint_filepath := checkpoint_filepath;
          save_model := save_model;
          model := None;
          rss_train_scaled := rss_train_scaled;
          power_train := power_train;
          xr_train_scaled := xr_train_scaled;
          yr_train_scaled := yr_train_scaled;
          rss_test_scaled := rss_test_scaled;
          power_test := power_test;
          xr_test_scaled := xr_test_scaled;
          yr_test_scaled := yr_test_scaled |})%py.

(** The feature-extraction branch built on an input tensor. *)
Definition branch (rate : pyval) (input : tensor) : tensor :=
  Dense 32 (Some "relu") None
    (Dropout rate (Dense 64 (Some "relu") None input)).

(** [m.compile(optimizer=..., loss='mse', metrics=['accuracy'])] on the
    model object at [addr]. *)
Definition compile (addr : nat) (optimizer : pyval) : M unit :=
  (m <- get_model addr ;;
   set_model addr
     {| inputs := inputs m; outputs := outputs m;
        compiled := Some {| c_optimizer := optimizer; c_loss := "mse";
                            c_metrics := ["accuracy"] |};
        fitted := fitted m |})%py.

(** Lines 61-118. *)
Definition build_model (self : DNN_Regression) : M DNN_Regression :=
  (num_anchor <- lift (len (rss_train_scaled self)) ;;
   print [PyInt (Z.of_nat num_anchor)] ;;
   tx <- lift (truthy (tx_power self)) ;;
   if (tx : bool) then
     let input_rss := Input [num_anchor] "input_rss" in
     let input_power := Input [num_anchor] "input_power" in
     let hidden_rss := branch (dropout self) input_rss in
     let hidden_power := branch (dropout self) input_power in
     let merged := Concatenate [hidden_rss; hidden_power] in
     let hidden_merged :=
       Dense 64 (Some "relu") None
         (Dropout (dropout self) (Dense 128 (Some "relu") None merged)) in
     let output_xr := Dense 1 None (Some "output_xr") hidden_merged in
     let output_yr := Dense 1 None (Some "output_yr") hidden_merged in
     (* bound to the local name [model] only *)
     model <- new_model {| inputs := [input_rss; input_power];
                           outputs := [output_xr; output_yr];
                           compiled := None; fitted := [] |} ;;
     compile model (optimizer self) ;;
     ret self
   else
     let input_rss := Input [num_anchor] "input_rss" in
     let hidden_rss := branch (dropout self) input_rss in
     let output_xr := Dense 1 None (Some "output_xr") hidden_rss in
     let output_yr := Dense 1 None (Some "output_yr") hidden_rss in
     model <- new_model {| inputs := [input_rss];
                           outputs := [output_xr; output_yr];
                           compiled := None; fitted := [] |} ;;
     let self := with_model (Some model) self in
     compile model (optimizer self) ;;
     ret self)%py.

(** [self.model.<method>]: the model object, or the fault on [None]. *)
Definition the_model (self : DNN_Regression) (method : string) : M nat :=
  match model self with
  | Some addr => ret addr
  | None => raise (AttributeError "NoneType" method)
  end.

(** [m.fit(x, y, ...)]: the call is recorded on the model object. *)
Definition fit (addr : nat) (args : FitArgs) : M unit :=
  (m <- get_model addr ;;
   set_model addr
     {| inputs := inputs m; outputs := outputs m; compiled := compiled m;
        fitted := fitted m ++ [args] |})%py.

(** Lines 120-157. *)
Definition train (self : DNN_Regression) : M DNN_Regression :=
  (let checkpoint_callback :=
     ModelCheckpoint (checkpoint_filepath self) false "val_loss" "min"
                     true 1 in
   let earlystopping_callback :=
     EarlyStopping "val_loss" (patience self) "min" true 1 in
   tx <- lift (truthy (tx_power self)) ;;
   m <- the_model self "fit" ;;
   (if (tx : bool) then
      fit m {| f_x := [rss_train_scaled self; power_train self];
               f_y := [xr_train_scaled self; yr_train_scaled self];
               f_epochs := epochs self;
               f_batch_size := batch_size self;
               f_validation_data :=
                 ([rss_test_scaled self; power_test self],
                  [xr_test_scaled self; yr_test_scaled self]);
               f_callbacks :=
                 [checkpoint_callback; earlystopping_callback] |}
    else
      fit m {| f_x := [rss_train_scaled self];
               f_y := [xr_train_scaled self; yr_train_scaled self];
               f_epochs := epochs self;
               f_batch_size := batch_size self;
               f_validation_data :=
                 ([rss_test_scaled self],
                  [xr_test_scaled self; yr_test_scaled self]);
               f_callbacks :=
                 [checkpoint_callback; earlystopping_callback] |}) ;;
   _ <- the_model self "summary" ;;
   print [PyNone] ;;
   ret self)%py.

(** [scaler.inverse_transform(v)] on a 1-D array: [StandardScaler] accepts
    it and broadcasts, [MinMaxScaler] wants a 2-D array. *)
Definition inverse_transform_1d (e : estimator) (v : list R) : M pyval :=
  match est_kind e with
  | StandardScaler =>
      (h <- get_heap ;;
       match h !! est_loc e with
       | Some (StandardFit mean_ scale_) =>
           if Nat.eqb (length v) 0
           then raise (ValueError "Found array with 0 sample(s)")
           else
             let f := fun (x : R) (p : R * R) => (x * snd p + fst p)%R in
             if Nat.eqb (length mean_) (length v)
             then ret (PyVector (zip_with f v (zip mean_ scale_)))
             else
               match zip mean_ scale_ with
               | [p] => ret (PyVector (map (fun x => f x p) v))
               | _ =>
                   raise (ValueError
                            "operands could not be broadcast together")
               end
       | _ => raise NotFittedError
       end)%py
  | MinMaxScaler =>
      (h <- get_heap ;;
       match h !! est_loc e with
       | Some (MinMaxFit _ _) =>
           raise (ValueError "Expected 2D array, got 1D array instead")
       | _ => raise NotFittedError
       end)%py
  | Normalizer => raise (AttributeError "Normalizer" "inverse_transform")
  end.

(** Call of the object that [x.inverse_transform] evaluated to. *)
Definition call_inverse_transform (f arg : pyval) : M pyval :=
  match f with
  | PyBoundMethod (PyEstimator e) _ =>
      match arg with
      | PyArray X =>
          (r <- Sklearn.inverse_transform e X ;; ret (PyArray r))%py
      | PyVector v => inverse_transform_1d e v
      | _ => raise (ValueError "Expected 2D array")
      end
  | _ => raise (TypeError "object is not callable")
  end.

Definition newline : string := String (Ascii.ascii_of_nat 10) EmptyString.

Section Evaluate.

(** The trained network's [predict] is the library's; it is a parameter. *)
Variable predict : Model -> list pyval -> result (list pyval).

Definition inverse (self : DNN_Regression) (v : pyval) : M pyval :=
  (f <- lift (getattr (preprocessor self) "inverse_transform") ;;
   call_inverse_transform f v)%py.

(** Lines 162-185.  The result is the four metric values
    [(xr_mse, yr_mse, xr_r2, yr_r2)], which the method prints. *)
Definition evaluate (self : DNN_Regression) : M (R * R * R * R) :=
  (tx <- lift (truthy (tx_power self)) ;;
   addr <- the_model self "predict" ;;
   m <- get_model addr ;;
   preds <-
     lift (predict m (if (tx : bool)
                      then [rss_test_scaled self; power_test self]
                      else [rss_test_scaled self])) ;;
   match preds with
   | [xr_pred; yr_pred] =>
       xr_pred <- inverse self xr_pred ;;
       yr_pred <- inverse self yr_pred ;;
       xr_test <- inverse self (xr_test_scaled self) ;;
       yr_test <- inverse self (yr_test_scaled self) ;;
       xr_mse <- lift (Sklearn.mse xr_test xr_pred) ;;
       yr_mse <- lift (Sklearn.mse yr_test yr_pred) ;;
       xr_r2 <- lift (Sklearn.r2 xr_test xr_pred) ;;
       yr_r2 <- lift (Sklearn.r2 yr_test yr_pred) ;;
       print [PyStr "-=-=-=-=-=-=-=-=- Metrics Evaluation -=-=-=-=-=-=-=-=-"] ;;
       print [PyStr "Deep Neural Network (Regression)"] ;;
       print [PyStr "MSE for X Coordinates: "; PyFloat xr_mse] ;;
       print [PyStr "MSE for Y Coordinates: "; PyFloat yr_mse] ;;
       print [PyStr newline] ;;
       print [PyStr "R2 Score for X Coordinates: "; PyFloat xr_r2] ;;
       print [PyStr "R2 Score for Y Coordinates: "; PyFloat yr_r2] ;;
       print [PyStr "-=-=-=-=-=-=-=-=- Metrics Evaluation -=-=-=-=-=-=-=-=-"] ;;
       ret (xr_mse, yr_mse, xr_r2, yr_r2)
   | _ => raise (ValueError "wrong number of values to unpack")
   end)%py.

End Evaluate.

End DNN_Regression.

(** ** Observations on layer graphs *)

Module Graph.
Import Keras.

(** Names of the input tensors a tensor is computed from. *)
Fixpoint sources (t : tensor) : list string :=
  match t with
  | Input _ name => [name]
  | Dense _ _ _ x => sources x
  | Dropout _ x => sources x
  | Concatenate xs => List.flat_map sources xs
  end.

(** Number of concatenation layers below a tensor. *)
Fixpoint concatenations (t : tensor) : nat :=
  match t with
  | Input _ _ => 0
  | Dense _ _ _ x => concatenations x
  | Dropout _ x => concatenations x
  | Concatenate xs => S (list_sum (map concatenations xs))
  end.

End Graph.

(** ** Vocabulary of the statements *)

(** The bundles [process_data] stores are the named tuples of lines
    124-160 of the loader. *)
Definition train_bundle (rss rss_scaled coords coords_scaled : matrix)
    (rss_scaler coords_scaler : pyval) : pyval :=
  PyNamedTuple "TrainData"
    [("rss", PyArray rss); ("rss_scaled", PyArray rss_scaled);
     ("rss_scaler", rss_scaler);
     ("labels",
      PyNamedTuple "TrainLabel"
        [("coords", PyArray coords); ("coords_scaled", PyArray coords_scaled);
         ("coords_scaler", coords_scaler)])].

Definition test_bundle (rss rss_scaled coords coords_scaled : matrix)
    (coords_scaler : pyval) : pyval :=
  PyNamedTuple "TestData"
    [("rss", PyArray rss); ("rss_scaled", PyArray rss_scaled);
     ("labels",
      PyNamedTuple "TestLabel"
        [("coords", PyArray coords); ("coords_scaled", PyArray coords_scaled);
         ("coords_scaler", coords_scaler)])].

(** ** Sample objects *)

(** A world with no output, no files, no objects, and a generator that
    draws zeros. *)
Definition empty_world : World :=
  {| stdout := []; opened := []; files := fun _ => None; heap := [];
     models := []; rng := fun _ => O; rng_pos := O |}.

(** A trainer object as the constructor's assignments would leave it, for
    two training samples over two access points, with the defaults of the
    constructor for the hyper-parameters. *)
Definition sample_trainer (tx_power : bool) : DNN_Regression.DNN_Regression :=
  {| DNN_Regression.random_state := PyNone;
     DNN_Regression.training_data := PyNone;
     DNN_Regression.testing_data := PyNone;
     DNN_Regression.preprocessor := PyStr "standard_scaler";
     DNN_Regression.batch_size := PyInt 8;
     DNN_Regression.epochs := PyInt 10;
     DNN_Regression.optimizer := PyStr "adam";
     DNN_Regression.validation_split := PyNone;
     DNN_Regression.dropout := PyFloat (2 / 10);
     DNN_Regression.tx_power := PyBool tx_power;
     DNN_Regression.patience := PyInt 10;
     DNN_Regression.checkpoint_filepath := PyStr "../checkpoint/";
     DNN_Regression.save_model := PyBool true;
     DNN_Regression.model := None;
     DNN_Regression.rss_train_scaled := PyArray [[-1; 1]; [1; -1]]%R;
     DNN_Regression.power_train := PyArray [[0; 0]; [0; 0]]%R;
     DNN_Regression.xr_train_scaled := PyVector [-1; 1]%R;
     DNN_Regression.yr_train_scaled := PyVector [1; -1]%R;
     DNN_Regression.rss_test_scaled := PyArray [[-1; 1]; [1; -1]]%R;
     DNN_Regression.power_test := PyArray [[0; 0]; [0; 0]]%R;
     DNN_Regression.xr_test_scaled := PyVector [-1; 1]%R;
     DNN_Regression.yr_test_scaled := PyVector [1; -1]%R |}.

(** A network that predicts zero for every sample. *)
Definition zero_predict (_ : Keras.Model) (xs : list pyval)
    : result (list pyval) :=
  match xs with
  | PyArray X :: _ =>
      Ok [PyArray (map (fun _ => [0%R]) X); PyArray (map (fun _ => [0%R]) X)]
  | _ => Raise (ValueError "Expected array-like")
  end.

(** The sample trainer after [build_model] with the flag disabled. *)
Definition built_sample : World * result DNN_Regression.DNN_Regression :=
  DNN_Regression.build_model (sample_trainer false) empty_world.

(** The [floor] cell of a row of a frame. *)
Definition floor_of (df : DataFrame) (r : nat * list cell) : cell :=
  match col_index "floor" (columns df) with
  | Some j => default None (snd r !! j)
  | None => None
  end.

(** A data file with two access points: six fingerprints, five of them on
    floor 1, some readings missing. *)
Definition sample_table : Table :=
  {| header := ["AP1"; "AP2"; "floor"; "xr"; "yr"];
     lines :=
       [[Some (-(60 # 1)); None; Some 1; Some 0; Some 0];
        [None; Some (-(70 # 1)); Some 1; Some 2; Some 4];
        [Some (-(50 # 1)); Some (-(55 # 1)); Some 2; Some 9; Some 9];
        [Some (-(80 # 1)); Some (-(40 # 1)); Some 1; Some 4; Some 8];
        [Some (-(65 # 1)); None; Some 1; Some 6; Some 2];
        [None; None; Some 1; Some 10; Some 6]]%Q |}.

Definition sample_world : World :=
  {| stdout := []; opened := [];
     files := fun p =>
                if String.eqb p "../datas/data.csv" then Some sample_table
                else None;
     heap := [NotFitted; NotFitted];
     models := []; rng := fun i => i; rng_pos := O |}.

(** The loader as the constructor leaves it before it calls [load_data],
    for the given preprocessor class and sampling fraction. *)
Definition sample_loader (k : scaler_kind) (frac : Q) : Loader.Loader :=
  {| Loader.path := "../datas/"; Loader.frac := frac;
     Loader.prepocessor := "standard_scaler";
     Loader.prefix := "IPS-LOADER";
     Loader.no_val_rss := (-100); Loader.floor := 1;
     Loader.test_size := 2 # 5;
     Loader.rssi_scaler := Some {| est_kind := k; est_loc := 0 |};
     Loader.coords_preprocessing := Some {| est_kind := k; est_loc := 1 |};
     Loader.training_fname := "../datas/trainingData.csv";
     Loader.testing_fname := "../datas/testingData.csv";
     Loader.data_fname := "../datas/data.csv";
     Loader.num_aps := 0;
     Loader.training_data := PyNone; Loader.training_df := None;
     Loader.testing_data := PyNone; Loader.testing_df := None;
     Loader.no_waps := None; Loader.waps_size := None |}.

(** Every row of a frame has one cell per column. *)
Definition frame_wf (df : DataFrame) : Prop :=
  Forall (fun r => length (snd r) = length (columns df)) (rows df).

(** [df'] is [df] with the missing cells of the columns [names] replaced by
    [v]: same labels and row widths; in a listed column a missing cell
    holds [v] and a present one keeps its value, so none is missing; the
    cells of the other columns are the same. *)
Definition filled (names : list string) (v : Q) (df df' : DataFrame) : Prop :=
  columns df' = columns df
  /\ length (rows df') = length (rows df)
  /\ forall i label cells,
       rows df !! i = Some (label, cells) ->
       exists cells',
         rows df' !! i = Some (label, cells')
         /\ length cells' = length cells
         /\ (forall name j,
               name ∈ names -> col_index name (columns df) = Some j ->
               exists q,
                 cells' !! j = Some (Some q)
                 /\ (cells !! j = Some None -> q = v)
                 /\ (forall q0, cells !! j = Some (Some q0) -> q = q0))
         /\ (forall j,
               (forall name, name ∈ names ->
                             col_index name (columns df) <> Some j) ->
               cells' !! j = cells !! j).

(** The sample loader after [load_data], without down-sampling. *)
Definition loaded_sample : World * result Loader.Loader :=
  Eval vm_compute in
    Loader.load_data (sample_loader StandardScaler 1) sample_world.

Definition loaded_world : World := fst loaded_sample.

Definition loaded_loader : Loader.Loader :=
  match snd loaded_sample with
  | Ok self => self
  | Raise _ => sample_loader StandardScaler 1
  end.

(** The statistics a scaler of class [k] stores when it is fitted on the
    single column [flat]: one value per attribute. *)
Definition shared_statistic (k : scaler_kind) (flat : list R) : fit_state :=
  match k with
  | StandardScaler =>
      StandardFit [Sklearn.mean flat]
        [Sklearn.handle_zeros_in_scale (sqrt (Sklearn.variance flat))]
  | MinMaxScaler =>
      let scale :=
        ((1 - 0)
         / Sklearn.handle_zeros_in_scale
             (Sklearn.list_max flat - Sklearn.list_min flat))%R in
      MinMaxFit [(0 - Sklearn.list_min flat * scale)%R] [scale]
  | Normalizer => NormalizerFit
  end.

(** The map applied to every entry of an array whose flattened values are
    [flat], whatever the column of the entry. *)
Definition shared_transform (k : scaler_kind) (flat : list R) (x : R) : R :=
  match shared_statistic k flat with
  | StandardFit [mean_] [scale_] => (x - mean_) / scale_
  | MinMaxFit [min_] [scale_] => x * scale_ + min_
  | _ => x / Sklearn.handle_zeros_in_scale (Sklearn.l2_norm [x])
  end%R.

(** Two 2-D arrays have the same number of rows and the same row widths. *)
Definition same_shape (X Y : matrix) : Prop := map length X = map length Y.

(** The scaler object [e], fitted on [X] in the world [w], gives [X] back
    from the transformed array. *)
Definition round_trips (e : estimator) (X : matrix) (w : World) : Prop :=
  exists w1 Xs,
    Sklearn.fit_transform e X w = (w1, Ok Xs)
    /\ Sklearn.inverse_transform e Xs w1 = (w1, Ok X).

(** The cell at position [j] of a row holds a number. *)
Definition present (row : list cell) (j : nat) : Prop :=
  exists q, row !! j = Some (Some q).

(** The frame has the two coordinate columns, with a number in every row. *)
Definition has_coords (df : DataFrame) : Prop :=
  exists jx jy,
    col_index "xr" (columns df) = Some jx
    /\ col_index "yr" (columns df) = Some jy
    /\ Forall (fun r => present (snd r) jx /\ present (snd r) jy) (rows df).

(** What [process_data] needs of a frame: one cell per column in every
    row, at least one row, the feature columns among its columns, and the
    coordinates. *)
Definition frame_ready (names : list string) (df : DataFrame) : Prop :=
  frame_wf df /\ rows df <> []
  /\ Forall (fun n => is_Some (col_index n (columns df))) names
  /\ has_coords df.

(** Unfold the monad's operations and compute. *)
Ltac run :=
  unfold bind, lift, ret, raise, sys_exit, print, get_heap, set_heap,
    get_model, set_model, new_model, new_scaler; simpl.

(** ** What a computation leaves alone *)

(** [m] relates every world it starts in to the world it ends in by [P],
    whether it returns or raises. *)
Definition keeps {A} (P : World -> World -> Prop) (m : M A) : Prop :=
  forall w, P w (fst (m w)).

(** Only the random generator's position may differ. *)
Definition only_rng_moved (w w' : World) : Prop :=
  stdout w' = stdout w /\ opened w' = opened w /\ files w' = files w
  /\ heap w' = heap w /\ models w' = models w.

(** Only the list of opened files and the generator's position may
    differ: no output, no scaler fitted, no model touched. *)
Definition only_read (w w' : World) : Prop :=
  stdout w' = stdout w /\ files w' = files w
  /\ heap w' = heap w /\ models w' = models w.

(** Only the state of the scaler objects may differ, and their number is
    the same. *)
Definition only_refitted (w w' : World) : Prop :=
  stdout w' = stdout w /\ opened w' = opened w /\ files w' = files w
  /\ models w' = models w /\ rng_pos w' = rng_pos w
  /\ length (heap w') = length (heap w).

(** Only the standard output may differ. *)
Definition only_printed (w w' : World) : Prop :=
  opened w' = opened w /\ files w' = files w /\ heap w' = heap w
  /\ models w' = models w /\ rng_pos w' = rng_pos w.

(** The scaler class a preprocessor name stands for (lines 34-45 of the
    loader). *)
Definition scaler_of_name (name : string) : option scaler_kind :=
  if String.eqb name "standard_scaler" then Some StandardScaler
  else if String.eqb name "min_max_scaler" then Some MinMaxScaler
  else if String.eqb name "normalization" then Some Normalizer
  else None.

(** The sample loader before [load_data], for another floor. *)
Definition sample_loader_on_floor (floor : Z) : Loader.Loader :=
  {| Loader.path := "../datas/"; Loader.frac := 1;
     Loader.prepocessor := "standard_scaler";
     Loader.prefix := "IPS-LOADER";
     Loader.no_val_rss := (-100); Loader.floor := floor;
     Loader.test_size := 2 # 5;
     Loader.rssi_scaler :=
       Some {| est_kind := StandardScaler; est_loc := 0 |};
     Loader.coords_preprocessing :=
       Some {| est_kind := StandardScaler; est_loc := 1 |};
     Loader.training_fname := "../datas/trainingData.csv";
     Loader.testing_fname := "../datas/testingData.csv";
     Loader.data_fname := "../datas/data.csv";
     Loader.num_aps := 0;
     Loader.training_data := PyNone; Loader.training_df := None;
     Loader.testing_data := PyNone; Loader.testing_df := None;
     Loader.no_waps := None; Loader.waps_size := None |}.

(** A world whose data file lacks the [floor] column. *)
Definition no_floor_world : World :=
  {| stdout := []; opened := [];
     files := fun p =>
                if String.eqb p "../datas/data.csv"
                then Some {| header := ["AP1"; "xr"; "yr"];
                             lines := [[Some (-(60 # 1)); Some 0; Some 0];
                                       [Some (-(70 # 1)); Some 2; Some 4]]%Q |}
                else None;
     heap := [NotFitted; NotFitted];
     models := []; rng := fun i => i; rng_pos := O |}.

(** The number of rows [df.sample(frac=frac)] draws from [n] rows. *)
Definition sample_size (frac : Q) (n : nat) : nat :=
  Z.to_nat (py_round (frac * inject_Z (Z.of_nat n))).

(** The sample loader after [load_data] with a sampling fraction of one
    tenth, which leaves no row in either frame. *)
Definition downsampled_sample : World * result Loader.Loader :=
  Eval vm_compute in
    Loader.load_data (sample_loader StandardScaler (1 # 10)) sample_world.

Definition downsampled_world : World := fst downsampled_sample.

Definition downsampled_loader : Loader.Loader :=
  match snd downsampled_sample with
  | Ok self => self
  | Raise _ => sample_loader StandardScaler (1 # 10)
  end.

(** The loaded sample loader with other scaler fields. *)
Definition with_scalers (rssi coords : option estimator)
    (self : Loader.Loader) : Loader.Loader :=
  {| Loader.path := Loader.path self; Loader.frac := Loader.frac self;
     Loader.prepocessor := Loader.prepocessor self;
     Loader.prefix := Loader.prefix self;
     Loader.no_val_rss := Loader.no_val_rss self;
     Loader.floor := Loader.floor self;
     Loader.test_size := Loader.test_size self;
     Loader.rssi_scaler := rssi;
     Loader.coords_preprocessing := coords;
     Loader.training_fname := Loader.training_fname self;
     Loader.testing_fname := Loader.testing_fname self;
     Loader.data_fname := Loader.data_fname self;
     Loader.num_aps := Loader.num_aps self;
     Loader.training_data := Loader.training_data self;
     Loader.training_df := Loader.training_df self;
     Loader.testing_data := Loader.testing_data self;
     Loader.testing_df := Loader.testing_df self;
     Loader.no_waps := Loader.no_waps self;
     Loader.waps_size := Loader.waps_size self |}.

(** The loaded sample loader with two scaler objects of class [k]. *)
Definition loaded_loader_of_kind (k : scaler_kind) : Loader.Loader :=
  with_scalers (Some {| est_kind := k; est_loc := 0 |})
               (Some {| est_kind := k; est_loc := 1 |}) loaded_loader.

(** The sample trainer with the model at address 0 and another object in
    the [preprocessor] field. *)
Definition sample_evaluator (p : pyval) : DNN_Regression.DNN_Regression :=
  {| DNN_Regression.random_state := PyNone;
     DNN_Regression.training_data := PyNone;
     DNN_Regression.testing_data := PyNone;
     DNN_Regression.preprocessor := p;
     DNN_Regression.batch_size := PyInt 8;
     DNN_Regression.epochs := PyInt 10;
     DNN_Regression.optimizer := PyStr "adam";
     DNN_Regression.validation_split := PyNone;
     DNN_Regression.dropout := PyFloat (2 / 10);
     DNN_Regression.tx_power := PyBool false;
     DNN_Regression.patience := PyInt 10;
     DNN_Regression.checkpoint_filepath := PyStr "../checkpoint/";
     DNN_Regression.save_model := PyBool true;
     DNN_Regression.model := Some O;
     DNN_Regression.rss_train_scaled := PyArray [[-1; 1]; [1; -1]]%R;
     DNN_Regression.power_train := PyArray [[0; 0]; [0; 0]]%R;
     DNN_Regression.xr_train_scaled := PyVector [-1; 1]%R;
     DNN_Regression.yr_train_scaled := PyVector [1; -1]%R;
     DNN_Regression.rss_test_scaled := PyArray [[-1; 1]; [1; -1]]%R;
     DNN_Regression.power_test := PyArray [[0; 0]; [0; 0]]%R;
     DNN_Regression.xr_test_scaled := PyVector [-1; 1]%R;
     DNN_Regression.yr_test_scaled := PyVector [1; -1]%R |}.

(** A world with one model object and one scaler object in the state
    [st]. *)
Definition evaluation_world (st : fit_state) : World :=
  {| stdout := []; opened := []; files := fun _ => None; heap := [st];
     models := [{| Keras.inputs := [Keras.Input [2%nat] "input_rss"];
                   Keras.outputs := []; Keras.compiled := None;
                   Keras.fitted := [] |}];
     rng := fun _ => O; rng_pos := O |}.



(** The number [process_data] takes for the column [name] of the row [r]
    of the frame [df]: the cell's number, or the value [v] for a missing
    one. *)
Definition reading (v : Z) (df : DataFrame) (r : nat * list cell)
    (name : string) : R :=
  match col_index name (columns df) with
  | Some j => Q2R (default (inject_Z v) (default None (snd r !! j)))
  | None => 0
  end.

(** The frame [read_csv] returns for a table. *)
Definition frame_of_table (t : Table) : DataFrame :=
  {| columns := header t;
     rows := zip (seq 0 (length (lines t)))
                 (map (resize (length (header t)) None) (lines t)) |}.

(** * Properties *)

#[local] Open Scope py_scope.

(** ** The monad *)

Lemma bind_ok {A B} (m : M A) (k : A -> M B) (w w' : World) (b : B) :
  bind m k w = (w', Ok b) ->
  exists a w1, m w = (w1, Ok a) /\ k a w1 = (w', Ok b).
Proof.
  unfold bind. destruct (m w) as [w1 [a|e]]; intros H.
  - exists a, w1. split; [reflexivity | exact H].
  - discriminate H.
Qed.

Lemma bind_run {A B} (m : M A) (k : A -> M B) (w w1 : World) (a : A) :
  m w = (w1, Ok a) -> bind m k w = k a w1.
Proof. unfold bind. now intros ->. Qed.

Lemma lift_ok {A} (r : result A) (w w' : World) (a : A) :
  lift r w = (w', Ok a) -> r = Ok a /\ w' = w.
Proof. unfold lift. intros H. inversion H. split; reflexivity. Qed.

Lemma ret_ok {A} (x a : A) (w w' : World) :
  ret x w = (w', Ok a) -> x = a /\ w' = w.
Proof. unfold ret. intros H. inversion H. split; reflexivity. Qed.

(** ** The regression trainer *)

Lemma getattr_tuple_raises (items : list pyval) (attr : string) :
  mem_string attr tuple_attrs = false ->
  getattr (PyTuple items) attr = Raise (AttributeError "tuple" attr).
Proof. intros H. unfold getattr. now rewrite H. Qed.

(** If the model field holds the address of a model object, [train] records
    one call of [fit] on that object. *)
Lemma train_on_built_model (self : DNN_Regression.DNN_Regression)
    (w : World) (addr : nat) (m : Keras.Model) (tx : bool) :
  DNN_Regression.model self = Some addr ->
  models w !! addr = Some m ->
  truthy (DNN_Regression.tx_power self) = Ok tx ->
  exists w', DNN_Regression.train self w = (w', Ok self).
Proof.
  intros Hm Hl Htx. unfold DNN_Regression.train, DNN_Regression.the_model,
    DNN_Regression.fit.
  rewrite Hm. run. rewrite Htx. simpl.
  destruct tx; simpl; rewrite Hl; simpl; eexists; reflexivity.
Qed.

(** [build_model] with the flag disabled stores the new, compiled
    single-input model in the model field. *)
Lemma build_model_single_branch (self : DNN_Regression.DNN_Regression)
    (w : World) (n : nat) :
  len (DNN_Regression.rss_train_scaled self) = Ok n ->
  truthy (DNN_Regression.tx_power self) = Ok false ->
  let input_rss := Keras.Input [n] "input_rss" in
  let hidden_rss :=
    DNN_Regression.branch (DNN_Regression.dropout self) input_rss in
  let m :=
    {| Keras.inputs := [input_rss];
       Keras.outputs :=
         [Keras.Dense 1 None (Some "output_xr") hidden_rss;
          Keras.Dense 1 None (Some "output_yr") hidden_rss];
       Keras.compiled :=
         Some {| Keras.c_optimizer := DNN_Regression.optimizer self;
                 Keras.c_loss := "mse"; Keras.c_metrics := ["accuracy"] |};
       Keras.fitted := [] |} in
  DNN_Regression.build_model self w
  = (with_models (models w ++ [m])
       (with_stdout (stdout w ++ [[PyInt (Z.of_nat n)]]) w),
     Ok (DNN_Regression.with_model (Some (length (models w))) self)).
Proof.
  intros Hn Htx. unfold DNN_Regression.build_model, DNN_Regression.compile.
  run. rewrite Hn, Htx. simpl.
  rewrite lookup_app_r by lia. rewrite Nat.sub_diag. simpl.
  unfold with_models, with_stdout. simpl. do 3 f_equal.
  rewrite insert_app_r_alt by lia. rewrite Nat.sub_diag. reflexivity.
Qed.

(** [build_model] with the flag enabled allocates the two-input model and
    compiles it, and returns the trainer unchanged. *)
Lemma build_model_dual_branch (self : DNN_Regression.DNN_Regression)
    (w : World) (n : nat) :
  len (DNN_Regression.rss_train_scaled self) = Ok n ->
  truthy (DNN_Regression.tx_power self) = Ok true ->
  let rate := DNN_Regression.dropout self in
  let input_rss := Keras.Input [n] "input_rss" in
  let input_power := Keras.Input [n] "input_power" in
  let merged :=
    Keras.Concatenate [DNN_Regression.branch rate input_rss;
                       DNN_Regression.branch rate input_power] in
  let hidden_merged :=
    Keras.Dense 64 (Some "relu") None
      (Keras.Dropout rate (Keras.Dense 128 (Some "relu") None merged)) in
  let m :=
    {| Keras.inputs := [input_rss; input_power];
       Keras.outputs :=
         [Keras.Dense 1 None (Some "output_xr") hidden_merged;
          Keras.Dense 1 None (Some "output_yr") hidden_merged];
       Keras.compiled :=
         Some {| Keras.c_optimizer := DNN_Regression.optimizer self;
                 Keras.c_loss := "mse"; Keras.c_metrics := ["accuracy"] |};
       Keras.fitted := [] |} in
  DNN_Regression.build_model self w
  = (with_models (models w ++ [m])
       (with_stdout (stdout w ++ [[PyInt (Z.of_nat n)]]) w),
     Ok self).
Proof.
  intros Hn Htx. unfold DNN_Regression.build_model, DNN_Regression.compile.
  run. rewrite Hn, Htx. simpl.
  rewrite lookup_app_r by lia. rewrite Nat.sub_diag. simpl.
  unfold with_models, with_stdout. simpl. do 3 f_equal.
  rewrite insert_app_r_alt by lia. rewrite Nat.sub_diag. reflexivity.
Qed.

(** C3.  With the transmit-power flag enabled, [build_model] returns with
    the model field still unset, and [train] and [evaluate] then fault on
    the null model. *)
Theorem build_model_tx_power_leaves_model_unset
    (self : DNN_Regression.DNN_Regression) (w : World) (n : nat) :
  len (DNN_Regression.rss_train_scaled self) = Ok n ->
  truthy (DNN_Regression.tx_power self) = Ok true ->
  DNN_Regression.model self = None ->
  exists w' self',
    DNN_Regression.build_model self w = (w', Ok self')
    /\ DNN_Regression.model self' = None
    /\ DNN_Regression.train self' w'
       = (w', Raise (AttributeError "NoneType" "fit"))
    /\ forall predict,
         DNN_Regression.evaluate predict self' w'
         = (w', Raise (AttributeError "NoneType" "predict")).
Proof.
  intros Hn Htx Hm. eexists. exists self. split.
  - apply build_model_dual_branch; eassumption.
  - split; [exact Hm|]. split.
    + unfold DNN_Regression.train, DNN_Regression.the_model. rewrite Hm.
      run. now rewrite Htx.
    + intros predict.
      unfold DNN_Regression.evaluate, DNN_Regression.the_model. rewrite Hm.
      run. now rewrite Htx.
Qed.

Lemma build_model_tx_power_leaves_model_unset_witness :
  exists w' self',
    DNN_Regression.build_model (sample_trainer true) empty_world
    = (w', Ok self')
    /\ DNN_Regression.model self' = None
    /\ DNN_Regression.train self' w'
       = (w', Raise (AttributeError "NoneType" "fit"))
    /\ forall predict,
         DNN_Regression.evaluate predict self' w'
         = (w', Raise (AttributeError "NoneType" "predict")).
Proof.
  apply (build_model_tx_power_leaves_model_unset (sample_trainer true)
           empty_world 2); reflexivity.
Defined.

(** C9.  The graph [build_model] constructs: one input and the RSS branch
    feeding the two heads when the flag is disabled; two inputs, two
    branches of the same shape, a concatenation and the 128/dropout/64
    merge block before the two heads when it is enabled. *)
Theorem build_model_topology (self : DNN_Regression.DNN_Regression)
    (w : World) (n : nat) (tx : bool) :
  len (DNN_Regression.rss_train_scaled self) = Ok n ->
  truthy (DNN_Regression.tx_power self) = Ok tx ->
  let rate := DNN_Regression.dropout self in
  let relu := Some "relu" in
  let feature_branch x :=
    Keras.Dense 32 relu None
      (Keras.Dropout rate (Keras.Dense 64 relu None x)) in
  let input_rss := Keras.Input [n] "input_rss" in
  let input_power := Keras.Input [n] "input_power" in
  let heads h :=
    [Keras.Dense 1 None (Some "output_xr") h;
     Keras.Dense 1 None (Some "output_yr") h] in
  exists w' self' m,
    DNN_Regression.build_model self w = (w', Ok self')
    /\ models w' = (models w ++ [m])%list
    /\ length (Keras.inputs m) = (if tx then 2 else 1)%nat
    /\ Forall (fun o => Graph.concatenations o = if tx then 1 else 0)%nat
              (Keras.outputs m)
    /\ if tx then
         Keras.inputs m = [input_rss; input_power]
         /\ Keras.outputs m
            = heads
                (Keras.Dense 64 relu None
                   (Keras.Dropout rate
                      (Keras.Dense 128 relu None
                         (Keras.Concatenate
                            [feature_branch input_rss;
                             feature_branch input_power]))))
       else
         Keras.inputs m = [input_rss]
         /\ Keras.outputs m = heads (feature_branch input_rss).
Proof.
  intros Hn Htx. destruct tx; simpl.
  - eexists. exists self. eexists. split.
    + apply build_model_dual_branch; eassumption.
    + simpl. repeat split; try reflexivity.
      repeat constructor.
  - eexists. eexists. eexists. split.
    + apply build_model_single_branch; eassumption.
    + simpl. repeat split; try reflexivity.
      repeat constructor.
Qed.

Lemma build_model_topology_witness :
  exists w' self' m,
    DNN_Regression.build_model (sample_trainer true) empty_world
    = (w', Ok self')
    /\ models w' = [m]
    /\ length (Keras.inputs m) = 2%nat
    /\ map Graph.sources (Keras.outputs m)
       = [["input_rss"; "input_power"]; ["input_rss"; "input_power"]].
Proof.
  destruct (build_model_topology (sample_trainer true) empty_world 2 true
              eq_refl eq_refl)
    as (w' & self' & m & Hb & Hm & Hlen & _ & Hin & Hout).
  exists w', self', m. repeat split; try assumption.
  rewrite Hout. reflexivity.
Defined.

(** C2.  [evaluate] looks [inverse_transform] up on the [preprocessor]
    field, which holds the preprocessor's name; the lookup raises and no
    metric is computed. *)
Theorem evaluate_raises_on_preprocessor_name
    (predict : Keras.Model -> list pyval -> result (list pyval))
    (self : DNN_Regression.DNN_Regression) (w : World) (name : string)
    (addr : nat) (m : Keras.Model) (xr_pred yr_pred : pyval) :
  DNN_Regression.preprocessor self = PyStr name ->
  truthy (DNN_Regression.tx_power self) = Ok false ->
  DNN_Regression.model self = Some addr ->
  models w !! addr = Some m ->
  predict m [DNN_Regression.rss_test_scaled self] = Ok [xr_pred; yr_pred] ->
  DNN_Regression.evaluate predict self w
  = (w, Raise (AttributeError "str" "inverse_transform")).
Proof.
  intros Hp Htx Hm Hl Hpred.
  unfold DNN_Regression.evaluate, DNN_Regression.the_model,
    DNN_Regression.inverse.
  rewrite Hm, Hp. run. rewrite Htx. simpl. rewrite Hl, Hpred. reflexivity.
Qed.

Lemma evaluate_raises_on_preprocessor_name_witness :
  exists w self,
    built_sample = (w, Ok self)
    /\ DNN_Regression.evaluate zero_predict self w
       = (w, Raise (AttributeError "str" "inverse_transform")).
Proof.
  eexists. eexists. split.
  - unfold built_sample.
    apply (build_model_single_branch (sample_trainer false) empty_world 2);
      reflexivity.
  - eapply (evaluate_raises_on_preprocessor_name zero_predict _ _
              "standard_scaler" O); reflexivity.
Defined.

(** ** The loader: construction *)

(** C8.  For a preprocessor name outside the three supported ones the
    constructor prints its message and exits: the outcome is [SystemExit],
    no loader is returned, and the only change to the world is the printed
    line, so no file has been opened. *)
Theorem init_unsupported_preprocessor (path : string) (frac : Q)
    (preprocessor prefix : string) (no_val_rss floor : Z) (test_size : Q)
    (w : World) :
  preprocessor <> "standard_scaler" ->
  preprocessor <> "min_max_scaler" ->
  preprocessor <> "normalization" ->
  exists w',
    Loader.init path frac preprocessor prefix no_val_rss floor test_size w
    = (w', Raise (SystemExit 0))
    /\ stdout w'
       = (stdout w
          ++ [[PyStr "{} - Preprocessing Method is not Supported!";
               PyStr prefix]])%list
    /\ opened w' = opened w
    /\ heap w' = heap w.
Proof.
  intros H1 H2 H3. apply String.eqb_neq in H1, H2, H3.
  eexists. unfold Loader.init, Loader.make_scalers.
  rewrite H1, H2, H3. run. repeat split.
Qed.

Lemma init_unsupported_preprocessor_witness :
  exists w',
    Loader.init "../datas/" 1 "robust_scaler" "IPS-LOADER" (-100) 1 (1 # 5)
      empty_world
    = (w', Raise (SystemExit 0))
    /\ stdout w'
       = [[PyStr "{} - Preprocessing Method is not Supported!";
           PyStr "IPS-LOADER"]]
    /\ opened w' = []
    /\ heap w' = [].
Proof.
  apply (init_unsupported_preprocessor "../datas/" 1 "robust_scaler"
           "IPS-LOADER" (-100) 1 (1 # 5) empty_world); discriminate.
Defined.

(** ** The loader: filtering and splitting *)

Lemma insert_at_perm {A} (i : nat) (x : A) (l : list A) :
  Permutation (Sklearn.insert_at i x l) (x :: l).
Proof.
  unfold Sklearn.insert_at. rewrite <- Permutation_middle.
  now rewrite take_drop.
Qed.

Lemma shuffle_perm {A} (ds : list nat) (l : list A) :
  Permutation (Sklearn.shuffle ds l) l.
Proof.
  revert ds. induction l as [|x l IH]; intros ds.
  - now destruct ds.
  - destruct ds as [|d ds]; simpl; [reflexivity|].
    rewrite insert_at_perm. now rewrite IH.
Qed.

Lemma permutation_spec (n : nat) (w w' : World) (p : list nat) :
  Sklearn.permutation n w = (w', Ok p) ->
  Permutation p (seq 0 n) /\ w' = with_rng_pos (rng_pos w + n) w.
Proof.
  unfold Sklearn.permutation, draw. run. intros H. inversion H; subst.
  split; [apply shuffle_perm | reflexivity].
Qed.

Lemma permutation_runs (n : nat) (w : World) :
  exists p, Sklearn.permutation n w
            = (with_rng_pos (rng_pos w + n) w, Ok p).
Proof. eexists. unfold Sklearn.permutation, draw. run. reflexivity. Qed.

Lemma elem_of_iloc {A} (l : list A) (ps : list nat) (x : A) :
  x ∈ Sklearn.iloc l ps <-> exists i, i ∈ ps /\ l !! i = Some x.
Proof. unfold Sklearn.iloc. apply list_elem_of_omap. Qed.

Lemma iloc_subseteq {A} (l : list A) (ps : list nat) (x : A) :
  x ∈ Sklearn.iloc l ps -> x ∈ l.
Proof.
  rewrite elem_of_iloc. intros (i & _ & Hi).
  apply list_elem_of_lookup. eauto.
Qed.

Lemma take_drop_disjoint {A} (p : list A) (k j : nat) (x : A) :
  NoDup p -> x ∈ take k p -> x ∈ take j (drop k p) -> False.
Proof.
  intros Hnd H1 H2. rewrite <- (take_drop k p) in Hnd.
  apply NoDup_app in Hnd as (_ & Hdis & _).
  apply (Hdis x H1). eapply subseteq_take; eassumption.
Qed.

(** The two index lists [train_test_split] takes from its permutation. *)
Lemma train_test_split_spec {A} (data : list A) (ts : Q) (w w' : World)
    (tr te : list A) :
  Sklearn.train_test_split data ts w = (w', Ok (tr, te)) ->
  exists p1 p2,
    tr = Sklearn.iloc data p1 /\ te = Sklearn.iloc data p2
    /\ forall i, i ∈ p1 -> i ∈ p2 -> False.
Proof.
  unfold Sklearn.train_test_split. intros H.
  apply bind_ok in H as (sizes & w1 & _ & H).
  apply bind_ok in H as (perm & w2 & Hp & H).
  apply permutation_spec in Hp as [Hp _].
  apply ret_ok in H as [H _]. inversion H; subst.
  eexists. eexists. split; [reflexivity|]. split; [reflexivity|].
  intros i H1 H2. eapply (take_drop_disjoint perm); try eassumption.
  rewrite Hp. apply NoDup_seq.
Qed.

Lemma iloc_labels_disjoint {B} (l : list (nat * B)) (p1 p2 : list nat)
    (r1 r2 : nat * B) :
  NoDup (map fst l) ->
  (forall i, i ∈ p1 -> i ∈ p2 -> False) ->
  r1 ∈ Sklearn.iloc l p1 -> r2 ∈ Sklearn.iloc l p2 -> fst r1 <> fst r2.
Proof.
  intros Hnd Hdis H1 H2 Heq.
  apply elem_of_iloc in H1 as (i1 & Hi1 & Hl1).
  apply elem_of_iloc in H2 as (i2 & Hi2 & Hl2).
  assert (i1 = i2) as ->.
  { eapply (NoDup_lookup (map fst l)); [exact Hnd| |].
    - rewrite list_lookup_fmap, Hl1. reflexivity.
    - rewrite list_lookup_fmap, Hl2. simpl. now rewrite Heq. }
  eauto.
Qed.

Lemma sample_spec (frac : Q) (df df' : DataFrame) (w w' : World) :
  Pandas.sample frac df w = (w', Ok df') ->
  columns df' = columns df /\ forall r, r ∈ rows df' -> r ∈ rows df.
Proof.
  unfold Pandas.sample.
  destruct (negb (Qle_bool 0 frac)); [discriminate|].
  destruct (negb (Qle_bool frac 1)); [discriminate|].
  intros H. apply bind_ok in H as (perm & w1 & _ & H).
  apply ret_ok in H as [H _]. subst df'. simpl.
  split; [reflexivity|]. intros r. apply iloc_subseteq.
Qed.

Lemma NoDup_labels_filter {B} (f : nat * B -> bool) (l : list (nat * B)) :
  NoDup (map fst l) -> NoDup (map fst (List.filter f l)).
Proof.
  induction l as [|x l IH]; simpl; intros Hnd; [constructor|].
  apply NoDup_cons in Hnd as [Hx Hnd].
  destruct (f x); simpl; [|now apply IH].
  apply NoDup_cons. split; [|now apply IH].
  intros Hin. apply Hx.
  apply list_elem_of_In in Hin. apply list_elem_of_In.
  apply in_map_iff in Hin as (y & Hy & Hin). apply in_map_iff.
  exists y. split; [exact Hy|]. apply filter_In in Hin. tauto.
Qed.

Lemma read_csv_labels (path : string) (w w' : World) (df : DataFrame) :
  read_csv path w = (w', Ok df) -> NoDup (map fst (rows df)).
Proof.
  unfold read_csv. intros H. apply bind_ok in H as (t & w1 & _ & H).
  destruct (existsb _ _); [discriminate|].
  apply ret_ok in H as [H _]. subst df. simpl.
  rewrite fst_zip.
  - apply NoDup_seq.
  - rewrite length_seq, length_map. reflexivity.
Qed.

Lemma filter_eq_spec (df df' : DataFrame) (name : string) (v : Q) :
  filter_eq df name v = Ok df' ->
  exists j,
    col_index name (columns df) = Some j
    /\ columns df' = columns df
    /\ rows df'
       = List.filter (fun r => cell_eqb (default None (snd r !! j)) v)
                     (rows df).
Proof.
  unfold filter_eq. destruct (col_index name (columns df)) as [j|];
    [|discriminate].
  intros H. inversion H; subst. exists j. repeat split.
Qed.

Lemma cell_eqb_true (c : cell) (v : Q) :
  cell_eqb c v = true -> exists q, c = Some q /\ (q == v)%Q.
Proof.
  destruct c as [q|]; simpl; [|discriminate].
  intros H. exists q. split; [reflexivity|]. now apply Qeq_bool_iff.
Qed.

(** C7.  After [load_data], every row of the training frame and of the
    testing frame has the configured floor in its [floor] column, and no
    index label occurs in both frames. *)
Theorem load_data_floor_and_disjoint (self self' : Loader.Loader)
    (w w' : World) :
  Loader.load_data self w = (w', Ok self') ->
  exists tr te,
    Loader.training_df self' = Some tr
    /\ Loader.testing_df self' = Some te
    /\ (forall r, r ∈ rows tr ->
          exists q, floor_of tr r = Some q
                    /\ (q == inject_Z (Loader.floor self))%Q)
    /\ (forall r, r ∈ rows te ->
          exists q, floor_of te r = Some q
                    /\ (q == inject_Z (Loader.floor self))%Q)
    /\ (forall r1 r2, r1 ∈ rows tr -> r2 ∈ rows te -> fst r1 <> fst r2).
Proof.
  unfold Loader.load_data. intros H.
  apply bind_ok in H as (data0 & w1 & Hread & H).
  apply bind_ok in H as (data & w2 & Hf & H).
  apply lift_ok in Hf as [Hf ->].
  apply bind_ok in H as ([tr0 te0] & w3 & Hs & H).
  apply bind_ok in H as ([tr te] & w4 & Hsam & H).
  apply ret_ok in H as [H _]. subst self'. simpl in *.
  apply read_csv_labels in Hread.
  apply filter_eq_spec in Hf as (j & Hj & Hcols & Hrows).
  apply train_test_split_spec in Hs as (p1 & p2 & -> & -> & Hdis).
  assert (Hnd : NoDup (map fst (rows data))).
  { rewrite Hrows. now apply NoDup_labels_filter. }
  assert (Hfloor : forall r, r ∈ rows data ->
            cell_eqb (default None (snd r !! j))
                     (inject_Z (Loader.floor self)) = true).
  { intros r Hr. rewrite Hrows in Hr. apply list_elem_of_In in Hr.
    apply filter_In in Hr. tauto. }
  assert (Hsub : columns tr = columns data /\ columns te = columns data
                 /\ (forall r, r ∈ rows tr -> r ∈ Sklearn.iloc (rows data) p1)
                 /\ (forall r, r ∈ rows te -> r ∈ Sklearn.iloc (rows data) p2)).
  { destruct (negb (Qle_bool 1 (Loader.frac self))).
    - apply bind_ok in Hsam as (tr1 & w5 & H1 & Hsam).
      apply bind_ok in Hsam as (te1 & w6 & H2 & Hsam).
      apply ret_ok in Hsam as [Hsam _]. inversion Hsam; subst.
      apply sample_spec in H1 as [Hc1 Hr1].
      apply sample_spec in H2 as [Hc2 Hr2]. simpl in *. tauto.
    - apply ret_ok in Hsam as [Hsam _]. inversion Hsam; subst. simpl. tauto. }
  destruct Hsub as (Hc1 & Hc2 & Hr1 & Hr2).
  exists tr, te. split; [reflexivity|]. split; [reflexivity|].
  split; [|split].
  - intros r Hr. unfold floor_of. rewrite Hc1, Hcols, Hj.
    apply cell_eqb_true, Hfloor. eapply iloc_subseteq. eauto.
  - intros r Hr. unfold floor_of. rewrite Hc2, Hcols, Hj.
    apply cell_eqb_true, Hfloor. eapply iloc_subseteq. eauto.
  - intros r1 r2 H1 H2.
    eapply (iloc_labels_disjoint (rows data) p1 p2); eauto.
Qed.

Lemma load_data_floor_and_disjoint_witness :
  exists w' self' tr te,
    Loader.load_data (sample_loader StandardScaler (1 # 2)) sample_world
    = (w', Ok self')
    /\ Loader.training_df self' = Some tr
    /\ Loader.testing_df self' = Some te
    /\ (forall r, r ∈ rows tr ->
          exists q, floor_of tr r = Some q /\ (q == 1)%Q)
    /\ (forall r, r ∈ rows te ->
          exists q, floor_of te r = Some q /\ (q == 1)%Q)
    /\ (forall r1 r2, r1 ∈ rows tr -> r2 ∈ rows te -> fst r1 <> fst r2).
Proof.
  destruct (Loader.load_data (sample_loader StandardScaler (1 # 2))
              sample_world) as [w' [self'|e]] eqn:E.
  - destruct (load_data_floor_and_disjoint _ _ _ _ E)
      as (tr & te & H1 & H2 & H3).
    exists w', self', tr, te. split; [reflexivity|]. tauto.
  - exfalso. vm_compute in E. discriminate E.
Defined.

(** ** The loader: filling the missing readings *)

Lemma col_index_lt (name : string) (cols : list string) (j : nat) :
  col_index name cols = Some j -> (j < length cols)%nat.
Proof.
  revert j. induction cols as [|c cols IH]; simpl; intros j; [discriminate|].
  destruct (String.eqb name c).
  - intros H. inversion H. lia.
  - destruct (col_index name cols) as [k|]; simpl; [|discriminate].
    intros H. inversion H. specialize (IH k eq_refl). lia.
Qed.

Lemma col_indices_spec (names cols : list string) (js : list nat) :
  col_indices names cols = Ok js ->
  js = omap (fun n => col_index n cols) names
  /\ length js = length names
  /\ forall name, name ∈ names ->
       exists j, col_index name cols = Some j /\ j ∈ js.
Proof.
  revert js. induction names as [|n names IH]; simpl; intros js H.
  - inversion H. repeat split. intros name Hn. inversion Hn.
  - destruct (col_index n cols) as [j|] eqn:Hj; [|discriminate].
    destruct (col_indices names cols) as [js'|]; [|discriminate].
    inversion H; subst. destruct (IH js' eq_refl) as (-> & Hlen & Hin).
    repeat split.
    + simpl. now rewrite Hlen.
    + intros name Hn. apply elem_of_cons in Hn as [->|Hn].
      * exists j. split; [exact Hj | left].
      * destruct (Hin name Hn) as (k & Hk & Hk'). exists k.
        split; [exact Hk | now right].
Qed.

Lemma col_indices_elem (names cols : list string) (js : list nat) (j : nat) :
  col_indices names cols = Ok js -> j ∈ js ->
  exists name, name ∈ names /\ col_index name cols = Some j.
Proof.
  intros H Hj. apply col_indices_spec in H as (-> & _ & _).
  apply list_elem_of_omap in Hj. exact Hj.
Qed.

Lemma length_write_cells (js : list nat) (vs row : list cell) :
  length (write_cells js vs row) = length row.
Proof.
  revert vs row. induction js as [|j js IH]; intros vs row; [reflexivity|].
  destruct vs as [|v vs]; simpl; [reflexivity|].
  now rewrite IH, length_insert.
Qed.

Lemma write_cells_other (js : list nat) (vs row : list cell) (j : nat) :
  j ∉ js -> write_cells js vs row !! j = row !! j.
Proof.
  revert vs row. induction js as [|a js IH]; intros vs row Hj; [reflexivity|].
  destruct vs as [|v vs]; simpl; [reflexivity|].
  apply not_elem_of_cons in Hj as [Hne Hj].
  rewrite IH by exact Hj. now apply list_lookup_insert_ne.
Qed.

Lemma write_cells_listed (g : nat -> cell) (js : list nat) (row : list cell)
    (j : nat) :
  j ∈ js -> (j < length row)%nat ->
  write_cells js (map g js) row !! j = Some (g j).
Proof.
  revert row. induction js as [|a js IH]; intros row Hj Hlt.
  - inversion Hj.
  - simpl. destruct (decide (j ∈ js)) as [Hin|Hout].
    + apply IH; [exact Hin | now rewrite length_insert].
    + apply elem_of_cons in Hj as [->|Hj]; [|contradiction].
      rewrite write_cells_other by exact Hout.
      now apply list_lookup_insert_eq.
Qed.

Lemma fill_frame_rows (names : list string) (v : Z) (df df' : DataFrame) :
  Loader.fill_frame names v df = Ok df' ->
  exists js,
    col_indices names (columns df) = Ok js
    /\ columns df' = columns df
    /\ rows df'
       = map (fun r =>
                (fst r,
                 write_cells js
                   (map (fun j =>
                           Some (default (inject_Z v)
                                         (default None (snd r !! j)))) js)
                   (snd r)))
             (rows df).
Proof.
  unfold Loader.fill_frame, getitem_list.
  destruct (col_indices names (columns df)) as [js|] eqn:Hjs; [|discriminate].
  intros H. inversion H; subst. exists js. split; [reflexivity|].
  split; [reflexivity|].
  unfold setitem_list, fillna. simpl.
  destruct (col_indices_spec _ _ _ Hjs) as (<- & _ & _).
  rewrite !map_map. simpl.
  generalize (rows df). intros l. induction l as [|r l IH]; simpl.
  - reflexivity.
  - rewrite IH. f_equal. f_equal. f_equal. now rewrite map_map.
Qed.

Lemma fill_frame_filled (names : list string) (v : Z) (df df' : DataFrame) :
  frame_wf df ->
  Loader.fill_frame names v df = Ok df' ->
  filled names (inject_Z v) df df'.
Proof.
  intros Hwf H. apply fill_frame_rows in H as (js & Hjs & Hcols & Hrows).
  split; [exact Hcols|]. split; [now rewrite Hrows, length_map|].
  intros i label cells Hi. rewrite Hrows.
  eexists. split.
  { change (@map ?A ?B) with (@fmap list _ A B).
    rewrite list_lookup_fmap, Hi. reflexivity. }
  simpl. split; [apply length_write_cells|].
  assert (Hlen : length cells = length (columns df)).
  { unfold frame_wf in Hwf. rewrite Forall_forall in Hwf.
    apply (Hwf (label, cells)). apply list_elem_of_lookup. eauto. }
  split.
  - intros name j Hname Hj.
    destruct (col_indices_spec _ _ _ Hjs) as (_ & _ & Hin).
    destruct (Hin name Hname) as (j' & Hj' & Hjin).
    rewrite Hj in Hj'. inversion Hj'; subst j'.
    assert (Hlt : (j < length cells)%nat).
    { rewrite Hlen. eapply col_index_lt, Hj. }
    rewrite (write_cells_listed
               (fun j => Some (default (inject_Z v)
                                       (default None (cells !! j)))))
      by assumption.
    eexists. split; [reflexivity|]. split.
    + intros Hc. now rewrite Hc.
    + intros q0 Hc. now rewrite Hc.
  - intros j Hj. apply write_cells_other. intros Hin.
    destruct (col_indices_elem _ _ _ _ Hjs Hin) as (name & Hn & Hc).
    exact (Hj name Hn Hc).
Qed.

(** C10.  After the fill step of [process_data], in both frames every
    missing cell of an access-point column holds the sentinel, no cell of
    such a column is missing, and the cells that were present are
    unchanged. *)
Theorem fill_missing_fills (self self' : Loader.Loader) (w w' : World)
    (names : list string) (tr te : DataFrame) :
  Loader.no_waps self = Some names ->
  Loader.training_df self = Some tr ->
  Loader.testing_df self = Some te ->
  frame_wf tr -> frame_wf te ->
  Loader.fill_missing self w = (w', Ok self') ->
  exists tr' te',
    Loader.training_df self' = Some tr'
    /\ Loader.testing_df self' = Some te'
    /\ filled names (inject_Z (Loader.no_val_rss self)) tr tr'
    /\ filled names (inject_Z (Loader.no_val_rss self)) te te'.
Proof.
  intros Hn Htr Hte Hwf1 Hwf2. unfold Loader.fill_missing, Loader.the_no_waps,
    Loader.the_frame. rewrite Hn, Htr, Hte. intros H.
  apply bind_ok in H as (nw & w1 & H0 & H). apply lift_ok in H0 as [H0 ->].
  inversion H0; subst nw.
  apply bind_ok in H as (d1 & w1 & H1 & H). apply lift_ok in H1 as [H1 ->].
  inversion H1; subst d1.
  apply bind_ok in H as (tr' & w1 & H2 & H). apply lift_ok in H2 as [H2 ->].
  apply bind_ok in H as (d2 & w1 & H3 & H). apply lift_ok in H3 as [H3 ->].
  inversion H3; subst d2.
  apply bind_ok in H as (te' & w1 & H4 & H). apply lift_ok in H4 as [H4 ->].
  apply ret_ok in H as [H _]. subst self'. simpl.
  exists tr', te'. split; [reflexivity|]. split; [reflexivity|].
  split; now apply fill_frame_filled.
Qed.

Lemma fill_missing_fills_witness :
  exists names tr te w' self' tr' te',
    Loader.no_waps loaded_loader = Some names
    /\ Loader.training_df loaded_loader = Some tr
    /\ Loader.testing_df loaded_loader = Some te
    /\ Loader.fill_missing loaded_loader loaded_world = (w', Ok self')
    /\ Loader.training_df self' = Some tr'
    /\ Loader.testing_df self' = Some te'
    /\ filled names (inject_Z (-100)) tr tr'
    /\ filled names (inject_Z (-100)) te te'.
Proof.
  destruct (Loader.fill_missing loaded_loader loaded_world)
    as [w' [self'|e]] eqn:E.
  - destruct (fill_missing_fills loaded_loader self' loaded_world w'
                _ _ _ eq_refl eq_refl eq_refl)
      as (tr' & te' & H1 & H2 & H3 & H4);
      [repeat constructor | repeat constructor | exact E |].
    do 3 eexists. exists w', self', tr', te'.
    split; [reflexivity|]. split; [reflexivity|]. split; [reflexivity|].
    split; [reflexivity|]. tauto.
  - exfalso. vm_compute in E. discriminate E.
Defined.

(** ** The loader: scaling *)

Lemma fit_transform_spec (e : estimator) (X Xs : matrix) (w w' : World) :
  Sklearn.fit_transform e X w = (w', Ok Xs) ->
  Sklearn.check_array X = Ok tt
  /\ w' = with_heap (<[est_loc e := Sklearn.fit_params (est_kind e) X]>
                       (heap w)) w
  /\ Sklearn.transform_with (Sklearn.fit_params (est_kind e) X) X = Ok Xs.
Proof.
  unfold Sklearn.fit_transform. intros H.
  apply bind_ok in H as ([] & w1 & Hc & H). apply lift_ok in Hc as [Hc ->].
  apply bind_ok in H as (h & w1 & Hh & H). unfold get_heap in Hh.
  inversion Hh; subst.
  apply bind_ok in H as ([] & w2 & Hs & H). unfold set_heap in Hs.
  inversion Hs; subst. apply lift_ok in H as [H ->]. auto.
Qed.

Lemma fit_transform_runs (e : estimator) (X : matrix) (w : World) :
  Sklearn.check_array X = Ok tt ->
  exists Xs,
    Sklearn.fit_transform e X w
    = (with_heap (<[est_loc e := Sklearn.fit_params (est_kind e) X]>
                    (heap w)) w, Ok Xs).
Proof.
  intros Hc. unfold Sklearn.fit_transform. run. rewrite Hc. simpl.
  destruct (est_kind e); simpl; eexists; reflexivity.
Qed.

(** What a successful [scale_and_bundle] did, step by step. *)
Lemma scale_and_bundle_spec (self self' : Loader.Loader) (w w' : World) :
  Loader.scale_and_bundle self w = (w', Ok self') ->
  exists names tr te rss_tr rss_te rss_tr_s rss_te_s c_tr c_te c_tr_s c_te_s
         e2 w1 w2 w3,
    Loader.no_waps self = Some names
    /\ Loader.training_df self = Some tr
    /\ Loader.testing_df self = Some te
    /\ Loader.rss_of tr names = Ok rss_tr
    /\ Loader.rss_of te names = Ok rss_te
    /\ Loader.scale_rss (Loader.rssi_scaler self)
         (length (rows tr), length names) rss_tr w = (w1, Ok rss_tr_s)
    /\ Loader.scale_rss (Loader.rssi_scaler self)
         (length (rows te), length names) rss_te w1 = (w2, Ok rss_te_s)
    /\ Loader.coords_of tr = Ok c_tr
    /\ Loader.coords_of te = Ok c_te
    /\ Loader.coords_preprocessing self = Some e2
    /\ Sklearn.fit_transform e2 c_tr w2 = (w3, Ok c_tr_s)
    /\ Sklearn.fit_transform e2 c_te w3 = (w', Ok c_te_s)
    /\ Loader.training_data self'
       = train_bundle rss_tr rss_tr_s c_tr c_tr_s
           (Loader.py_of_scaler (Loader.rssi_scaler self)) (PyEstimator e2)
    /\ Loader.testing_data self'
       = test_bundle rss_te rss_te_s c_te c_te_s (PyEstimator e2).
Proof.
  unfold Loader.scale_and_bundle, Loader.the_no_waps, Loader.the_frame.
  intros H.
  apply bind_ok in H as (names & w0 & H0 & H). apply lift_ok in H0 as [H0 ->].
  apply bind_ok in H as (tr & w0 & H1 & H). apply lift_ok in H1 as [H1 ->].
  apply bind_ok in H as (rss_tr & w0 & H2 & H). apply lift_ok in H2 as [H2 ->].
  apply bind_ok in H as (te & w0 & H3 & H). apply lift_ok in H3 as [H3 ->].
  apply bind_ok in H as (rss_te & w0 & H4 & H). apply lift_ok in H4 as [H4 ->].
  apply bind_ok in H as (rss_tr_s & w1 & H5 & H).
  apply bind_ok in H as (rss_te_s & w2 & H6 & H).
  apply bind_ok in H as (c_tr & w0 & H7 & H). apply lift_ok in H7 as [H7 ->].
  apply bind_ok in H as (c_te & w0 & H8 & H). apply lift_ok in H8 as [H8 ->].
  apply bind_ok in H as ([c_tr_s o] & w4 & H9 & H).
  destruct (Loader.no_waps self) as [nw|]; [|discriminate].
  destruct (Loader.training_df self) as [d1|]; [|discriminate].
  destruct (Loader.testing_df self) as [d2|]; [|discriminate].
  inversion H0; inversion H1; inversion H3; subst.
  destruct (Loader.coords_preprocessing self) as [e2|] eqn:He.
  - apply bind_ok in H9 as (a & w3 & Ha & H9).
    apply bind_ok in H9 as (b & w5 & Hb & H9).
    apply ret_ok in H9 as [H9 ->]. inversion H9; subst. simpl in H.
    apply bind_ok in H as (c_te_s & w6 & Hc & H).
    apply ret_ok in Hc as [-> ->].
    apply ret_ok in H as [H ->]. subst self'. simpl.
    exists names, tr, te, rss_tr, rss_te, rss_tr_s, rss_te_s, c_tr, c_te,
      c_tr_s, c_te_s, e2, w1, w2, w3.
    repeat (split; [first [reflexivity | assumption]|]). reflexivity.
  - apply ret_ok in H9 as [H9 ->]. inversion H9; subst. simpl in H.
    apply bind_ok in H as (x & w6 & Hc & H). discriminate Hc.
Qed.

Lemma fill_missing_spec (self self' : Loader.Loader) (w w' : World) :
  Loader.fill_missing self w = (w', Ok self') ->
  w' = w
  /\ Loader.no_waps self' = Loader.no_waps self
  /\ Loader.rssi_scaler self' = Loader.rssi_scaler self
  /\ Loader.coords_preprocessing self' = Loader.coords_preprocessing self
  /\ Loader.no_val_rss self' = Loader.no_val_rss self
  /\ exists names tr te tr' te',
       Loader.no_waps self = Some names
       /\ Loader.training_df self = Some tr
       /\ Loader.testing_df self = Some te
       /\ Loader.fill_frame names (Loader.no_val_rss self) tr = Ok tr'
       /\ Loader.fill_frame names (Loader.no_val_rss self) te = Ok te'
       /\ Loader.training_df self' = Some tr'
       /\ Loader.testing_df self' = Some te'.
Proof.
  unfold Loader.fill_missing, Loader.the_no_waps, Loader.the_frame.
  intros H.
  apply bind_ok in H as (names & w0 & H0 & H). apply lift_ok in H0 as [H0 ->].
  apply bind_ok in H as (tr & w0 & H1 & H). apply lift_ok in H1 as [H1 ->].
  apply bind_ok in H as (tr' & w0 & H2 & H). apply lift_ok in H2 as [H2 ->].
  apply bind_ok in H as (te & w0 & H3 & H). apply lift_ok in H3 as [H3 ->].
  apply bind_ok in H as (te' & w0 & H4 & H). apply lift_ok in H4 as [H4 ->].
  apply ret_ok in H as [H ->]. subst self'. simpl.
  destruct (Loader.no_waps self) as [nw|]; [|discriminate].
  destruct (Loader.training_df self) as [d1|]; [|discriminate].
  destruct (Loader.testing_df self) as [d2|]; [|discriminate].
  inversion H0; inversion H1; inversion H3; subst.
  repeat (split; [reflexivity|]).
  exists names, tr, te, tr', te'. repeat (split; [first [reflexivity|assumption]|]).
  reflexivity.
Qed.

Lemma process_data_spec (self self' : Loader.Loader) (w w' : World) :
  Loader.process_data self w = (w', Ok self') ->
  exists self1,
    Loader.fill_missing self w = (w, Ok self1)
    /\ Loader.scale_and_bundle self1 w = (w', Ok self').
Proof.
  unfold Loader.process_data. intros H.
  apply bind_ok in H as (self1 & w1 & H1 & H).
  destruct (fill_missing_spec _ _ _ _ H1) as (-> & _). eauto.
Qed.

(** C1.  The constructor of the trainer never returns an object: whatever
    its arguments, the first attribute access on the 1-element tuple stored
    for the training data raises; the same accesses on any tuple raise; and
    the bundles the loader builds have no field [power]. *)
Theorem init_never_constructs :
  (forall (training_data testing_data random_state preprocessor batch_size
           epochs optimizer validation_split dropout tx_power patience
           checkpoint_filepath save_model : pyval) (w : World),
     DNN_Regression.init training_data testing_data random_state preprocessor
       batch_size epochs optimizer validation_split dropout tx_power patience
       checkpoint_filepath save_model w
     = (w, Raise (AttributeError "tuple" "rss_scaled")))
  /\ (forall (items : list pyval) (attr : string),
        attr ∈ ["rss_scaled"; "power"; "labels"] ->
        getattr (PyTuple items) attr = Raise (AttributeError "tuple" attr))
  /\ (forall (self self' : Loader.Loader) (w w' : World),
        Loader.process_data self w = (w', Ok self') ->
        getattr (Loader.training_data self') "power"
        = Raise (AttributeError "TrainData" "power")
        /\ getattr (Loader.testing_data self') "power"
           = Raise (AttributeError "TestData" "power")).
Proof.
  split; [|split].
  - intros. reflexivity.
  - intros items attr H. apply getattr_tuple_raises.
    repeat (apply elem_of_cons in H as [->|H]; [reflexivity|]).
    inversion H.
  - intros self self' w w' H.
    apply process_data_spec in H as (self1 & _ & H).
    apply scale_and_bundle_spec in H
      as (names & tr & te & rss_tr & rss_te & rss_tr_s & rss_te_s & c_tr
          & c_te & c_tr_s & c_te_s & e2 & w1 & w2 & w3 & H).
    decompose [and] H. split.
    + replace (Loader.training_data self') with
        (train_bundle rss_tr rss_tr_s c_tr c_tr_s
           (Loader.py_of_scaler (Loader.rssi_scaler self1)) (PyEstimator e2)).
      reflexivity.
    + replace (Loader.testing_data self') with
        (test_bundle rss_te rss_te_s c_te c_te_s (PyEstimator e2)).
      reflexivity.
Qed.

Lemma asarray_length (cs : list cell) (xs : list R) :
  Numpy.asarray cs = Ok xs -> length xs = length cs.
Proof.
  revert xs. induction cs as [|c cs IH]; simpl; intros xs H.
  - now inversion H.
  - destruct (Numpy.to_float c); [|discriminate].
    destruct (Numpy.asarray cs) as [ys|]; [|discriminate].
    inversion H; subst. simpl. now rewrite (IH ys).
Qed.

Lemma asarray2_shape (rws : list (list cell)) (X : matrix) (k : nat) :
  Numpy.asarray2 rws = Ok X ->
  Forall (fun r => length r = k) rws ->
  length X = length rws /\ Forall (fun r => length r = k) X.
Proof.
  revert X. induction rws as [|r rws IH]; simpl; intros X H Hk.
  - inversion H. split; [reflexivity | constructor].
  - destruct (Numpy.asarray r) as [x|] eqn:Hx; [|discriminate].
    destruct (Numpy.asarray2 rws) as [xs|]; [|discriminate].
    inversion H; subst. apply Forall_cons in Hk as [Hr Hk].
    destruct (IH xs eq_refl Hk) as [Hl Hf]. simpl. split; [now rewrite Hl|].
    constructor; [|exact Hf]. apply asarray_length in Hx. congruence.
Qed.

(** The raw RSS array has one row per row of the frame and one column per
    access-point column. *)
Lemma rss_of_shape (df : DataFrame) (names : list string) (rss : matrix) :
  Loader.rss_of df names = Ok rss ->
  length rss = length (rows df)
  /\ Forall (fun r => length r = length names) rss.
Proof.
  unfold Loader.rss_of, getitem_list.
  destruct (col_indices names (columns df)) as [js|] eqn:Hjs; [|discriminate].
  simpl. intros H. apply col_indices_spec in Hjs as (_ & Hlen & _).
  apply (asarray2_shape _ _ (length names)) in H.
  - rewrite !length_map in H. exact H.
  - rewrite map_map. simpl. apply Forall_forall. intros r Hr.
    apply list_elem_of_In in Hr. apply in_map_iff in Hr as (x & <- & _).
    now rewrite length_map.
Qed.

Lemma column_of_single (flat : list R) :
  Sklearn.column 0 (map (fun x => [x]) flat) = flat.
Proof.
  unfold Sklearn.column. rewrite map_map. simpl. apply map_id.
Qed.

Lemma fit_params_single_column (k : scaler_kind) (flat : list R) :
  flat <> [] ->
  Sklearn.fit_params k (Numpy.reshape_column [flat])
  = shared_statistic k flat.
Proof.
  intros Hne. unfold Numpy.reshape_column. simpl. rewrite app_nil_r.
  unfold Sklearn.fit_params, Sklearn.columns_of, Numpy.width.
  destruct flat as [|x flat]; [contradiction|].
  change (map (fun x0 : R => [x0]) (x :: flat)) with
    ([x] :: map (fun x0 : R => [x0]) flat).
  cbn [hd length seq map].
  change ([x] :: map (fun x0 : R => [x0]) flat) with
    (map (fun x0 : R => [x0]) (x :: flat)).
  rewrite column_of_single. destruct k; reflexivity.
Qed.

Lemma reshape_column_concat (X : matrix) :
  Numpy.reshape_column X = Numpy.reshape_column [concat X].
Proof. unfold Numpy.reshape_column. simpl. now rewrite app_nil_r. Qed.

Lemma transform_single_column (k : scaler_kind) (flat ys : list R) :
  Sklearn.transform_with (shared_statistic k flat) (map (fun x => [x]) ys)
  = Ok (map (fun x => [shared_transform k flat x]) ys).
Proof.
  unfold shared_transform.
  destruct k; simpl; f_equal; rewrite map_map; reflexivity.
Qed.

Lemma concat_singletons {A} (l : list A) :
  concat (map (fun x => [x]) l) = l.
Proof. induction l as [|x l IH]; simpl; [reflexivity | now rewrite IH]. Qed.

Lemma chunks_concat (g : R -> R) (k : nat) (X : matrix) :
  Forall (fun r => length r = k) X ->
  Numpy.chunks k (length X) (map g (concat X)) = map (map g) X.
Proof.
  induction X as [|r X IH]; intros H; [reflexivity|].
  apply Forall_cons in H as [Hr H]. simpl. rewrite map_app.
  rewrite take_app_length' by now rewrite length_map.
  rewrite drop_app_length' by now rewrite length_map.
  now rewrite IH.
Qed.

Lemma length_concat_rect (k : nat) (X : matrix) :
  Forall (fun r => length r = k) X ->
  length (concat X) = (length X * k)%nat.
Proof.
  induction X as [|r X IH]; intros H; [reflexivity|].
  apply Forall_cons in H as [Hr H]. simpl.
  rewrite length_app, IH by exact H. lia.
Qed.

(** Lines 98-102 for one split: every entry goes through the same map,
    built from the statistics of all the values together, and the rows keep
    their number and widths. *)
Lemma scale_rss_spec (e : estimator) (k : nat) (rss scaled : matrix)
    (w w' : World) :
  Forall (fun r => length r = k) rss ->
  Loader.scale_rss (Some e) (length rss, k) rss w = (w', Ok scaled) ->
  scaled = map (map (shared_transform (est_kind e) (concat rss))) rss
  /\ w' = with_heap (<[est_loc e := shared_statistic (est_kind e)
                                      (concat rss)]> (heap w)) w.
Proof.
  intros Hk. unfold Loader.scale_rss. intros H.
  apply bind_ok in H as (flat_scaled & w1 & Hf & H).
  apply lift_ok in H as [H ->].
  apply fit_transform_spec in Hf as (Hc & -> & Ht).
  assert (Hne : concat rss <> []).
  { intros Hnil. unfold Sklearn.check_array, Numpy.reshape_column in Hc.
    rewrite Hnil in Hc. discriminate Hc. }
  rewrite reshape_column_concat, fit_params_single_column in Ht by exact Hne.
  rewrite reshape_column_concat, fit_params_single_column by exact Hne.
  unfold Numpy.reshape_column in Ht. simpl in Ht. rewrite app_nil_r in Ht.
  rewrite transform_single_column in Ht. inversion Ht; subst flat_scaled.
  split; [|reflexivity].
  unfold Numpy.reshape in H. simpl in H.
  rewrite <- (map_map (shared_transform (est_kind e) (concat rss))
                      (fun y => [y])) in H.
  rewrite concat_singletons in H.
  rewrite length_map, (length_concat_rect k), Nat.eqb_refl in H by exact Hk.
  inversion H. now apply chunks_concat.
Qed.

Lemma fit_transform_heap_length (e : estimator) (X Xs : matrix)
    (w w' : World) :
  Sklearn.fit_transform e X w = (w', Ok Xs) ->
  length (heap w') = length (heap w).
Proof.
  intros H. apply fit_transform_spec in H as (_ & -> & _). simpl.
  apply length_insert.
Qed.

Lemma scale_rss_heap_length (s : option estimator) (shape : nat * nat)
    (rss scaled : matrix) (w w' : World) :
  Loader.scale_rss s shape rss w = (w', Ok scaled) ->
  length (heap w') = length (heap w).
Proof.
  destruct s as [e|]; simpl; intros H.
  - apply bind_ok in H as (fs & w1 & Hf & H). apply lift_ok in H as [_ ->].
    eapply fit_transform_heap_length, Hf.
  - apply ret_ok in H as [_ ->]. reflexivity.
Qed.

Lemma same_shape_map (g : R -> R) (X : matrix) :
  same_shape (map (map g) X) X.
Proof.
  unfold same_shape. rewrite map_map. apply map_ext. intros r.
  apply length_map.
Qed.

(** A run of [process_data] on the sample loader. *)
Lemma process_data_sample_runs :
  exists w' self',
    Loader.process_data loaded_loader loaded_world = (w', Ok self').
Proof.
  eexists. eexists.
  unfold Loader.process_data, loaded_loader, loaded_world, loaded_sample.
  cbn. reflexivity.
Qed.

(** C6.  For each split, the scaled RSS array of the bundle is the raw one
    with every entry sent through one and the same map, the one a scaler
    fitted on all the values as a single column applies; it has the shape
    of the raw array.  The RSS scaler object is left with the single
    statistic of the flattened testing values, the last it was fitted on. *)
Theorem process_data_rss_scaling (self self' : Loader.Loader) (w w' : World)
    (e : estimator) :
  Loader.rssi_scaler self = Some e ->
  Loader.process_data self w = (w', Ok self') ->
  exists rss_tr rss_tr_s rss_te rss_te_s c_tr c_tr_s c_te c_te_s e2,
    Loader.training_data self'
    = train_bundle rss_tr rss_tr_s c_tr c_tr_s (PyEstimator e)
        (PyEstimator e2)
    /\ Loader.testing_data self'
       = test_bundle rss_te rss_te_s c_te c_te_s (PyEstimator e2)
    /\ rss_tr_s
       = map (map (shared_transform (est_kind e) (concat rss_tr))) rss_tr
    /\ rss_te_s
       = map (map (shared_transform (est_kind e) (concat rss_te))) rss_te
    /\ same_shape rss_tr_s rss_tr
    /\ same_shape rss_te_s rss_te
    /\ ((est_loc e < length (heap w))%nat -> est_loc e <> est_loc e2 ->
        heap w' !! est_loc e
        = Some (shared_statistic (est_kind e) (concat rss_te))).
Proof.
  intros He H. apply process_data_spec in H as (self1 & Hfill & H).
  apply fill_missing_spec in Hfill as (_ & _ & Hs & _).
  apply scale_and_bundle_spec in H
    as (names & tr & te & rss_tr & rss_te & rss_tr_s & rss_te_s & c_tr
        & c_te & c_tr_s & c_te_s & e2 & w1 & w2 & w3 & H).
  destruct H as (_ & _ & _ & Hr1 & Hr2 & Hs1 & Hs2 & _ & _ & _ & Hf1 & Hf2
                 & Htr & Hte).
  rewrite Hs, He in Hs1, Hs2, Htr. simpl in Htr.
  apply rss_of_shape in Hr1 as [Hl1 Hk1]. apply rss_of_shape in Hr2 as [Hl2 Hk2].
  rewrite <- Hl1 in Hs1. rewrite <- Hl2 in Hs2.
  pose proof (scale_rss_heap_length _ _ _ _ _ _ Hs1) as Hlen1.
  apply scale_rss_spec in Hs1 as [-> _]; [|exact Hk1].
  apply scale_rss_spec in Hs2 as [-> Hw2]; [|exact Hk2].
  apply fit_transform_spec in Hf1 as (_ & Hw3 & _).
  apply fit_transform_spec in Hf2 as (_ & Hw' & _).
  exists rss_tr, (map (map (shared_transform (est_kind e) (concat rss_tr)))
                      rss_tr),
    rss_te, (map (map (shared_transform (est_kind e) (concat rss_te)))
                 rss_te),
    c_tr, c_tr_s, c_te, c_te_s, e2.
  repeat (split; [first [assumption | reflexivity | apply same_shape_map]|]).
  intros Hloc Hne. subst w' w3 w2. simpl.
  rewrite !list_lookup_insert_ne by (intros Heq; now apply Hne).
  apply list_lookup_insert_eq. lia.
Qed.

Lemma process_data_rss_scaling_witness :
  exists w' self' rss_tr rss_tr_s rss_te rss_te_s,
    Loader.process_data loaded_loader loaded_world = (w', Ok self')
    /\ getattr (Loader.training_data self') "rss" = Ok (PyArray rss_tr)
    /\ getattr (Loader.training_data self') "rss_scaled"
       = Ok (PyArray rss_tr_s)
    /\ getattr (Loader.testing_data self') "rss" = Ok (PyArray rss_te)
    /\ getattr (Loader.testing_data self') "rss_scaled"
       = Ok (PyArray rss_te_s)
    /\ rss_tr_s
       = map (map (shared_transform StandardScaler (concat rss_tr))) rss_tr
    /\ rss_te_s
       = map (map (shared_transform StandardScaler (concat rss_te))) rss_te
    /\ same_shape rss_tr_s rss_tr
    /\ same_shape rss_te_s rss_te
    /\ heap w' !! O = Some (shared_statistic StandardScaler (concat rss_te)).
Proof.
  destruct process_data_sample_runs as (w' & self' & Hrun).
  destruct (process_data_rss_scaling loaded_loader self' loaded_world w'
              {| est_kind := StandardScaler; est_loc := 0 |} eq_refl Hrun)
    as (rss_tr & rss_tr_s & rss_te & rss_te_s & c_tr & c_tr_s & c_te
        & c_te_s & e2 & Htr & Hte & H1 & H2 & H3 & H4 & H5).
  exists w', self', rss_tr, rss_tr_s, rss_te, rss_te_s.
  rewrite Htr, Hte. repeat (split; [first [assumption | reflexivity]|]).
  apply H5; [simpl; lia|].
  pose proof Hrun as Hrun'. apply process_data_spec in Hrun' as (s1 & Hf & Hsb).
  apply fill_missing_spec in Hf as (_ & _ & _ & Hc & _).
  apply scale_and_bundle_spec in Hsb
    as (? & ? & ? & ? & ? & ? & ? & ? & ? & ? & ? & e3 & ? & ? & ? & Hsb).
  destruct Hsb as (_ & _ & _ & _ & _ & _ & _ & _ & _ & He3 & _ & _ & _ & Hte').
  rewrite Hte in Hte'. rewrite Hc in He3. inversion He3; subst e3.
  inversion Hte'. discriminate.
Defined.

Lemma init_never_constructs_witness :
  exists w' self',
    Loader.process_data loaded_loader loaded_world = (w', Ok self')
    /\ getattr (Loader.training_data self') "power"
       = Raise (AttributeError "TrainData" "power")
    /\ getattr (Loader.testing_data self') "power"
       = Raise (AttributeError "TestData" "power")
    /\ forall w0,
         DNN_Regression.init (Loader.training_data self')
           (Loader.testing_data self') PyNone (PyStr "standard_scaler")
           (PyInt 8) (PyInt 10) PyNone PyNone (PyFloat (2 / 10))
           (PyBool false) (PyInt 10) (PyStr "../checkpoint/") (PyBool true)
           w0
         = (w0, Raise (AttributeError "tuple" "rss_scaled")).
Proof.
  destruct process_data_sample_runs as (w' & self' & Hrun).
  destruct init_never_constructs as (Hinit & _ & Hpower).
  destruct (Hpower loaded_loader self' loaded_world w' Hrun) as [H1 H2].
  exists w', self'. split; [exact Hrun|]. split; [exact H1|].
  split; [exact H2|]. intros w0. apply Hinit.
Defined.

(** ** The scalers: round trip *)

Section RoundTrip.
#[local] Open Scope R_scope.

Lemma handle_zeros_nonzero (s : R) : Sklearn.handle_zeros_in_scale s <> 0.
Proof.
  unfold Sklearn.handle_zeros_in_scale.
  destruct (Req_dec_T s 0); [lra | assumption].
Qed.

Lemma check_array_ok (X : matrix) :
  Sklearn.check_array X = Ok tt ->
  X <> [] /\ Numpy.width X <> O
  /\ Forall (fun r => length r = Numpy.width X) X.
Proof.
  unfold Sklearn.check_array.
  destruct (Nat.eqb (length X) 0) eqn:H1; [discriminate|].
  destruct (Nat.eqb (Numpy.width X) 0) eqn:H2; [discriminate|].
  destruct (forallb _ X) eqn:H3; [|discriminate]. intros _.
  apply Nat.eqb_neq in H1, H2. split; [|split].
  - intros ->. now apply H1.
  - exact H2.
  - apply Forall_forall. intros r Hr. apply list_elem_of_In in Hr.
    rewrite forallb_forall in H3. apply Nat.eqb_eq. now apply H3.
Qed.

Lemma check_array_intro (X : matrix) :
  X <> [] -> Numpy.width X <> O ->
  Forall (fun r => length r = Numpy.width X) X ->
  Sklearn.check_array X = Ok tt.
Proof.
  intros H1 H2 H3. unfold Sklearn.check_array.
  destruct X as [|r X]; [contradiction|]. simpl length at 1. simpl Nat.eqb at 1.
  apply Nat.eqb_neq in H2. rewrite H2.
  replace (forallb _ (r :: X)) with true; [reflexivity|].
  symmetry. apply forallb_forall. intros x Hx. apply Nat.eqb_eq.
  rewrite Forall_forall in H3. apply H3. now apply list_elem_of_In.
Qed.

Lemma length_columns_of (X : matrix) :
  length (Sklearn.columns_of X) = Numpy.width X.
Proof. unfold Sklearn.columns_of. now rewrite length_map, length_seq. Qed.

Variables fwd inv : R -> R * R -> R.

Lemma zip_with_round_trip (ps : list (R * R)) (row : list R) :
  Forall (fun p => forall x, inv (fwd x p) p = x) ps ->
  length row = length ps ->
  zip_with inv (zip_with fwd row ps) ps = row.
Proof.
  intros Hps. revert row. induction Hps as [|p ps Hp Hps IH];
    intros [|x row] Hlen; try discriminate; [reflexivity|].
  simpl. rewrite Hp. f_equal. apply IH. simpl in Hlen. lia.
Qed.

Lemma transformed_round_trip (ps : list (R * R)) (X : matrix) :
  Sklearn.check_array X = Ok tt ->
  length ps = Numpy.width X ->
  Forall (fun p => forall x, inv (fwd x p) p = x) ps ->
  let Xs := map (fun row => zip_with fwd row ps) X in
  Sklearn.check_array Xs = Ok tt
  /\ Sklearn.broadcast_rows inv ps Xs = Ok X.
Proof.
  intros Hc Hlen Hps Xs. apply check_array_ok in Hc as (Hne & Hw & Hrect).
  assert (Hwidth : Numpy.width Xs = Numpy.width X).
  { unfold Xs, Numpy.width. destruct X as [|r X]; [contradiction|]. simpl.
    rewrite length_zip_with. apply Forall_cons in Hrect as [Hr _].
    unfold Numpy.width in Hr, Hlen. simpl in Hr, Hlen. lia. }
  split.
  - apply check_array_intro.
    + unfold Xs. destruct X; [contradiction | discriminate].
    + now rewrite Hwidth.
    + rewrite Hwidth. unfold Xs. apply Forall_forall. intros r Hr.
      apply list_elem_of_In in Hr. apply in_map_iff in Hr as (r0 & <- & Hr0).
      rewrite length_zip_with. rewrite Forall_forall in Hrect.
      apply list_elem_of_In in Hr0. specialize (Hrect r0 Hr0). lia.
  - unfold Sklearn.broadcast_rows. rewrite Hwidth, Hlen, Nat.eqb_refl.
    f_equal. unfold Xs. rewrite map_map.
    rewrite <- (map_id X) at 2. apply map_ext_in. intros r Hr.
    apply zip_with_round_trip; [exact Hps|].
    rewrite Forall_forall in Hrect. apply list_elem_of_In in Hr.
    rewrite (Hrect r Hr). now symmetry.
Qed.

End RoundTrip.

Lemma standard_params_invertible (X : matrix) :
  let cols := Sklearn.columns_of X in
  let ps :=
    zip (map Sklearn.mean cols)
        (map (fun c => Sklearn.handle_zeros_in_scale
                         (sqrt (Sklearn.variance c))) cols) in
  length ps = Numpy.width X
  /\ Forall (fun p => forall x,
               ((x - fst p) / snd p * snd p + fst p)%R = x) ps.
Proof.
  intros cols ps. split.
  - unfold ps. rewrite length_zip_with, !length_map.
    unfold cols. rewrite length_columns_of. lia.
  - apply Forall_forall. intros [m s] Hp x. simpl.
    apply elem_of_zip_r in Hp. apply list_elem_of_In in Hp.
    apply in_map_iff in Hp as (c & <- & _).
    field. apply handle_zeros_nonzero.
Qed.

Lemma minmax_params_invertible (X : matrix) :
  let cols := Sklearn.columns_of X in
  let scale :=
    map (fun c =>
           ((1 - 0)
            / Sklearn.handle_zeros_in_scale
                (Sklearn.list_max c - Sklearn.list_min c))%R) cols in
  let ps :=
    zip (zip_with (fun c s => (0 - Sklearn.list_min c * s)%R) cols scale)
        scale in
  length ps = Numpy.width X
  /\ Forall (fun p => forall x,
               ((x * snd p + fst p - fst p) / snd p)%R = x) ps.
Proof.
  intros cols scale ps. split.
  - unfold ps, scale. rewrite !length_zip_with, !length_map.
    unfold cols. rewrite length_columns_of. lia.
  - apply Forall_forall. intros [m s] Hp x. simpl.
    apply elem_of_zip_r in Hp. apply list_elem_of_In in Hp.
    apply in_map_iff in Hp as (c & <- & _).
    field. apply handle_zeros_nonzero.
Qed.

(** A scaler of class [StandardScaler] or [MinMaxScaler] whose fitted
    attributes are those of [X] inverts the transformed [X]. *)
Lemma inverse_of_own_fit (e : estimator) (X Xs : matrix) (w : World) :
  est_kind e <> Normalizer ->
  Sklearn.check_array X = Ok tt ->
  heap w !! est_loc e = Some (Sklearn.fit_params (est_kind e) X) ->
  Sklearn.transform_with (Sklearn.fit_params (est_kind e) X) X = Ok Xs ->
  Sklearn.inverse_transform e Xs w = (w, Ok X).
Proof.
  intros Hk Hc Hh Ht. unfold Sklearn.inverse_transform.
  destruct (est_kind e) eqn:Ek; [| |contradiction]; run; rewrite Hh;
    simpl in Ht |- *; inversion Ht; subst Xs; clear Ht.
  - destruct (standard_params_invertible X) as [Hlen Hinv].
    destruct (transformed_round_trip
                (fun x p => ((x - fst p) / snd p)%R)
                (fun x p => (x * snd p + fst p)%R) _ X Hc Hlen Hinv)
      as [Hc' Hb].
    rewrite Hc'. simpl. now rewrite Hb.
  - destruct (minmax_params_invertible X) as [Hlen Hinv].
    destruct (transformed_round_trip
                (fun x p => (x * snd p + fst p)%R)
                (fun x p => ((x - fst p) / snd p)%R) _ X Hc Hlen Hinv)
      as [Hc' Hb].
    rewrite Hc'. simpl. now rewrite Hb.
Qed.

(** C5, for standardization and min-max scaling.  On any array with at
    least one row and one column, the scaler fitted on the array gives the
    array back from its transform, exactly. *)
Theorem coords_round_trip (e : estimator) (X : matrix) (w : World) :
  est_kind e <> Normalizer ->
  Sklearn.check_array X = Ok tt ->
  (est_loc e < length (heap w))%nat ->
  round_trips e X w.
Proof.
  intros Hk Hc Hloc.
  destruct (fit_transform_runs e X w Hc) as (Xs & Hfit).
  exists (with_heap (<[est_loc e := Sklearn.fit_params (est_kind e) X]>
                       (heap w)) w), Xs.
  split; [exact Hfit|].
  apply fit_transform_spec in Hfit as (_ & _ & Ht).
  apply inverse_of_own_fit; try assumption.
  simpl. now apply list_lookup_insert_eq.
Qed.

Lemma coords_round_trip_witness :
  round_trips {| est_kind := MinMaxScaler; est_loc := 1 |}
              [[0; 0]; [2; 4]; [4; 8]]%R sample_world.
Proof.
  apply coords_round_trip.
  - discriminate.
  - reflexivity.
  - simpl. lia.
Defined.

(** C5, for vector normalization.  A [Normalizer] has no
    [inverse_transform], so the round trip does not exist. *)
Lemma normalizer_does_not_round_trip :
  ~ round_trips {| est_kind := Normalizer; est_loc := 1 |} [[3; 4]]%R
      sample_world.
Proof.
  intros (w1 & Xs & _ & H). unfold Sklearn.inverse_transform in H.
  simpl in H. discriminate H.
Qed.

(** ** The loader: one scaler object for two splits *)

(** At the return of [process_data] both label bundles refer to one
    scaler object, and that object holds the statistics of the testing
    coordinates, the last array it was fitted on. *)
Lemma process_data_coords_scaler (self self' : Loader.Loader) (w w' : World) :
  Loader.process_data self w = (w', Ok self') ->
  exists rss_tr rss_tr_s rss_te rss_te_s c_tr c_tr_s c_te c_te_s s e,
    Loader.training_data self'
    = train_bundle rss_tr rss_tr_s c_tr c_tr_s s (PyEstimator e)
    /\ Loader.testing_data self'
       = test_bundle rss_te rss_te_s c_te c_te_s (PyEstimator e)
    /\ Sklearn.transform_with (Sklearn.fit_params (est_kind e) c_tr) c_tr
       = Ok c_tr_s
    /\ Sklearn.transform_with (Sklearn.fit_params (est_kind e) c_te) c_te
       = Ok c_te_s
    /\ Sklearn.check_array c_te = Ok tt
    /\ ((est_loc e < length (heap w))%nat ->
        heap w' !! est_loc e
        = Some (Sklearn.fit_params (est_kind e) c_te)).
Proof.
  intros H. apply process_data_spec in H as (self1 & _ & H).
  apply scale_and_bundle_spec in H
    as (names & tr & te & rss_tr & rss_te & rss_tr_s & rss_te_s & c_tr
        & c_te & c_tr_s & c_te_s & e2 & w1 & w2 & w3 & H).
  destruct H as (_ & _ & _ & _ & _ & Hs1 & Hs2 & _ & _ & _ & Hf1 & Hf2
                 & Htr & Hte).
  exists rss_tr, rss_tr_s, rss_te, rss_te_s, c_tr, c_tr_s, c_te, c_te_s,
    (Loader.py_of_scaler (Loader.rssi_scaler self1)), e2.
  apply scale_rss_heap_length in Hs1, Hs2.
  pose proof (fit_transform_heap_length _ _ _ _ _ Hf1) as Hl3.
  apply fit_transform_spec in Hf1 as (_ & _ & Ht1).
  apply fit_transform_spec in Hf2 as (Hc2 & -> & Ht2).
  repeat (split; [assumption|]).
  intros Hloc. simpl. apply list_lookup_insert_eq. lia.
Qed.

(** The testing bundle's scaler inverts the testing bundle's scaled
    coordinates. *)
Lemma testing_bundle_round_trips (self self' : Loader.Loader) (w w' : World) :
  Loader.process_data self w = (w', Ok self') ->
  exists rss rss_s c_te c_te_s e,
    Loader.testing_data self' = test_bundle rss rss_s c_te c_te_s (PyEstimator e)
    /\ (est_kind e <> Normalizer -> (est_loc e < length (heap w))%nat ->
        Sklearn.inverse_transform e c_te_s w' = (w', Ok c_te)).
Proof.
  intros H. apply process_data_coords_scaler in H
    as (rss_tr & rss_tr_s & rss_te & rss_te_s & c_tr & c_tr_s & c_te
        & c_te_s & s & e & _ & Hte & _ & Ht & Hc & Hh).
  exists rss_te, rss_te_s, c_te, c_te_s, e. split; [exact Hte|].
  intros Hk Hloc. apply inverse_of_own_fit; auto.
Qed.

Lemma refit_moves_the_mean (x m1 s1 s2 m2 : R) :
  x = m1 -> ((x - m1) / s1 * s2 + m2)%R = m2.
Proof.
  intros ->. unfold Rdiv. replace (m1 - m1)%R with 0%R by lra.
  rewrite !Rmult_0_l. lra.
Qed.

(** C4.  The scaler stored in the training bundle does not recover the
    bundle's raw coordinates: on the sample loader, at the return of
    [process_data], it maps the training bundle's scaled coordinates to an
    array other than the raw ones, because the one scaler object was
    re-fitted on the testing coordinates. *)
Theorem training_scaler_refitted_on_testing_split :
  exists w' self' rss rss_s c_tr c_tr_s s e X',
    Loader.process_data loaded_loader loaded_world = (w', Ok self')
    /\ Loader.training_data self'
       = train_bundle rss rss_s c_tr c_tr_s s (PyEstimator e)
    /\ Sklearn.inverse_transform e c_tr_s w' = (w', Ok X')
    /\ X' <> c_tr.
Proof.
  do 9 eexists. split.
  { unfold Loader.process_data, loaded_loader, loaded_world, loaded_sample.
    cbn. reflexivity. }
  split; [cbn; reflexivity|]. split; [cbn; reflexivity|].
  intros Heq. injection Heq as _ _ _ _ H _.
  rewrite refit_moves_the_mean in H.
  - unfold Sklearn.mean, Sklearn.Rsum, Q2R in H. simpl in H. lra.
  - unfold Sklearn.mean, Sklearn.Rsum, Q2R. simpl. lra.
Qed.

(** ** Further facts about the model *)

(** Row normalization sends different rows to the same row, so it has no
    inverse. *)
Lemma normalizer_not_injective :
  Sklearn.transform_with NormalizerFit [[3; 4]]%R
  = Sklearn.transform_with NormalizerFit [[6; 8]]%R.
Proof.
  assert (H5 : Sklearn.l2_norm [3; 4]%R = 5%R).
  { unfold Sklearn.l2_norm, Sklearn.Rsum. simpl.
    replace (3 * 3 + (4 * 4 + 0))%R with (5 * 5)%R by lra.
    apply sqrt_square. lra. }
  assert (H10 : Sklearn.l2_norm [6; 8]%R = 10%R).
  { unfold Sklearn.l2_norm, Sklearn.Rsum. simpl.
    replace (6 * 6 + (8 * 8 + 0))%R with (10 * 10)%R by lra.
    apply sqrt_square. lra. }
  unfold Sklearn.transform_with. simpl. rewrite H5, H10.
  unfold Sklearn.handle_zeros_in_scale.
  destruct (Req_dec_T 5 0); [lra|]. destruct (Req_dec_T 10 0); [lra|].
  do 3 f_equal; [|f_equal]; lra.
Qed.

Lemma iloc_Forall {A} (P : A -> Prop) (l : list A) (ps : list nat) :
  Forall P l -> Forall P (Sklearn.iloc l ps).
Proof.
  rewrite !Forall_forall. intros H x Hx. apply H. eapply iloc_subseteq, Hx.
Qed.

(** The frames [load_data] stores have one cell per column in every row,
    and the feature columns are those with [AP] in their name. *)
Lemma load_data_frames (self self' : Loader.Loader) (w w' : World) :
  Loader.load_data self w = (w', Ok self') ->
  exists tr te,
    Loader.training_df self' = Some tr /\ Loader.testing_df self' = Some te
    /\ frame_wf tr /\ frame_wf te
    /\ columns te = columns tr
    /\ Loader.no_waps self'
       = Some (List.filter (Loader.contains "AP") (columns tr)).
Proof.
  unfold Loader.load_data. intros H.
  apply bind_ok in H as (data0 & w1 & Hread & H).
  apply bind_ok in H as (data & w2 & Hf & H).
  apply lift_ok in Hf as [Hf ->].
  apply bind_ok in H as ([tr0 te0] & w3 & Hs & H).
  apply bind_ok in H as ([tr te] & w4 & Hsam & H).
  apply ret_ok in H as [H _]. subst self'. simpl in *.
  apply filter_eq_spec in Hf as (j & Hj & Hcols & Hrows).
  apply train_test_split_spec in Hs as (p1 & p2 & -> & -> & _).
  assert (Hwf0 : Forall (fun r => length (snd r) = length (columns data))
                        (rows data0)).
  { unfold read_csv in Hread.
    apply bind_ok in Hread as (t & w5 & _ & Hread).
    destruct (existsb _ _); [discriminate|].
    apply ret_ok in Hread as [Hread _]. subst data0. rewrite Hcols. simpl.
    apply Forall_forall. intros [l r] Hr. simpl.
    apply elem_of_zip_r in Hr. apply list_elem_of_In in Hr.
    apply in_map_iff in Hr as (x & <- & _). apply length_resize. }
  assert (Hwf : Forall (fun r => length (snd r) = length (columns data))
                       (rows data)).
  { rewrite Hrows. rewrite Forall_forall in Hwf0 |- *. intros r Hr.
    apply Hwf0. apply list_elem_of_In in Hr. apply filter_In in Hr.
    apply list_elem_of_In. tauto. }
  assert (Hsub : columns tr = columns data /\ columns te = columns data
                 /\ (forall r, r ∈ rows tr -> r ∈ rows data)
                 /\ (forall r, r ∈ rows te -> r ∈ rows data)).
  { destruct (negb (Qle_bool 1 (Loader.frac self))).
    - apply bind_ok in Hsam as (tr1 & w5 & H1 & Hsam).
      apply bind_ok in Hsam as (te1 & w6 & H2 & Hsam).
      apply ret_ok in Hsam as [Hsam _]. inversion Hsam; subst.
      apply sample_spec in H1 as [Hc1 Hr1].
      apply sample_spec in H2 as [Hc2 Hr2]. simpl in *.
      repeat split; try assumption.
      + intros r Hr. eapply iloc_subseteq, Hr1, Hr.
      + intros r Hr. eapply iloc_subseteq, Hr2, Hr.
    - apply ret_ok in Hsam as [Hsam _]. inversion Hsam; subst. simpl.
      repeat split; try reflexivity; intros r Hr; eapply iloc_subseteq, Hr. }
  destruct Hsub as (Hc1 & Hc2 & Hr1 & Hr2).
  exists tr, te. split; [reflexivity|]. split; [reflexivity|].
  rewrite Forall_forall in Hwf.
  split; [|split; [|split]].
  - unfold frame_wf. rewrite Hc1. apply Forall_forall. auto.
  - unfold frame_wf. rewrite Hc2. apply Forall_forall. auto.
  - congruence.
  - now rewrite Hc1.
Qed.

(** The whole constructor of the loader runs on the sample file. *)
Lemma init_sample_runs :
  exists w' self',
    Loader.init "../datas/" 1 "standard_scaler" "IPS-LOADER" (-100) 1 (2 # 5)
      sample_world
    = (w', Ok self')
    /\ opened w' = ["../datas/data.csv"].
Proof.
  eexists. eexists. unfold Loader.init.
  erewrite bind_run by (cbn; reflexivity).
  erewrite bind_run by (vm_compute; reflexivity).
  unfold Loader.process_data. cbn. split; reflexivity.
Qed.

(** X22.  Were the [preprocessor] field to hold the loader's coordinate scaler
    (fitted on the two coordinate columns), [evaluate] would still stop at
    the first inverse transform: a one-column prediction cannot be scaled
    in place by two statistics. *)
Lemma evaluate_raises_on_coordinate_scaler
    (predict : Keras.Model -> list pyval -> result (list pyval))
    (self : DNN_Regression.DNN_Regression) (w : World) (e : estimator)
    (addr : nat) (m : Keras.Model) (X Y : matrix) (m1 m2 s1 s2 : R) :
  DNN_Regression.preprocessor self = PyEstimator e ->
  est_kind e = StandardScaler ->
  heap w !! est_loc e = Some (StandardFit [m1; m2] [s1; s2]) ->
  truthy (DNN_Regression.tx_power self) = Ok false ->
  DNN_Regression.model self = Some addr ->
  models w !! addr = Some m ->
  predict m [DNN_Regression.rss_test_scaled self]
  = Ok [PyArray X; PyArray Y] ->
  Sklearn.check_array X = Ok tt ->
  Numpy.width X = 1%nat ->
  DNN_Regression.evaluate predict self w
  = (w, Raise (ValueError "operands could not be broadcast together")).
Proof.
  intros Hp Hk Hh Htx Hm Hl Hpred Hc Hw.
  unfold DNN_Regression.evaluate, DNN_Regression.the_model,
    DNN_Regression.inverse, DNN_Regression.call_inverse_transform,
    Sklearn.inverse_transform.
  rewrite Hm, Hp. run. rewrite Htx. simpl. rewrite Hl, Hpred.
  rewrite Hk. simpl. rewrite Hk, Hh. simpl. rewrite Hc. simpl.
  unfold Sklearn.broadcast_rows. rewrite Hw. reflexivity.
Qed.

(** Equal predictions and targets give a zero mean squared error and an
    R² of one. *)
Lemma squared_errors_refl (v : list R) :
  Sklearn.Rsum (Sklearn.squared_errors v v) = 0%R.
Proof.
  unfold Sklearn.squared_errors, Sklearn.Rsum.
  induction v as [|x v IH]; simpl; [reflexivity|]. rewrite IH. lra.
Qed.

Lemma mean_singleton (x : R) : Sklearn.mean [x] = x.
Proof. unfold Sklearn.mean, Sklearn.Rsum. simpl. field. Qed.

Lemma metrics_on_equal_vectors (v : list R) :
  (2 <= length v)%nat ->
  Sklearn.mse (PyVector v) (PyVector v) = Ok 0%R
  /\ Sklearn.r2 (PyVector v) (PyVector v) = Ok 1%R.
Proof.
  intros Hlen.
  assert (Hc : Sklearn.check_array (map (fun x => [x]) v) = Ok tt).
  { destruct v as [|x v]; [simpl in Hlen; lia|].
    unfold Sklearn.check_array. simpl.
    replace (forallb _ _) with true; [reflexivity|]. symmetry.
    apply forallb_forall. intros r Hr.
    apply in_map_iff in Hr as (y & <- & _). reflexivity. }
  assert (Hcols : Sklearn.columns_of (map (fun x => [x]) v) = [v]).
  { destruct v as [|x v]; [simpl in Hlen; lia|].
    unfold Sklearn.columns_of, Numpy.width.
    change (map (fun x0 : R => [x0]) (x :: v)) with
      ([x] :: map (fun x0 : R => [x0]) v).
    cbn [hd length seq map].
    change ([x] :: map (fun x0 : R => [x0]) v) with
      (map (fun x0 : R => [x0]) (x :: v)).
    now rewrite column_of_single. }
  unfold Sklearn.mse, Sklearn.r2, Sklearn.check_reg_targets. simpl.
  rewrite Hc, !Nat.eqb_refl. simpl. rewrite length_map.
  replace (Nat.ltb (length v) 2) with false
    by (symmetry; apply Nat.ltb_ge; exact Hlen).
  rewrite Hcols. simpl. rewrite !mean_singleton.
  unfold Sklearn.r2_column, Sklearn.mean at 1. rewrite squared_errors_refl.
  split; f_equal.
  - unfold Rdiv. apply Rmult_0_l.
  - destruct (Req_dec_T _ 0); destruct (Req_dec_T 0 0); try lra.
Qed.

(** ** When the loader's methods return *)

Lemma read_csv_runs (path : string) (w : World) (t : Table) :
  files w path = Some t ->
  existsb (fun l => Nat.ltb (length (header t)) (length l)) (lines t)
  = false ->
  read_csv path w
  = (with_opened (opened w ++ [path]) w,
     Ok {| columns := header t;
           rows := zip (seq 0 (length (lines t)))
                       (map (resize (length (header t)) None) (lines t)) |}).
Proof.
  intros Hf Hl. unfold read_csv, open_file, bind. rewrite Hf. simpl.
  now rewrite Hl.
Qed.

Lemma lift_run {A} (r : result A) (a : A) (w : World) :
  r = Ok a -> lift r w = (w, Ok a).
Proof. now intros ->. Qed.

Lemma train_test_split_runs {A} (data : list A) (ts : Q) (w : World)
    (sizes : nat * nat) :
  Sklearn.validate_shuffle_split (length data) ts = Ok sizes ->
  exists w' split, Sklearn.train_test_split data ts w = (w', Ok split).
Proof.
  intros Hv. unfold Sklearn.train_test_split.
  erewrite bind_run by (apply lift_run; exact Hv).
  destruct (permutation_runs (length data) w) as (p & Hp).
  erewrite bind_run by exact Hp. eexists. eexists. reflexivity.
Qed.

Lemma sample_runs (frac : Q) (df : DataFrame) (w : World) :
  Qle_bool 0 frac = true -> Qle_bool frac 1 = true ->
  exists w' df', Pandas.sample frac df w = (w', Ok df').
Proof.
  intros H0 H1. unfold Pandas.sample. rewrite H0, H1. simpl.
  destruct (permutation_runs (length (rows df)) w) as (p & Hp).
  erewrite bind_run by exact Hp. eexists. eexists. reflexivity.
Qed.

(** [load_data] returns as soon as the file parses, has a [floor] column,
    the split sizes are valid for the rows of the floor, and the sampling
    fraction is not negative. *)
Lemma load_data_runs (self : Loader.Loader) (w w1 : World)
    (data0 data : DataFrame) (sizes : nat * nat) :
  read_csv (Loader.data_fname self) w = (w1, Ok data0) ->
  filter_eq data0 "floor" (inject_Z (Loader.floor self)) = Ok data ->
  Sklearn.validate_shuffle_split (length (rows data)) (Loader.test_size self)
  = Ok sizes ->
  Qle_bool 0 (Loader.frac self) = true ->
  exists w' self', Loader.load_data self w = (w', Ok self').
Proof.
  intros Hr Hf Hv Hfrac. unfold Loader.load_data.
  erewrite bind_run by exact Hr.
  erewrite bind_run by (apply lift_run; exact Hf).
  destruct (train_test_split_runs (rows data) (Loader.test_size self) w1
              sizes Hv) as (w2 & split & Hs).
  erewrite bind_run by exact Hs.
  destruct (negb (Qle_bool 1 (Loader.frac self))) eqn:Hlt.
  - assert (Hle : Qle_bool (Loader.frac self) 1 = true).
    { apply Qle_bool_iff, Qlt_le_weak, Qnot_le_lt. intros Hle.
      apply Qle_bool_iff in Hle. rewrite Hle in Hlt. discriminate. }
    destruct (sample_runs (Loader.frac self)
                {| columns := columns data; rows := fst split |} w2
                Hfrac Hle) as (w3 & tr & H1).
    destruct (sample_runs (Loader.frac self)
                {| columns := columns data; rows := snd split |} w3
                Hfrac Hle) as (w4 & te & H2).
    erewrite bind_run.
    2:{ erewrite bind_run by exact H1. erewrite bind_run by exact H2.
        reflexivity. }
    eexists. eexists. reflexivity.
  - erewrite bind_run by reflexivity. eexists. eexists. reflexivity.
Qed.

Lemma col_indices_runs (names cols : list string) :
  Forall (fun n => is_Some (col_index n cols)) names ->
  exists js, col_indices names cols = Ok js.
Proof.
  induction 1 as [|n names [j Hj] _ [js IH]]; simpl.
  - eexists. reflexivity.
  - rewrite Hj, IH. eexists. reflexivity.
Qed.

Lemma fill_frame_runs (names : list string) (v : Z) (df : DataFrame) :
  Forall (fun n => is_Some (col_index n (columns df))) names ->
  exists df', Loader.fill_frame names v df = Ok df'.
Proof.
  intros H. destruct (col_indices_runs _ _ H) as [js Hjs].
  unfold Loader.fill_frame, getitem_list. rewrite Hjs. eexists. reflexivity.
Qed.

Lemma asarray_runs (cs : list cell) :
  Forall is_Some cs -> exists xs, Numpy.asarray cs = Ok xs.
Proof.
  induction 1 as [|c cs [q ->] _ [xs IH]]; simpl.
  - eexists. reflexivity.
  - rewrite IH. eexists. reflexivity.
Qed.

Lemma asarray2_runs (rws : list (list cell)) :
  Forall (Forall is_Some) rws -> exists X, Numpy.asarray2 rws = Ok X.
Proof.
  induction 1 as [|r rws Hr _ [X IH]]; simpl.
  - eexists. reflexivity.
  - destruct (asarray_runs r Hr) as [x ->]. rewrite IH.
    eexists. reflexivity.
Qed.

(** After the fill, the feature cells of a row all hold numbers. *)
Lemma filled_row_present (js : list nat) (v : Q) (cells : list cell) :
  Forall (fun j => (j < length cells)%nat) js ->
  Forall is_Some
    (map (fun j =>
            default None
              (write_cells js
                 (map (fun j => Some (default v (default None (cells !! j))))
                      js) cells !! j)) js).
Proof.
  intros Hlt. apply Forall_forall. intros c Hc.
  apply list_elem_of_In in Hc. apply in_map_iff in Hc as (j & <- & Hj).
  apply list_elem_of_In in Hj.
  rewrite (write_cells_listed
             (fun j => Some (default v (default None (cells !! j))))).
  - simpl. eexists. reflexivity.
  - exact Hj.
  - rewrite Forall_forall in Hlt. now apply Hlt.
Qed.

Lemma fill_frame_wf (names : list string) (v : Z) (df df' : DataFrame) :
  frame_wf df -> Loader.fill_frame names v df = Ok df' -> frame_wf df'.
Proof.
  intros Hwf H. apply fill_frame_rows in H as (js & _ & Hc & Hr).
  unfold frame_wf in *. rewrite Hc, Hr. apply Forall_forall.
  intros r Hr'. apply list_elem_of_In in Hr'.
  apply in_map_iff in Hr' as (r0 & <- & Hr0). simpl.
  rewrite length_write_cells. rewrite Forall_forall in Hwf.
  apply Hwf. now apply list_elem_of_In.
Qed.

Lemma rss_of_filled_runs (names : list string) (v : Z) (df df' : DataFrame) :
  frame_wf df -> Loader.fill_frame names v df = Ok df' ->
  exists rss, Loader.rss_of df' names = Ok rss.
Proof.
  intros Hwf H. apply fill_frame_rows in H as (js & Hjs & Hc & Hr).
  unfold Loader.rss_of, getitem_list. rewrite Hc, Hjs. simpl.
  apply asarray2_runs. rewrite Hr, !map_map. simpl.
  apply Forall_forall. intros cs Hcs. apply list_elem_of_In in Hcs.
  apply in_map_iff in Hcs as (r & <- & Hr0).
  apply filled_row_present. apply Forall_forall. intros j Hj.
  destruct (col_indices_elem _ _ _ _ Hjs Hj) as (n & _ & Hn).
  apply col_index_lt in Hn. unfold frame_wf in Hwf.
  rewrite Forall_forall in Hwf. apply list_elem_of_In in Hr0.
  now rewrite (Hwf r Hr0).
Qed.

Lemma fill_frame_present (names : list string) (v : Z) (df df' : DataFrame)
    (j : nat) :
  Loader.fill_frame names v df = Ok df' ->
  Forall (fun r => present (snd r) j) (rows df) ->
  Forall (fun r => present (snd r) j) (rows df').
Proof.
  intros H Hp. apply fill_frame_rows in H as (js & _ & _ & Hr).
  rewrite Hr. apply Forall_forall. intros r' Hr'.
  apply list_elem_of_In in Hr'. apply in_map_iff in Hr' as (r & <- & Hr0).
  rewrite Forall_forall in Hp. apply list_elem_of_In in Hr0.
  destruct (Hp r Hr0) as [q Hq]. simpl. unfold present.
  destruct (decide (j ∈ js)) as [Hin|Hout].
  - rewrite (write_cells_listed
               (fun j => Some (default (inject_Z v)
                                       (default None (r.2 !! j))))).
    + rewrite Hq. simpl. eexists. reflexivity.
    + exact Hin.
    + eapply lookup_lt_Some, Hq.
  - rewrite write_cells_other by exact Hout. eauto.
Qed.

Lemma fill_frame_ready (names : list string) (v : Z) (df df' : DataFrame) :
  frame_ready names df -> Loader.fill_frame names v df = Ok df' ->
  frame_ready names df'.
Proof.
  intros (Hwf & Hne & Hnames & jx & jy & Hx & Hy & Hxy) H.
  pose proof (fill_frame_rows _ _ _ _ H) as (js & _ & Hc & Hr).
  split; [eapply fill_frame_wf; eassumption|]. split; [|split].
  - rewrite Hr. destruct (rows df); [contradiction | discriminate].
  - now rewrite Hc.
  - exists jx, jy. rewrite Hc. split; [exact Hx|]. split; [exact Hy|].
    apply Forall_and. split.
    + eapply fill_frame_present; [exact H|].
      eapply Forall_impl; [exact Hxy|]. intros r Hr0. apply Hr0.
    + eapply fill_frame_present; [exact H|].
      eapply Forall_impl; [exact Hxy|]. intros r Hr0. apply Hr0.
Qed.

Lemma scale_rss_runs (s : option estimator) (k : nat) (rss : matrix)
    (w : World) :
  rss <> [] -> k <> O -> Forall (fun r => length r = k) rss ->
  exists w' scaled,
    Loader.scale_rss s (length rss, k) rss w = (w', Ok scaled).
Proof.
  intros Hne Hk Hrect. destruct s as [e|]; [|eexists; eexists; reflexivity].
  assert (Hflat : concat rss <> []).
  { destruct rss as [|r rss]; [contradiction|].
    apply Forall_cons in Hrect as [Hr _]. simpl.
    destruct r; [simpl in Hr; lia | discriminate]. }
  assert (Hc : Sklearn.check_array (Numpy.reshape_column rss) = Ok tt).
  { unfold Numpy.reshape_column. destruct (concat rss) as [|x flat];
      [contradiction|].
    apply check_array_intro; [discriminate | discriminate |].
    apply Forall_forall. intros r Hr. apply list_elem_of_In in Hr.
    apply in_map_iff in Hr as (y & <- & _). reflexivity. }
  destruct (fit_transform_runs e _ w Hc) as (Xs & Hfit).
  unfold Loader.scale_rss. erewrite bind_run by exact Hfit.
  apply fit_transform_spec in Hfit as (_ & _ & Ht).
  rewrite reshape_column_concat, fit_params_single_column in Ht by exact Hflat.
  unfold Numpy.reshape_column in Ht. simpl in Ht. rewrite app_nil_r in Ht.
  rewrite transform_single_column in Ht. inversion Ht; subst Xs.
  unfold Numpy.reshape. simpl.
  rewrite <- (map_map (shared_transform (est_kind e) (concat rss))
                      (fun y => [y])).
  rewrite concat_singletons, length_map, (length_concat_rect k) by exact Hrect.
  rewrite Nat.eqb_refl. eexists. eexists. reflexivity.
Qed.

Lemma present_cells (df : DataFrame) (j : nat) :
  Forall (fun r => present (snd r) j) (rows df) ->
  Forall is_Some (map (fun r => default None (snd r !! j)) (rows df)).
Proof.
  intros H. apply Forall_forall. intros c Hc. apply list_elem_of_In in Hc.
  apply in_map_iff in Hc as (r & <- & Hr). rewrite Forall_forall in H.
  apply list_elem_of_In in Hr. destruct (H r Hr) as [q ->].
  eexists. reflexivity.
Qed.

Lemma coords_of_runs (df : DataFrame) :
  has_coords df -> rows df <> [] ->
  exists c, Loader.coords_of df = Ok c /\ Sklearn.check_array c = Ok tt.
Proof.
  intros (jx & jy & Hx & Hy & Hxy) Hne.
  apply Forall_and in Hxy as [Hpx Hpy].
  destruct (asarray_runs _ (present_cells df jx Hpx)) as [xs Hxs].
  destruct (asarray_runs _ (present_cells df jy Hpy)) as [ys Hys].
  unfold Loader.coords_of, getitem. rewrite Hx, Hy, Hxs, Hys.
  pose proof (asarray_length _ _ Hxs) as Lx.
  pose proof (asarray_length _ _ Hys) as Ly.
  rewrite length_map in Lx, Ly.
  unfold Numpy.column_stack. rewrite Lx, Ly, Nat.eqb_refl.
  eexists. split; [reflexivity|].
  destruct xs as [|x xs]; [destruct (rows df); [contradiction|discriminate]|].
  destruct ys as [|y ys]; [destruct (rows df); [contradiction|discriminate]|].
  apply check_array_intro; [discriminate | discriminate |].
  apply Forall_forall. intros r Hr. apply list_elem_of_In in Hr.
  change (zip_with (fun x0 y0 : R => [x0; y0]) (x :: xs) (y :: ys)) with
    ([x; y] :: zip_with (fun x0 y0 : R => [x0; y0]) xs ys) in Hr.
  destruct Hr as [<-|Hr]; [reflexivity|].
  apply list_elem_of_In, elem_of_zip_with in Hr as (a & b & -> & _).
  reflexivity.
Qed.

(** [process_data] returns on a loader whose two frames are ready, with at
    least one feature column and a coordinate scaler. *)
Lemma process_data_runs (self : Loader.Loader) (w : World)
    (names : list string) (tr te : DataFrame) (e2 : estimator) :
  Loader.no_waps self = Some names -> names <> [] ->
  Loader.training_df self = Some tr -> Loader.testing_df self = Some te ->
  frame_ready names tr -> frame_ready names te ->
  Loader.coords_preprocessing self = Some e2 ->
  exists w' self', Loader.process_data self w = (w', Ok self').
Proof.
  intros Hn Hnames Htr Hte R1 R2 He2.
  destruct (fill_frame_runs names (Loader.no_val_rss self) tr) as [tr' F1];
    [apply R1|].
  destruct (fill_frame_runs names (Loader.no_val_rss self) te) as [te' F2];
    [apply R2|].
  pose proof (fill_frame_ready _ _ _ _ R1 F1) as (_ & Hne1 & _ & Hco1).
  pose proof (fill_frame_ready _ _ _ _ R2 F2) as (_ & Hne2 & _ & Hco2).
  destruct (rss_of_filled_runs _ _ _ _ (proj1 R1) F1) as [rss1 Hr1].
  destruct (rss_of_filled_runs _ _ _ _ (proj1 R2) F2) as [rss2 Hr2].
  destruct (rss_of_shape _ _ _ Hr1) as [L1 K1].
  destruct (rss_of_shape _ _ _ Hr2) as [L2 K2].
  assert (Hk : length names <> O) by (destruct names; [contradiction|discriminate]).
  assert (N1 : rss1 <> []).
  { intros ->. simpl in L1. destruct (rows tr'); [contradiction|discriminate]. }
  assert (N2 : rss2 <> []).
  { intros ->. simpl in L2. destruct (rows te'); [contradiction|discriminate]. }
  destruct (coords_of_runs tr' Hco1 Hne1) as (c1 & Hc1 & Hk1).
  destruct (coords_of_runs te' Hco2 Hne2) as (c2 & Hc2 & Hk2).
  unfold Loader.process_data, Loader.fill_missing, Loader.the_no_waps,
    Loader.the_frame.
  rewrite Hn, Htr, Hte.
  erewrite bind_run.
  2:{ erewrite bind_run by reflexivity. erewrite bind_run by reflexivity.
      erewrite bind_run by (apply lift_run; exact F1).
      erewrite bind_run by reflexivity.
      erewrite bind_run by (apply lift_run; exact F2). reflexivity. }
  unfold Loader.scale_and_bundle, Loader.the_no_waps, Loader.the_frame.
  cbn [Loader.no_waps Loader.training_df Loader.testing_df
       Loader.rssi_scaler Loader.coords_preprocessing].
  rewrite He2.
  erewrite bind_run by reflexivity. erewrite bind_run by reflexivity.
  erewrite bind_run by (apply lift_run; exact Hr1).
  erewrite bind_run by reflexivity.
  erewrite bind_run by (apply lift_run; exact Hr2).
  rewrite <- L1, <- L2.
  destruct (scale_rss_runs (Loader.rssi_scaler self) (length names) rss1 w
              N1 Hk K1) as (w1 & s1 & S1).
  erewrite bind_run by exact S1.
  destruct (scale_rss_runs (Loader.rssi_scaler self) (length names) rss2 w1
              N2 Hk K2) as (w2 & s2 & S2).
  erewrite bind_run by exact S2.
  erewrite bind_run by (apply lift_run; exact Hc1).
  erewrite bind_run by (apply lift_run; exact Hc2).
  destruct (fit_transform_runs e2 c1 w2 Hk1) as (cs1 & T1).
  destruct (fit_transform_runs e2 c2
              (with_heap (<[est_loc e2 := Sklearn.fit_params (est_kind e2) c1]>
                            (heap w2)) w2) Hk2) as (cs2 & T2).
  erewrite bind_run.
  2:{ erewrite bind_run by exact T1. erewrite bind_run by exact T2.
      reflexivity. }
  cbn [fst snd]. erewrite bind_run by reflexivity.
  eexists. eexists. reflexivity.
Qed.

Lemma col_index_is_Some (name : string) (cols : list string) :
  name ∈ cols -> is_Some (col_index name cols).
Proof.
  induction cols as [|c cols IH]; intros H; [inversion H|]. simpl.
  destruct (String.eqb name c) eqn:E; [eexists; reflexivity|].
  apply elem_of_cons in H as [->|H].
  - rewrite String.eqb_refl in E. discriminate.
  - destruct (IH H) as [j ->]. eexists. reflexivity.
Qed.

(** The feature columns [load_data] selects are columns of the frame. *)
Lemma no_waps_in_columns (cols : list string) :
  Forall (fun n => is_Some (col_index n cols))
         (List.filter (Loader.contains "AP") cols).
Proof.
  apply Forall_forall. intros n Hn. apply col_index_is_Some.
  apply list_elem_of_In in Hn. apply filter_In in Hn as [Hn _].
  now apply list_elem_of_In.
Qed.

(** ** The executable parts on small inputs *)

Example contains_AP :
  Loader.contains "AP" "WAP001" = true
  /\ Loader.contains "AP" "AP2" = true
  /\ Loader.contains "AP" "floor" = false.
Proof. repeat split. Qed.

Example py_round_ties_to_even :
  py_round (5 # 2) = 2%Z /\ py_round (7 # 2) = 4%Z /\ py_round (3 # 5) = 1%Z.
Proof. repeat split. Qed.

Example split_sizes_ten_rows :
  Sklearn.validate_shuffle_split 10 (1 # 5) = Ok (8, 2)%nat.
Proof. reflexivity. Qed.

Example split_of_one_row_fails :
  Sklearn.validate_shuffle_split 1 (1 # 5)
  = Raise (ValueError "the resulting train set will be empty").
Proof. reflexivity. Qed.

Example shuffle_by_identity_draws :
  Sklearn.shuffle [0; 1; 2; 3; 4]%nat (seq 0 5) = [0; 4; 1; 3; 2]%nat.
Proof. reflexivity. Qed.

Example sample_split_labels :
  exists w' self' tr te,
    loaded_sample = (w', Ok self')
    /\ Loader.training_df self' = Some tr
    /\ Loader.testing_df self' = Some te
    /\ map fst (rows tr) = [1; 4; 3]%nat
    /\ map fst (rows te) = [0; 5]%nat.
Proof. do 4 eexists. repeat split. Qed.

Example fillna_row :
  Loader.fill_frame ["AP1"; "AP2"] (-100)
    {| columns := ["AP1"; "AP2"; "floor"];
       rows := [(7%nat, [None; Some (-(70 # 1))%Q; Some 1%Q])] |}
  = Ok {| columns := ["AP1"; "AP2"; "floor"];
          rows := [(7%nat, [Some (inject_Z (-100)); Some (-(70 # 1))%Q;
                            Some 1%Q])] |}.
Proof. reflexivity. Qed.

(** * Further properties of the two classes *)

(** ** What the methods leave alone *)

Section Keeps.
Context {P : World -> World -> Prop}.
Hypothesis P_refl : forall w, P w w.
Hypothesis P_trans : forall a b c, P a b -> P b c -> P a c.

Lemma keeps_ret {A} (a : A) : keeps P (ret a).
Proof. intros w. apply P_refl. Qed.

Lemma keeps_raise {A} (e : exn) : keeps P (@raise A e).
Proof. intros w. apply P_refl. Qed.

Lemma keeps_lift {A} (r : result A) : keeps P (lift r).
Proof. intros w. apply P_refl. Qed.

Lemma keeps_get_heap : keeps P get_heap.
Proof. intros w. apply P_refl. Qed.

Lemma keeps_get_model (addr : nat) : keeps P (get_model addr).
Proof.
  intros w. unfold get_model. destruct (models w !! addr); apply P_refl.
Qed.

Lemma keeps_bind {A B} (m : M A) (k : A -> M B) :
  keeps P m -> (forall a, keeps P (k a)) -> keeps P (bind m k).
Proof.
  intros Hm Hk w. unfold bind. specialize (Hm w).
  destruct (m w) as [w1 [a|e]]; simpl in *.
  - eapply P_trans; [exact Hm | apply Hk].
  - exact Hm.
Qed.

End Keeps.

Lemma only_rng_moved_refl (w : World) : only_rng_moved w w.
Proof. repeat split. Qed.

Lemma only_rng_moved_trans (a b c : World) :
  only_rng_moved a b -> only_rng_moved b c -> only_rng_moved a c.
Proof. unfold only_rng_moved. intuition congruence. Qed.

Lemma only_read_refl (w : World) : only_read w w.
Proof. repeat split. Qed.

Lemma only_read_trans (a b c : World) :
  only_read a b -> only_read b c -> only_read a c.
Proof. unfold only_read. intuition congruence. Qed.

Lemma only_refitted_refl (w : World) : only_refitted w w.
Proof. repeat split. Qed.

Lemma only_refitted_trans (a b c : World) :
  only_refitted a b -> only_refitted b c -> only_refitted a c.
Proof. unfold only_refitted. intuition congruence. Qed.

Lemma only_printed_refl (w : World) : only_printed w w.
Proof. repeat split. Qed.

Lemma only_printed_trans (a b c : World) :
  only_printed a b -> only_printed b c -> only_printed a c.
Proof. unfold only_printed. intuition congruence. Qed.

Lemma only_rng_moved_read (w w' : World) :
  only_rng_moved w w' -> only_read w w'.
Proof. unfold only_rng_moved, only_read. tauto. Qed.

Lemma permutation_only_rng (n : nat) :
  keeps only_rng_moved (Sklearn.permutation n).
Proof. intros w. repeat split. Qed.

Lemma train_test_split_only_rng {A} (data : list A) (ts : Q) :
  keeps only_rng_moved (Sklearn.train_test_split data ts).
Proof.
  unfold Sklearn.train_test_split.
  apply (keeps_bind only_rng_moved_trans);
    [apply (keeps_lift only_rng_moved_refl)|]. intros sizes.
  apply (keeps_bind only_rng_moved_trans);
    [apply permutation_only_rng|]. intros p.
  apply (keeps_ret only_rng_moved_refl).
Qed.

Lemma sample_only_rng (frac : Q) (df : DataFrame) :
  keeps only_rng_moved (Pandas.sample frac df).
Proof.
  unfold Pandas.sample.
  destruct (negb (Qle_bool 0 frac));
    [apply (keeps_raise only_rng_moved_refl)|].
  destruct (negb (Qle_bool frac 1));
    [apply (keeps_raise only_rng_moved_refl)|].
  apply (keeps_bind only_rng_moved_trans);
    [apply permutation_only_rng|]. intros p.
  apply (keeps_ret only_rng_moved_refl).
Qed.

Lemma read_csv_only_read (path : string) : keeps only_read (read_csv path).
Proof.
  intros w. unfold read_csv, open_file, bind.
  destruct (files w path) as [t|]; simpl; [|repeat split].
  destruct (existsb _ _); repeat split.
Qed.

Lemma keeps_weaken {A} (P Q : World -> World -> Prop) (m : M A) :
  (forall w w', P w w' -> Q w w') -> keeps P m -> keeps Q m.
Proof. intros H Hm w. apply H, Hm. Qed.

Ltac keeps_step refl trans :=
  first
    [ apply (keeps_ret refl)
    | apply (keeps_raise refl)
    | apply (keeps_lift refl)
    | apply (keeps_get_heap refl)
    | apply (keeps_get_model refl)
    | apply (keeps_bind trans); [|intros ?]
    | match goal with
      | |- keeps _ (match ?x with _ => _ end) => destruct x
      | |- keeps _ (let _ := _ in _) => cbv zeta
      end ].

Lemma load_data_only_read (self : Loader.Loader) :
  keeps only_read (Loader.load_data self).
Proof.
  unfold Loader.load_data.
  apply (keeps_bind only_read_trans); [apply read_csv_only_read|]. intros d0.
  apply (keeps_bind only_read_trans);
    [apply (keeps_lift only_read_refl)|]. intros d.
  apply (keeps_bind only_read_trans).
  { eapply keeps_weaken; [apply only_rng_moved_read|].
    apply train_test_split_only_rng. }
  intros split. cbv zeta.
  apply (keeps_bind only_read_trans); [|intros; apply (keeps_ret only_read_refl)].
  destruct (negb (Qle_bool 1 (Loader.frac self)));
    [|apply (keeps_ret only_read_refl)].
  apply (keeps_bind only_read_trans).
  { eapply keeps_weaken; [apply only_rng_moved_read|]. apply sample_only_rng. }
  intros tr. apply (keeps_bind only_read_trans).
  { eapply keeps_weaken; [apply only_rng_moved_read|]. apply sample_only_rng. }
  intros te. apply (keeps_ret only_read_refl).
Qed.

Lemma fit_transform_only_refitted (e : estimator) (X : matrix) :
  keeps only_refitted (Sklearn.fit_transform e X).
Proof.
  intros w. unfold Sklearn.fit_transform. run.
  destruct (Sklearn.check_array X); simpl; [|repeat split].
  destruct (Sklearn.transform_with (Sklearn.fit_params (est_kind e) X) X);
    simpl; repeat split; apply length_insert.
Qed.

Lemma scale_rss_only_refitted (s : option estimator) (shape : nat * nat)
    (rss : matrix) :
  keeps only_refitted (Loader.scale_rss s shape rss).
Proof.
  unfold Loader.scale_rss. destruct s as [e|];
    [|apply (keeps_ret only_refitted_refl)].
  apply (keeps_bind only_refitted_trans);
    [apply fit_transform_only_refitted|]. intros X.
  apply (keeps_lift only_refitted_refl).
Qed.

Lemma process_data_only_refitted (self : Loader.Loader) :
  keeps only_refitted (Loader.process_data self).
Proof.
  unfold Loader.process_data, Loader.fill_missing, Loader.scale_and_bundle.
  repeat first
    [ apply scale_rss_only_refitted
    | apply fit_transform_only_refitted
    | keeps_step only_refitted_refl only_refitted_trans ].
Qed.

Lemma inverse_transform_only_printed (e : estimator) (X : matrix) :
  keeps only_printed (Sklearn.inverse_transform e X).
Proof.
  unfold Sklearn.inverse_transform.
  destruct (est_kind e);
    repeat keeps_step only_printed_refl only_printed_trans.
Qed.

Lemma inverse_transform_1d_only_printed (e : estimator) (v : list R) :
  keeps only_printed (DNN_Regression.inverse_transform_1d e v).
Proof.
  unfold DNN_Regression.inverse_transform_1d.
  destruct (est_kind e);
    repeat first
      [ keeps_step only_printed_refl only_printed_trans
      | match goal with
        | |- keeps _ (if ?b then _ else _) => destruct b
        end ].
Qed.

Lemma print_only_printed (args : list pyval) : keeps only_printed (print args).
Proof. intros w. repeat split. Qed.

Lemma evaluate_only_printed
    (predict : Keras.Model -> list pyval -> result (list pyval))
    (self : DNN_Regression.DNN_Regression) :
  keeps only_printed (DNN_Regression.evaluate predict self).
Proof.
  unfold DNN_Regression.evaluate, DNN_Regression.the_model,
    DNN_Regression.inverse, DNN_Regression.call_inverse_transform.
  repeat first
    [ apply print_only_printed
    | apply inverse_transform_only_printed
    | apply inverse_transform_1d_only_printed
    | keeps_step only_printed_refl only_printed_trans ].
Qed.

(** ** The loader's constructor *)

Lemma make_scalers_supported (name prefix : string) (k : scaler_kind)
    (w : World) :
  scaler_of_name name = Some k ->
  Loader.make_scalers name prefix w
  = (with_heap ((heap w ++ [NotFitted]) ++ [NotFitted])
       (with_heap (heap w ++ [NotFitted]) w),
     Ok ({| est_kind := k; est_loc := length (heap w) |},
         {| est_kind := k; est_loc := S (length (heap w)) |})).
Proof.
  unfold scaler_of_name, Loader.make_scalers. intros H.
  destruct (String.eqb name "standard_scaler");
    [|destruct (String.eqb name "min_max_scaler");
      [|destruct (String.eqb name "normalization"); [|discriminate]]];
    inversion H; subst k; run; rewrite length_app; simpl;
    rewrite Nat.add_1_r; reflexivity.
Qed.

Lemma make_scalers_ok (name prefix : string) (w w1 : World)
    (scalers : estimator * estimator) :
  Loader.make_scalers name prefix w = (w1, Ok scalers) ->
  exists k,
    scaler_of_name name = Some k
    /\ scalers = ({| est_kind := k; est_loc := length (heap w) |},
                  {| est_kind := k; est_loc := S (length (heap w)) |})
    /\ w1 = with_heap ((heap w ++ [NotFitted]) ++ [NotFitted])
              (with_heap (heap w ++ [NotFitted]) w).
Proof.
  intros H. destruct (scaler_of_name name) as [k|] eqn:Hk.
  - rewrite (make_scalers_supported name prefix k w Hk) in H.
    inversion H. exists k. auto.
  - exfalso. unfold scaler_of_name in Hk. unfold Loader.make_scalers in H.
    destruct (String.eqb name "standard_scaler"); [discriminate|].
    destruct (String.eqb name "min_max_scaler"); [discriminate|].
    destruct (String.eqb name "normalization"); [discriminate|].
    discriminate H.
Qed.

Lemma load_data_fields (self self' : Loader.Loader) (w w' : World) :
  Loader.load_data self w = (w', Ok self') ->
  Loader.rssi_scaler self' = Loader.rssi_scaler self
  /\ Loader.coords_preprocessing self' = Loader.coords_preprocessing self
  /\ Loader.path self' = Loader.path self
  /\ Loader.frac self' = Loader.frac self
  /\ Loader.prepocessor self' = Loader.prepocessor self
  /\ Loader.prefix self' = Loader.prefix self
  /\ Loader.no_val_rss self' = Loader.no_val_rss self
  /\ Loader.floor self' = Loader.floor self
  /\ Loader.test_size self' = Loader.test_size self
  /\ Loader.data_fname self' = Loader.data_fname self.
Proof.
  unfold Loader.load_data. intros H.
  apply bind_ok in H as (d0 & w1 & _ & H).
  apply bind_ok in H as (d & w2 & _ & H).
  apply bind_ok in H as (sp & w3 & _ & H).
  apply bind_ok in H as (sa & w4 & _ & H).
  apply ret_ok in H as [<- _]. repeat split.
Qed.

Lemma scale_and_bundle_fields (self self' : Loader.Loader) (w w' : World) :
  Loader.scale_and_bundle self w = (w', Ok self') ->
  Loader.rssi_scaler self' = Loader.rssi_scaler self
  /\ Loader.coords_preprocessing self' = Loader.coords_preprocessing self
  /\ Loader.path self' = Loader.path self
  /\ Loader.frac self' = Loader.frac self
  /\ Loader.prepocessor self' = Loader.prepocessor self
  /\ Loader.prefix self' = Loader.prefix self
  /\ Loader.no_val_rss self' = Loader.no_val_rss self
  /\ Loader.floor self' = Loader.floor self
  /\ Loader.test_size self' = Loader.test_size self
  /\ Loader.data_fname self' = Loader.data_fname self
  /\ Loader.no_waps self' = Loader.no_waps self
  /\ Loader.training_df self' = Loader.training_df self
  /\ Loader.testing_df self' = Loader.testing_df self.
Proof.
  unfold Loader.scale_and_bundle, Loader.the_no_waps, Loader.the_frame.
  intros H.
  destruct (Loader.no_waps self) as [nw|] eqn:E1; [|discriminate].
  destruct (Loader.training_df self) as [d1|] eqn:E2; [|discriminate].
  apply bind_ok in H as (? & ? & H0 & H). apply lift_ok in H0 as [H0 ->].
  apply bind_ok in H as (? & ? & H1 & H). apply lift_ok in H1 as [H1 ->].
  apply bind_ok in H as (? & ? & _ & H).
  destruct (Loader.testing_df self) as [d2|] eqn:E3; [|discriminate].
  apply bind_ok in H as (? & ? & H3 & H). apply lift_ok in H3 as [H3 ->].
  apply bind_ok in H as (? & ? & _ & H).
  apply bind_ok in H as (? & ? & _ & H).
  apply bind_ok in H as (? & ? & _ & H).
  apply bind_ok in H as (? & ? & _ & H).
  apply bind_ok in H as (? & ? & _ & H).
  apply bind_ok in H as (? & ? & _ & H).
  apply bind_ok in H as (? & ? & _ & H).
  apply ret_ok in H as [<- _]. simpl.
  inversion H0; inversion H1; inversion H3; subst. repeat split.
Qed.

Lemma load_data_opened (self self' : Loader.Loader) (w w' : World) :
  Loader.load_data self w = (w', Ok self') ->
  opened w' = (opened w ++ [Loader.data_fname self])%list.
Proof.
  unfold Loader.load_data. intros H.
  apply bind_ok in H as (d0 & w1 & Hr & H).
  apply bind_ok in H as (d & w2 & Hf & H). apply lift_ok in Hf as [_ Hw2].
  apply bind_ok in H as (sp & w3 & Hs & H).
  apply bind_ok in H as (sa & w4 & Hsa & H).
  apply ret_ok in H as [_ Hw']. subst w2 w'.
  assert (H1 : opened w1 = (opened w ++ [Loader.data_fname self])%list).
  { unfold read_csv in Hr. apply bind_ok in Hr as (t & w5 & Ho & Hr).
    unfold open_file in Ho.
    destruct (files w (Loader.data_fname self)); [|discriminate].
    inversion Ho; subst w5.
    destruct (existsb _ _); [discriminate|]. apply ret_ok in Hr as [_ Hw1].
    subst w1. reflexivity. }
  pose proof (train_test_split_only_rng (rows d) (Loader.test_size self) w1)
    as K1. rewrite Hs in K1. simpl in K1. destruct K1 as (_ & K1 & _).
  assert (K2 : opened w4 = opened w3).
  { destruct (negb (Qle_bool 1 (Loader.frac self))).
    - apply bind_ok in Hsa as (tr & w5 & H5 & Hsa).
      apply bind_ok in Hsa as (te & w6 & H6 & Hsa).
      apply ret_ok in Hsa as [_ Hw4]. subst w4.
      pose proof (sample_only_rng (Loader.frac self)
                    {| columns := columns d; rows := fst sp |} w3) as S1.
      rewrite H5 in S1. simpl in S1. destruct S1 as (_ & S1 & _).
      pose proof (sample_only_rng (Loader.frac self)
                    {| columns := columns d; rows := snd sp |} w5) as S2.
      rewrite H6 in S2. simpl in S2. destruct S2 as (_ & S2 & _).
      congruence.
    - apply ret_ok in Hsa as [_ Hw4]. now subst w4. }
  congruence.
Qed.

Lemma scale_rss_heap (e : estimator) (shape : nat * nat) (rss scaled : matrix)
    (w w' : World) :
  Loader.scale_rss (Some e) shape rss w = (w', Ok scaled) ->
  exists st, heap w' = <[est_loc e := st]> (heap w).
Proof.
  unfold Loader.scale_rss. intros H.
  apply bind_ok in H as (fs & w1 & Hf & H). apply lift_ok in H as [_ Hw].
  subst w'. apply fit_transform_spec in Hf as (_ & Hw1 & _). subst w1.
  eexists. reflexivity.
Qed.

(** The scaler objects [process_data] writes: the RSS scaler twice, then the
    coordinate scaler twice. *)
Lemma process_data_heap (self self' : Loader.Loader) (w w' : World)
    (e1 e2 : estimator) :
  Loader.rssi_scaler self = Some e1 ->
  Loader.coords_preprocessing self = Some e2 ->
  Loader.process_data self w = (w', Ok self') ->
  exists st1 st2 st3 st4,
    heap w'
    = <[est_loc e2 := st4]>
        (<[est_loc e2 := st3]>
           (<[est_loc e1 := st2]> (<[est_loc e1 := st1]> (heap w)))).
Proof.
  intros H1 H2 H. apply process_data_spec in H as (self1 & Hfill & H).
  apply fill_missing_spec in Hfill as (_ & _ & Hs1 & Hs2 & _).
  apply scale_and_bundle_spec in H
    as (names & tr & te & rss_tr & rss_te & rss_tr_s & rss_te_s & c_tr
        & c_te & c_tr_s & c_te_s & e & w1 & w2 & w3 & H).
  destruct H as (_ & _ & _ & _ & _ & Hr1 & Hr2 & _ & _ & He & Hf1 & Hf2 & _).
  rewrite Hs1, H1 in Hr1, Hr2. rewrite Hs2, H2 in He. inversion He; subst e.
  apply scale_rss_heap in Hr1 as [st1 Hw1].
  apply scale_rss_heap in Hr2 as [st2 Hw2].
  apply fit_transform_spec in Hf1 as (_ & Hw3 & _).
  apply fit_transform_spec in Hf2 as (_ & Hw' & _).
  subst w' w3. simpl. rewrite Hw2, Hw1. do 4 eexists. reflexivity.
Qed.

Lemma process_data_fields (self self' : Loader.Loader) (w w' : World) :
  Loader.process_data self w = (w', Ok self') ->
  Loader.rssi_scaler self' = Loader.rssi_scaler self
  /\ Loader.coords_preprocessing self' = Loader.coords_preprocessing self.
Proof.
  intros H. apply process_data_spec in H as (self1 & Hfill & H).
  apply fill_missing_spec in Hfill as (_ & _ & Hs1 & Hs2 & _).
  apply scale_and_bundle_fields in H as (F1 & F2 & _). split; congruence.
Qed.

(** X1.  A loader that has been constructed holds two distinct scaler
    objects of the class its preprocessor name stands for, allocated by the
    constructor after the objects that existed; the constructor left those
    as they were, opened the file [path + 'data.csv'] and no other, printed
    nothing and touched no model. *)
Theorem init_constructs (path : string) (frac : Q)
    (preprocessor prefix : string) (no_val_rss floor : Z) (test_size : Q)
    (w w' : World) (self : Loader.Loader) :
  Loader.init path frac preprocessor prefix no_val_rss floor test_size w
  = (w', Ok self) ->
  exists k,
    scaler_of_name preprocessor = Some k
    /\ Loader.rssi_scaler self
       = Some {| est_kind := k; est_loc := length (heap w) |}
    /\ Loader.coords_preprocessing self
       = Some {| est_kind := k; est_loc := S (length (heap w)) |}
    /\ length (heap w') = S (S (length (heap w)))
    /\ take (length (heap w)) (heap w') = heap w
    /\ opened w' = (opened w ++ [(path ++ "data.csv")%string])%list
    /\ stdout w' = stdout w
    /\ models w' = models w.
Proof.
  unfold Loader.init. intros H.
  apply bind_ok in H as (scalers & w1 & Hm & H).
  apply make_scalers_ok in Hm as (k & Hk & -> & Hw1).
  apply bind_ok in H as (self1 & w2 & Hl & Hp).
  pose proof (load_data_fields _ _ _ _ Hl) as (F1 & F2 & _).
  pose proof (load_data_opened _ _ _ _ Hl) as Ho.
  match type of Hl with
  | Loader.load_data ?s _ = _ => pose proof (load_data_only_read s w1) as K
  end.
  rewrite Hl in K.
  destruct K as (K1 & _ & K2 & K3).
  pose proof (process_data_fields _ _ _ _ Hp) as (G1 & G2).
  pose proof (process_data_only_refitted self1 w2) as R. rewrite Hp in R.
  destruct R as (R1 & R2 & _ & R3 & _ & R4).
  simpl in *. rewrite F1 in G1. rewrite F2 in G2.
  destruct (process_data_heap _ _ _ _ _ _ (eq_trans F1 eq_refl)
              (eq_trans F2 eq_refl) Hp) as (s1 & s2 & s3 & s4 & Hh).
  exists k. subst w1. simpl in *.
  split; [exact Hk|]. split; [exact G1|]. split; [exact G2|].
  split; [|split; [|split; [|split]]].
  - rewrite R4, K2, !length_app. simpl. lia.
  - rewrite Hh, K2. simpl.
    rewrite !take_insert_ge by lia.
    rewrite <- app_assoc. apply take_app_length.
  - congruence.
  - congruence.
  - congruence.
Qed.

Lemma init_constructs_witness :
  exists w' self,
    Loader.init "../datas/" 1 "standard_scaler" "IPS-LOADER" (-100) 1 (2 # 5)
      sample_world
    = (w', Ok self)
    /\ Loader.rssi_scaler self
       = Some {| est_kind := StandardScaler; est_loc := 2 |}
    /\ Loader.coords_preprocessing self
       = Some {| est_kind := StandardScaler; est_loc := 3 |}
    /\ length (heap w') = 4%nat
    /\ take 2 (heap w') = [NotFitted; NotFitted]
    /\ opened w' = ["../datas/data.csv"]
    /\ stdout w' = []
    /\ models w' = [].
Proof.
  destruct init_sample_runs as (w' & self & Hrun & _).
  destruct (init_constructs _ _ _ _ _ _ _ _ _ _ Hrun)
    as (k & Hk & H1 & H2 & H3 & H4 & H5 & H6 & H7).
  inversion Hk; subst k.
  exists w', self. repeat split; assumption.
Defined.

(** X2.  With a supported preprocessor name and no file at
    [path + 'data.csv'], the constructor raises [FileNotFoundError] for
    that path, after the one attempt to open it and without printing. *)
Theorem init_missing_file (path : string) (frac : Q)
    (preprocessor prefix : string) (no_val_rss floor : Z) (test_size : Q)
    (w : World) (k : scaler_kind) :
  scaler_of_name preprocessor = Some k ->
  files w (path ++ "data.csv") = None ->
  exists w',
    Loader.init path frac preprocessor prefix no_val_rss floor test_size w
    = (w', Raise (FileNotFoundError (path ++ "data.csv")))
    /\ opened w' = (opened w ++ [(path ++ "data.csv")%string])%list
    /\ stdout w' = stdout w.
Proof.
  intros Hk Hf. unfold Loader.init.
  erewrite bind_run by (apply make_scalers_supported; exact Hk).
  unfold Loader.load_data, read_csv, open_file, bind. simpl.
  rewrite Hf. eexists. repeat split.
Qed.

Lemma init_missing_file_witness :
  exists w',
    Loader.init "../datas/" 1 "min_max_scaler" "IPS-LOADER" (-100) 1 (1 # 5)
      empty_world
    = (w', Raise (FileNotFoundError "../datas/data.csv"))
    /\ opened w' = ["../datas/data.csv"]
    /\ stdout w' = [].
Proof.
  apply (init_missing_file "../datas/" 1 "min_max_scaler" "IPS-LOADER"
           (-100) 1 (1 # 5) empty_world MinMaxScaler); reflexivity.
Defined.

(** X3.  If the file read has no column called [floor], [load_data] raises
    [KeyError('floor')]; nothing is split or sampled. *)
Theorem load_data_without_floor_column (self : Loader.Loader) (w w1 : World)
    (data0 : DataFrame) :
  read_csv (Loader.data_fname self) w = (w1, Ok data0) ->
  col_index "floor" (columns data0) = None ->
  Loader.load_data self w = (w1, Raise (KeyError "floor")).
Proof.
  intros Hr Hc. unfold Loader.load_data.
  erewrite bind_run by exact Hr.
  unfold bind, lift, filter_eq. now rewrite Hc.
Qed.

Lemma validate_too_few (n : nat) (ts : Q) :
  (n <= 1)%nat -> (0 < ts)%Q -> (ts < 1)%Q ->
  Sklearn.validate_shuffle_split n ts
  = Raise (ValueError "the resulting train set will be empty").
Proof.
  intros Hn H0 H1. unfold Sklearn.validate_shuffle_split.
  replace (Qle_bool ts 0) with false.
  2:{ symmetry. apply not_true_is_false. intros H.
      apply Qle_bool_iff in H. now apply Qle_not_lt in H. }
  replace (Qle_bool 1 ts) with false.
  2:{ symmetry. apply not_true_is_false. intros H.
      apply Qle_bool_iff in H. now apply Qle_not_lt in H. }
  simpl. destruct n as [|[|n]]; [| |lia].
  - rewrite (Qceiling_comp _ 0) by (simpl; ring). reflexivity.
  - rewrite (Qceiling_comp _ ts) by (simpl; ring).
    assert (Hc : Qceiling ts = 1%Z).
    { pose proof (Qle_ceiling ts) as Hle. pose proof (Qceiling_lt ts) as Hlt.
      assert (A : (0 < Qceiling ts)%Z).
      { rewrite Zlt_Qlt. eapply Qlt_le_trans; eassumption. }
      assert (B : (Qceiling ts - 1 < 1)%Z).
      { rewrite Zlt_Qlt. eapply Qlt_trans; eassumption. }
      lia. }
    rewrite Hc. reflexivity.
Qed.

(** X4.  If fewer than two rows of the file are on the configured floor
    (none, when the floor does not occur), [load_data] raises the split's
    [ValueError] for an empty training set, for every test fraction
    strictly between 0 and 1. *)
Theorem load_data_too_few_rows (self : Loader.Loader) (w w1 : World)
    (data0 data : DataFrame) :
  read_csv (Loader.data_fname self) w = (w1, Ok data0) ->
  filter_eq data0 "floor" (inject_Z (Loader.floor self)) = Ok data ->
  (length (rows data) <= 1)%nat ->
  (0 < Loader.test_size self)%Q -> (Loader.test_size self < 1)%Q ->
  Loader.load_data self w
  = (w1, Raise (ValueError "the resulting train set will be empty")).
Proof.
  intros Hr Hf Hn H0 H1. unfold Loader.load_data.
  erewrite bind_run by exact Hr.
  erewrite bind_run by (apply lift_run; exact Hf).
  unfold Sklearn.train_test_split, bind, lift.
  now rewrite validate_too_few.
Qed.

Lemma load_data_without_floor_column_witness :
  exists w1,
    Loader.load_data (sample_loader StandardScaler 1) no_floor_world
    = (w1, Raise (KeyError "floor")).
Proof.
  eexists.
  eapply load_data_without_floor_column;
    [eapply read_csv_runs; reflexivity | reflexivity].
Defined.

Lemma load_data_too_few_rows_witness :
  exists w1,
    Loader.load_data (sample_loader_on_floor 2) sample_world
    = (w1, Raise (ValueError "the resulting train set will be empty"))
    /\ exists w2,
         Loader.load_data (sample_loader_on_floor 7) sample_world
         = (w2, Raise (ValueError "the resulting train set will be empty")).
Proof.
  eexists. split.
  - eapply load_data_too_few_rows;
      [eapply read_csv_runs; reflexivity | reflexivity | simpl; lia
      | reflexivity | reflexivity].
  - eexists.
    eapply load_data_too_few_rows;
      [eapply read_csv_runs; reflexivity | reflexivity | simpl; lia
      | reflexivity | reflexivity].
Defined.

(** ** What [load_data] stores *)

Lemma iloc_app {A} (l : list A) (p q : list nat) :
  Sklearn.iloc l (p ++ q) = (Sklearn.iloc l p ++ Sklearn.iloc l q)%list.
Proof. unfold Sklearn.iloc. apply omap_app. Qed.




Lemma length_iloc {A} (l : list A) (ps : list nat) :
  Forall (fun i => (i < length l)%nat) ps ->
  length (Sklearn.iloc l ps) = length ps.
Proof.
  unfold Sklearn.iloc. induction 1 as [|p ps Hp _ IH]; [reflexivity|].
  simpl. destruct (lookup_lt_is_Some_2 l p Hp) as [x ->]. simpl.
  unfold omap in IH. now rewrite IH.
Qed.

Lemma perm_in_range (n : nat) (perm : list nat) :
  Permutation perm (seq 0 n) -> Forall (fun i => (i < n)%nat) perm.
Proof.
  intros H. apply Forall_forall. intros i Hi. rewrite H in Hi.
  apply elem_of_seq in Hi. lia.
Qed.

Lemma validate_ok (n : nat) (ts : Q) (a b : nat) :
  Sklearn.validate_shuffle_split n ts = Ok (a, b) ->
  b = Z.to_nat (Qceiling (ts * inject_Z (Z.of_nat n)))
  /\ a = (n - b)%nat /\ a <> O.
Proof.
  unfold Sklearn.validate_shuffle_split.
  destruct (Qle_bool ts 0 || Qle_bool 1 ts); [discriminate|].
  destruct (Nat.eqb _ 0) eqn:E; [discriminate|].
  intros H. inversion H; subst. apply Nat.eqb_neq in E. auto.
Qed.

(** The positions [train_test_split] reads its two parts from. *)
Lemma train_test_split_positions {A} (data : list A) (ts : Q) (w w' : World)
    (tr te : list A) :
  Sklearn.train_test_split data ts w = (w', Ok (tr, te)) ->
  exists a b perm,
    Sklearn.validate_shuffle_split (length data) ts = Ok (a, b)
    /\ Permutation perm (seq 0 (length data))
    /\ tr = Sklearn.iloc data (drop b perm)
    /\ te = Sklearn.iloc data (take b perm).
Proof.
  unfold Sklearn.train_test_split. intros H.
  apply bind_ok in H as ([a b] & w1 & Hv & H). apply lift_ok in Hv as [Hv _].
  apply bind_ok in H as (perm & w2 & Hp & H).
  apply permutation_spec in Hp as [Hp _].
  apply ret_ok in H as [H _]. inversion H; subst. simpl.
  exists a, b, perm. split; [exact Hv|]. split; [exact Hp|].
  split; [|reflexivity]. f_equal. apply take_ge.
  apply validate_ok in Hv as (_ & -> & _).
  rewrite length_drop, (Permutation_length Hp), length_seq. lia.
Qed.

Lemma sample_positions (frac : Q) (df df' : DataFrame) (w w' : World) :
  Pandas.sample frac df w = (w', Ok df') ->
  exists perm,
    Permutation perm (seq 0 (length (rows df)))
    /\ columns df' = columns df
    /\ rows df'
       = Sklearn.iloc (rows df)
           (take (sample_size frac (length (rows df))) perm).
Proof.
  unfold Pandas.sample.
  destruct (negb (Qle_bool 0 frac)); [discriminate|].
  destruct (negb (Qle_bool frac 1)); [discriminate|].
  intros H. apply bind_ok in H as (perm & w1 & Hp & H).
  apply permutation_spec in Hp as [Hp _].
  apply ret_ok in H as [H _]. subst df'. exists perm. auto.
Qed.

(** What a successful [load_data] did, step by step. *)
Lemma load_data_inv (self self' : Loader.Loader) (w w' : World) :
  Loader.load_data self w = (w', Ok self') ->
  exists w1 data0 data a b perm tr te,
    read_csv (Loader.data_fname self) w = (w1, Ok data0)
    /\ filter_eq data0 "floor" (inject_Z (Loader.floor self)) = Ok data
    /\ Sklearn.validate_shuffle_split (length (rows data))
         (Loader.test_size self) = Ok (a, b)
    /\ Permutation perm (seq 0 (length (rows data)))
    /\ Loader.training_df self' = Some tr
    /\ Loader.testing_df self' = Some te
    /\ columns tr = columns data /\ columns te = columns data
    /\ Loader.no_waps self'
       = Some (List.filter (Loader.contains "AP") (columns data))
    /\ Loader.waps_size self'
       = Some (length (List.filter (Loader.contains "AP") (columns data)))
    /\ let tr0 := Sklearn.iloc (rows data) (drop b perm) in
       let te0 := Sklearn.iloc (rows data) (take b perm) in
       if negb (Qle_bool 1 (Loader.frac self))
       then
         exists q1 q2,
           Permutation q1 (seq 0 (length tr0))
           /\ Permutation q2 (seq 0 (length te0))
           /\ rows tr
              = Sklearn.iloc tr0
                  (take (sample_size (Loader.frac self) (length tr0)) q1)
           /\ rows te
              = Sklearn.iloc te0
                  (take (sample_size (Loader.frac self) (length te0)) q2)
       else rows tr = tr0 /\ rows te = te0.
Proof.
  unfold Loader.load_data. intros H.
  apply bind_ok in H as (data0 & w1 & Hr & H).
  apply bind_ok in H as (data & w2 & Hf & H).
  apply lift_ok in Hf as [Hf Hw2]. subst w2.
  apply bind_ok in H as ([tr0 te0] & w3 & Hs & H).
  apply bind_ok in H as ([tr te] & w4 & Hsa & H).
  apply ret_ok in H as [H _]. subst self'. simpl.
  apply train_test_split_positions in Hs as (a & b & perm & Hv & Hp & -> & ->).
  exists w1, data0, data, a, b, perm, tr, te.
  simpl in Hsa. destruct (negb (Qle_bool 1 (Loader.frac self))).
  - apply bind_ok in Hsa as (tr1 & w5 & H1 & Hsa).
    apply bind_ok in Hsa as (te1 & w6 & H2 & Hsa).
    apply ret_ok in Hsa as [Hsa Hw4]. inversion Hsa; subst.
    apply sample_positions in H1 as (q1 & P1 & C1 & R1).
    apply sample_positions in H2 as (q2 & P2 & C2 & R2). simpl in *.
    repeat (split; [first [assumption | reflexivity]|]).
    exists q1, q2. auto.
  - apply ret_ok in Hsa as [Hsa _]. inversion Hsa; subst. simpl.
    repeat (split; [first [assumption | reflexivity]|]). split; reflexivity.
Qed.

#[local] Open Scope list_scope.

Lemma iloc_labels_NoDup {B} (l : list (nat * B)) (ps : list nat) :
  NoDup (map fst l) -> NoDup ps -> NoDup (map fst (Sklearn.iloc l ps)).
Proof.
  intros Hl Hps. induction Hps as [|p ps Hp Hps IH]; [constructor|].
  change (p :: ps) with ([p] ++ ps). rewrite iloc_app, map_app.
  apply NoDup_app. split; [|split; [|exact IH]].
  - unfold Sklearn.iloc. simpl. destruct (l !! p); simpl;
      [apply NoDup_singleton | constructor].
  - intros lbl H1 H2.
    apply list_elem_of_In in H1, H2.
    apply in_map_iff in H1 as (r1 & E1 & H1).
    apply in_map_iff in H2 as (r2 & E2 & H2).
    apply list_elem_of_In in H1, H2.
    eapply (iloc_labels_disjoint l [p] ps r1 r2); eauto; [|congruence].
    intros i Hi Hi'. apply list_elem_of_singleton in Hi. subst i.
    contradiction.
Qed.

Lemma perm_NoDup (n : nat) (perm : list nat) :
  Permutation perm (seq 0 n) -> NoDup perm.
Proof. intros H. rewrite H. apply NoDup_seq. Qed.



(** X6.  After [load_data] both frames have the columns of the file, every
    row has one cell per column, and the feature columns [no_waps] are the
    file's column names that contain [AP], in the file's order, with
    [waps_size] their number. *)
Theorem load_data_feature_columns (self self' : Loader.Loader)
    (w w' : World) :
  Loader.load_data self w = (w', Ok self') ->
  exists w1 data0 tr te,
    read_csv (Loader.data_fname self) w = (w1, Ok data0)
    /\ Loader.training_df self' = Some tr
    /\ Loader.testing_df self' = Some te
    /\ columns tr = columns data0 /\ columns te = columns data0
    /\ frame_wf tr /\ frame_wf te
    /\ Loader.no_waps self'
       = Some (List.filter (Loader.contains "AP") (columns data0))
    /\ Loader.waps_size self'
       = Some (length (List.filter (Loader.contains "AP") (columns data0))).
Proof.
  intros H. pose proof (load_data_frames _ _ _ _ H)
    as (tr' & te' & T1 & T2 & W1 & W2 & _).
  apply load_data_inv in H
    as (w1 & data0 & data & a & b & perm & tr & te & Hr & Hf & _ & _
        & Htr & Hte & C1 & C2 & N1 & N2 & _).
  rewrite Htr in T1. rewrite Hte in T2. inversion T1; inversion T2; subst.
  apply filter_eq_spec in Hf as (j & _ & Hc & _). rewrite Hc in *.
  exists w1, data0, tr', te'. repeat (split; [assumption|]). assumption.
Qed.

Lemma load_data_feature_columns_witness :
  exists w' self' tr te,
    Loader.load_data (sample_loader StandardScaler (1 # 2)) sample_world
    = (w', Ok self')
    /\ Loader.training_df self' = Some tr
    /\ Loader.testing_df self' = Some te
    /\ columns tr = ["AP1"; "AP2"; "floor"; "xr"; "yr"]
    /\ columns te = ["AP1"; "AP2"; "floor"; "xr"; "yr"]
    /\ frame_wf tr /\ frame_wf te
    /\ Loader.no_waps self' = Some ["AP1"; "AP2"]
    /\ Loader.waps_size self' = Some 2%nat.
Proof.
  destruct (Loader.load_data (sample_loader StandardScaler (1 # 2))
              sample_world) as [w' [self'|e]] eqn:E.
  - destruct (load_data_feature_columns _ _ _ _ E)
      as (w1 & data0 & tr & te & H1 & H2 & H3 & H4 & H5 & H6 & H7 & H8 & H9).
    simpl in H1.
    rewrite (read_csv_runs "../datas/data.csv" sample_world sample_table
               eq_refl eq_refl) in H1.
    inversion H1; subst data0. simpl in *.
    exists w', self', tr, te. repeat (split; [first [assumption|reflexivity]|]).
    assumption.
  - exfalso. vm_compute in E. discriminate E.
Defined.

Lemma filter_eq_rows (df df' : DataFrame) (name : string) (v : Q) :
  filter_eq df name v = Ok df' ->
  NoDup (map fst (rows df)) ->
  NoDup (map fst (rows df')) /\ forall r, r ∈ rows df' -> r ∈ rows df.
Proof.
  intros H Hnd. apply filter_eq_spec in H as (j & _ & _ & ->).
  split; [now apply NoDup_labels_filter|].
  intros r Hr. apply list_elem_of_In in Hr. apply filter_In in Hr.
  apply list_elem_of_In. tauto.
Qed.

(** X7.  [load_data] passes rows through unchanged and samples without
    replacement: every row of either frame is a row of the file as read,
    with its index label and its cells, and within a frame no index label
    occurs twice. *)
Theorem load_data_rows_are_file_rows (self self' : Loader.Loader)
    (w w' : World) :
  Loader.load_data self w = (w', Ok self') ->
  exists w1 data0 tr te,
    read_csv (Loader.data_fname self) w = (w1, Ok data0)
    /\ Loader.training_df self' = Some tr
    /\ Loader.testing_df self' = Some te
    /\ (forall r, r ∈ rows tr -> r ∈ rows data0)
    /\ (forall r, r ∈ rows te -> r ∈ rows data0)
    /\ NoDup (map fst (rows tr))
    /\ NoDup (map fst (rows te)).
Proof.
  intros H. apply load_data_inv in H
    as (w1 & data0 & data & a & b & perm & tr & te & Hr & Hf & _ & Hp
        & Htr & Hte & _ & _ & _ & _ & Hrows).
  pose proof (read_csv_labels _ _ _ _ Hr) as Hnd0.
  destruct (filter_eq_rows _ _ _ _ Hf Hnd0) as [Hnd Hsub].
  pose proof (perm_NoDup _ _ Hp) as Hpn.
  assert (N1 : NoDup (map fst (Sklearn.iloc (rows data) (drop b perm)))).
  { apply iloc_labels_NoDup; [exact Hnd|].
    apply (sublist_NoDup _ perm); [exact Hpn | apply sublist_drop]. }
  assert (N2 : NoDup (map fst (Sklearn.iloc (rows data) (take b perm)))).
  { apply iloc_labels_NoDup; [exact Hnd|].
    apply (sublist_NoDup _ perm); [exact Hpn | apply sublist_take]. }
  exists w1, data0, tr, te. repeat (split; [assumption|]).
  cbv zeta in Hrows. destruct (negb (Qle_bool 1 (Loader.frac self))).
  - destruct Hrows as (q1 & q2 & P1 & P2 & -> & ->).
    repeat split.
    + intros r Hr0. apply Hsub. eapply iloc_subseteq, iloc_subseteq, Hr0.
    + intros r Hr0. apply Hsub. eapply iloc_subseteq, iloc_subseteq, Hr0.
    + apply iloc_labels_NoDup; [exact N1|].
      apply (sublist_NoDup _ q1); [eapply perm_NoDup, P1 | apply sublist_take].
    + apply iloc_labels_NoDup; [exact N2|].
      apply (sublist_NoDup _ q2); [eapply perm_NoDup, P2 | apply sublist_take].
  - destruct Hrows as [-> ->]. repeat split; try assumption.
    + intros r Hr0. apply Hsub. eapply iloc_subseteq, Hr0.
    + intros r Hr0. apply Hsub. eapply iloc_subseteq, Hr0.
Qed.

Lemma load_data_rows_are_file_rows_witness :
  exists w' self' w1 data0 tr te,
    Loader.load_data (sample_loader StandardScaler (1 # 2)) sample_world
    = (w', Ok self')
    /\ read_csv "../datas/data.csv" sample_world = (w1, Ok data0)
    /\ Loader.training_df self' = Some tr
    /\ Loader.testing_df self' = Some te
    /\ (forall r, r ∈ rows tr -> r ∈ rows data0)
    /\ (forall r, r ∈ rows te -> r ∈ rows data0)
    /\ NoDup (map fst (rows tr))
    /\ NoDup (map fst (rows te)).
Proof.
  destruct (Loader.load_data (sample_loader StandardScaler (1 # 2))
              sample_world) as [w' [self'|e]] eqn:E.
  - destruct (load_data_rows_are_file_rows _ _ _ _ E)
      as (w1 & data0 & tr & te & H).
    exists w', self', w1, data0, tr, te. split; [reflexivity | exact H].
  - exfalso. vm_compute in E. discriminate E.
Defined.






(** ** When [process_data] raises, and what it stores *)

Lemma bind_raise {A B} (m : M A) (k : A -> M B) (w w1 : World) (e : exn) :
  m w = (w1, Raise e) -> bind m k w = (w1, Raise e).
Proof. unfold bind. now intros ->. Qed.

Lemma scale_rss_empty (e : estimator) (shape : nat * nat) (rss : matrix)
    (w : World) :
  concat rss = [] ->
  Loader.scale_rss (Some e) shape rss w
  = (w, Raise (ValueError "Found array with 0 sample(s)")).
Proof.
  intros H. unfold Loader.scale_rss, Sklearn.fit_transform,
    Numpy.reshape_column. rewrite H. reflexivity.
Qed.

Lemma concat_empty_rows (k : nat) (X : matrix) :
  Forall (fun r => length r = k) X -> X = [] \/ k = O -> concat X = [].
Proof.
  intros Hk [->| ->]; [reflexivity|].
  induction Hk as [|r X Hr _ IH]; [reflexivity|].
  simpl. rewrite IH. now destruct r.
Qed.

(** X10.  When a frame has no row (a small sampling fraction can leave
    none) or the frames have no feature column, [process_data] raises the
    scaler's [ValueError] for an array with no sample. *)
Theorem process_data_nothing_to_scale (self : Loader.Loader) (w : World)
    (names : list string) (tr te : DataFrame) (e : estimator) :
  Loader.no_waps self = Some names ->
  Loader.training_df self = Some tr -> Loader.testing_df self = Some te ->
  frame_wf tr -> frame_wf te ->
  Forall (fun n => is_Some (col_index n (columns tr))) names ->
  Forall (fun n => is_Some (col_index n (columns te))) names ->
  Loader.rssi_scaler self = Some e ->
  rows tr = [] \/ rows te = [] \/ names = [] ->
  exists w',
    Loader.process_data self w
    = (w', Raise (ValueError "Found array with 0 sample(s)")).
Proof.
  intros Hn Htr Hte W1 W2 C1 C2 He Hempty.
  destruct (fill_frame_runs names (Loader.no_val_rss self) tr C1) as [tr' F1].
  destruct (fill_frame_runs names (Loader.no_val_rss self) te C2) as [te' F2].
  destruct (rss_of_filled_runs _ _ _ _ W1 F1) as [rss1 Hr1].
  destruct (rss_of_filled_runs _ _ _ _ W2 F2) as [rss2 Hr2].
  destruct (rss_of_shape _ _ _ Hr1) as [L1 K1].
  destruct (rss_of_shape _ _ _ Hr2) as [L2 K2].
  pose proof (fill_frame_rows _ _ _ _ F1) as (js1 & _ & _ & R1).
  pose proof (fill_frame_rows _ _ _ _ F2) as (js2 & _ & _ & R2).
  rewrite R1, length_map in L1. rewrite R2, length_map in L2.
  unfold Loader.process_data, Loader.fill_missing, Loader.the_no_waps,
    Loader.the_frame.
  rewrite Hn, Htr, Hte.
  erewrite bind_run.
  2:{ erewrite bind_run by reflexivity. erewrite bind_run by reflexivity.
      erewrite bind_run by (apply lift_run; exact F1).
      erewrite bind_run by reflexivity.
      erewrite bind_run by (apply lift_run; exact F2). reflexivity. }
  unfold Loader.scale_and_bundle, Loader.the_no_waps, Loader.the_frame.
  cbn [Loader.no_waps Loader.training_df Loader.testing_df
       Loader.rssi_scaler Loader.coords_preprocessing].
  rewrite He.
  erewrite bind_run by reflexivity. erewrite bind_run by reflexivity.
  erewrite bind_run by (apply lift_run; exact Hr1).
  erewrite bind_run by reflexivity.
  erewrite bind_run by (apply lift_run; exact Hr2).
  destruct (concat rss1) as [|x flat] eqn:E1.
  - eexists. apply bind_raise. apply scale_rss_empty. exact E1.
  - assert (N1 : rss1 <> []) by (intros ->; discriminate E1).
    assert (Hk : length names <> O).
    { intros Hk. rewrite (concat_empty_rows _ _ K1) in E1 by now right.
      discriminate E1. }
    assert (E2 : concat rss2 = []).
    { eapply concat_empty_rows; [exact K2|].
      destruct Hempty as [H|[H|H]].
      - exfalso. apply N1. rewrite H in L1. now destruct rss1.
      - left. rewrite H in L2. now destruct rss2.
      - exfalso. apply Hk. now rewrite H. }
    rewrite R1, length_map, <- L1.
    destruct (scale_rss_runs (Some e) (length names) rss1 w N1 Hk K1)
      as (w1 & s1 & S1).
    erewrite bind_run by exact S1.
    eexists. apply bind_raise. apply scale_rss_empty. exact E2.
Qed.

Lemma process_data_nothing_to_scale_witness :
  Loader.training_df downsampled_loader
  = Some {| columns := ["AP1"; "AP2"; "floor"; "xr"; "yr"]; rows := [] |}
  /\ exists w',
       Loader.process_data downsampled_loader downsampled_world
       = (w', Raise (ValueError "Found array with 0 sample(s)")).
Proof.
  split; [reflexivity|].
  eapply (process_data_nothing_to_scale downsampled_loader downsampled_world);
    try reflexivity.
  - constructor.
  - constructor.
  - repeat constructor; eexists; reflexivity.
  - repeat constructor; eexists; reflexivity.
  - left. reflexivity.
Defined.

Lemma sample_frames_ready :
  exists names tr te,
    Loader.no_waps loaded_loader = Some names /\ names <> []
    /\ Loader.training_df loaded_loader = Some tr
    /\ Loader.testing_df loaded_loader = Some te
    /\ frame_ready names tr /\ frame_ready names te.
Proof.
  do 3 eexists. split; [reflexivity|]. split; [discriminate|].
  split; [reflexivity|]. split; [reflexivity|].
  split.
  - split; [repeat constructor|]. split; [discriminate|].
    split; [repeat constructor; eexists; reflexivity|].
    exists 3%nat, 4%nat. split; [reflexivity|]. split; [reflexivity|].
    repeat constructor; eexists; reflexivity.
  - split; [repeat constructor|]. split; [discriminate|].
    split; [repeat constructor; eexists; reflexivity|].
    exists 3%nat, 4%nat. split; [reflexivity|]. split; [reflexivity|].
    repeat constructor; eexists; reflexivity.
Qed.

(** What [np.asarray] returns: the numbers of the cells, none of them
    missing. *)
Lemma asarray_spec (cs : list cell) (xs : list R) :
  Numpy.asarray cs = Ok xs ->
  exists qs, cs = map Some qs /\ xs = map Q2R qs.
Proof.
  revert xs. induction cs as [|c cs IH]; intros xs H; simpl in H.
  - injection H as <-. exists []. split; reflexivity.
  - destruct c as [q|]; simpl in H; [|discriminate H].
    destruct (Numpy.asarray cs) as [xs'|e]; [|discriminate H].
    injection H as <-. destruct (IH xs' eq_refl) as (qs & -> & ->).
    exists (q :: qs). split; reflexivity.
Qed.

Lemma getitem_length (df : DataFrame) (name : string) (cs : list cell) :
  getitem df name = Ok cs -> length cs = length (rows df).
Proof.
  unfold getitem. destruct (col_index name (columns df)); [|discriminate].
  intros H. injection H as <-. apply length_map.
Qed.

Lemma coords_of_length (df : DataFrame) (c : matrix) :
  Loader.coords_of df = Ok c -> length c = length (rows df).
Proof.
  unfold Loader.coords_of, Numpy.column_stack.
  destruct (getitem df "xr") as [xs|] eqn:Hx; [|discriminate].
  destruct (Numpy.asarray xs) as [cx|] eqn:Ax; [|discriminate].
  destruct (getitem df "yr") as [ys|] eqn:Hy; [|discriminate].
  destruct (Numpy.asarray ys) as [cy|] eqn:Ay; [|discriminate].
  destruct (Nat.eqb (length cx) (length cy)) eqn:E; [|discriminate].
  intros H. injection H as <-. apply Nat.eqb_eq in E.
  rewrite length_zip_with, <- E, Nat.min_id.
  rewrite (asarray_length _ _ Ax). exact (getitem_length _ _ _ Hx).
Qed.

Lemma fill_frame_length (names : list string) (v : Z) (df df' : DataFrame) :
  Loader.fill_frame names v df = Ok df' ->
  length (rows df') = length (rows df).
Proof.
  intros H. apply fill_frame_rows in H as (js & _ & _ & ->).
  apply length_map.
Qed.

(** X13.  [process_data] returns on a loader whose two frames are ready
    (one cell per column, at least one row, the feature columns present,
    a number in every coordinate cell), with at least one feature column
    and a coordinate scaler; it then has stored both bundles. *)
Theorem process_data_succeeds (self : Loader.Loader) (w : World)
    (names : list string) (tr te : DataFrame) (e2 : estimator) :
  Loader.no_waps self = Some names -> names <> [] ->
  Loader.training_df self = Some tr -> Loader.testing_df self = Some te ->
  frame_ready names tr -> frame_ready names te ->
  Loader.coords_preprocessing self = Some e2 ->
  exists w' self' rss_tr rss_tr_s rss_te rss_te_s c_tr c_tr_s c_te c_te_s,
    Loader.process_data self w = (w', Ok self')
    /\ Loader.training_data self'
       = train_bundle rss_tr rss_tr_s c_tr c_tr_s
           (Loader.py_of_scaler (Loader.rssi_scaler self)) (PyEstimator e2)
    /\ Loader.testing_data self'
       = test_bundle rss_te rss_te_s c_te c_te_s (PyEstimator e2)
    /\ length rss_tr = length (rows tr) /\ length c_tr = length (rows tr)
    /\ length rss_te = length (rows te) /\ length c_te = length (rows te).
Proof.
  intros Hn Hnames Htr Hte R1 R2 He2.
  destruct (process_data_runs self w names tr te e2 Hn Hnames Htr Hte R1 R2
              He2) as (w' & self' & Hrun).
  exists w', self'.
  pose proof Hrun as H. apply process_data_spec in H as (self1 & Hfill & H).
  apply fill_missing_spec in Hfill
    as (_ & Hn1 & Hs1 & Hc1 & _ & names' & tr0 & te0 & tr' & te' & Hn'
        & Htr0 & Hte0 & F1 & F2 & Htr' & Hte').
  rewrite Hn in Hn'. injection Hn' as <-.
  rewrite Htr in Htr0. injection Htr0 as <-.
  rewrite Hte in Hte0. injection Hte0 as <-.
  apply scale_and_bundle_spec in H
    as (names1 & tr1 & te1 & rss_tr & rss_te & rss_tr_s & rss_te_s & c_tr
        & c_te & c_tr_s & c_te_s & e2' & w1 & w2 & w3 & H).
  destruct H as (Hn2 & Htr1 & Hte1 & Hr1 & Hr2 & _ & _ & Hco1 & Hco2 & He2'
                 & _ & _ & Hb1 & Hb2).
  rewrite Hc1, He2 in He2'. injection He2' as <-.
  rewrite Htr' in Htr1. injection Htr1 as <-.
  rewrite Hte' in Hte1. injection Hte1 as <-.
  rewrite Hs1 in Hb1.
  exists rss_tr, rss_tr_s, rss_te, rss_te_s, c_tr, c_tr_s, c_te, c_te_s.
  split; [exact Hrun|]. split; [exact Hb1|]. split; [exact Hb2|].
  apply rss_of_shape in Hr1 as [L1 _]. apply rss_of_shape in Hr2 as [L2 _].
  pose proof (fill_frame_length _ _ _ _ F1) as Q1.
  pose proof (fill_frame_length _ _ _ _ F2) as Q2.
  pose proof (coords_of_length _ _ Hco1) as K1.
  pose proof (coords_of_length _ _ Hco2) as K2.
  rewrite L1, L2, K1, K2, Q1, Q2. repeat split; reflexivity.
Qed.

Lemma process_data_succeeds_witness :
  exists w' self' rss_tr rss_tr_s rss_te rss_te_s c_tr c_tr_s c_te c_te_s,
    Loader.process_data loaded_loader loaded_world = (w', Ok self')
    /\ Loader.training_data self'
       = train_bundle rss_tr rss_tr_s c_tr c_tr_s
           (PyEstimator {| est_kind := StandardScaler; est_loc := 0 |})
           (PyEstimator {| est_kind := StandardScaler; est_loc := 1 |})
    /\ Loader.testing_data self'
       = test_bundle rss_te rss_te_s c_te c_te_s
           (PyEstimator {| est_kind := StandardScaler; est_loc := 1 |})
    /\ length rss_tr = 3%nat /\ length c_tr = 3%nat
    /\ length rss_te = 2%nat /\ length c_te = 2%nat.
Proof.
  destruct sample_frames_ready
    as (names & tr & te & H1 & H2 & H3 & H4 & H5 & H6).
  injection H3 as <-. injection H4 as <-.
  destruct (process_data_succeeds loaded_loader loaded_world names _ _
              {| est_kind := StandardScaler; est_loc := 1 |}
              H1 H2 eq_refl eq_refl H5 H6 eq_refl)
    as (w' & self' & rss_tr & rss_tr_s & rss_te & rss_te_s & c_tr & c_tr_s
        & c_te & c_te_s & Hrun & Hb1 & Hb2 & L1 & L2 & L3 & L4).
  exists w', self', rss_tr, rss_tr_s, rss_te, rss_te_s, c_tr, c_tr_s, c_te,
    c_te_s.
  repeat split; assumption.
Defined.

(** X9.  [load_data] returns as soon as the file parses, has a [floor]
    column, the split sizes are valid for the rows of the floor, and the
    sampling fraction is not negative; it then has stored the two frames
    and the feature names, and has opened the data file and no other. *)
Theorem load_data_succeeds (self : Loader.Loader) (w w1 : World)
    (data0 data : DataFrame) (sizes : nat * nat) :
  read_csv (Loader.data_fname self) w = (w1, Ok data0) ->
  filter_eq data0 "floor" (inject_Z (Loader.floor self)) = Ok data ->
  Sklearn.validate_shuffle_split (length (rows data)) (Loader.test_size self)
  = Ok sizes ->
  Qle_bool 0 (Loader.frac self) = true ->
  exists w' self' tr te,
    Loader.load_data self w = (w', Ok self')
    /\ Loader.training_df self' = Some tr
    /\ Loader.testing_df self' = Some te
    /\ Loader.no_waps self'
       = Some (List.filter (Loader.contains "AP") (columns data0))
    /\ opened w' = (opened w ++ [Loader.data_fname self])%list.
Proof.
  intros Hr Hf Hv Hfrac.
  destruct (load_data_runs self w w1 data0 data sizes Hr Hf Hv Hfrac)
    as (w' & self' & Hl).
  pose proof (load_data_opened _ _ _ _ Hl) as Ho.
  pose proof Hl as Hi. apply load_data_inv in Hi
    as (w1' & data0' & data' & a & b & perm & tr & te & Hr' & Hf' & _ & _
        & Htr & Hte & _ & _ & Hn & _).
  rewrite Hr in Hr'. injection Hr' as _ <-.
  rewrite Hf in Hf'. injection Hf' as <-.
  apply filter_eq_spec in Hf as (_ & _ & Hcols & _). rewrite Hcols in Hn.
  exists w', self', tr, te. repeat split; assumption.
Qed.

Lemma load_data_succeeds_witness :
  exists w' self' tr te,
    Loader.load_data (sample_loader StandardScaler (1 # 2)) sample_world
    = (w', Ok self')
    /\ Loader.training_df self' = Some tr
    /\ Loader.testing_df self' = Some te
    /\ Loader.no_waps self' = Some ["AP1"; "AP2"]
    /\ opened w' = ["../datas/data.csv"].
Proof.
  destruct (load_data_succeeds (sample_loader StandardScaler (1 # 2))
              sample_world _ _ _ _
              (read_csv_runs "../datas/data.csv" sample_world sample_table
                 eq_refl eq_refl)
              eq_refl eq_refl eq_refl)
    as (w' & self' & tr & te & Hl & Htr & Hte & Hn & Ho).
  exists w', self', tr, te. repeat split; assumption.
Defined.

(** X11.  On a loader without a coordinate scaler, [process_data] gets
    through the RSS scaling and then raises [UnboundLocalError]: the branch
    for that case never binds [testing_coords_scaled]. *)
Theorem process_data_without_coordinate_scaler (self : Loader.Loader)
    (w : World) (names : list string) (tr te : DataFrame) :
  Loader.no_waps self = Some names -> names <> [] ->
  Loader.training_df self = Some tr -> Loader.testing_df self = Some te ->
  frame_ready names tr -> frame_ready names te ->
  Loader.coords_preprocessing self = None ->
  exists w',
    Loader.process_data self w
    = (w', Raise (UnboundLocalError "testing_coords_scaled")).
Proof.
  intros Hn Hnames Htr Hte R1 R2 He2.
  destruct (fill_frame_runs names (Loader.no_val_rss self) tr) as [tr' F1];
    [apply R1|].
  destruct (fill_frame_runs names (Loader.no_val_rss self) te) as [te' F2];
    [apply R2|].
  pose proof (fill_frame_ready _ _ _ _ R1 F1) as (_ & Hne1 & _ & Hco1).
  pose proof (fill_frame_ready _ _ _ _ R2 F2) as (_ & Hne2 & _ & Hco2).
  destruct (rss_of_filled_runs _ _ _ _ (proj1 R1) F1) as [rss1 Hr1].
  destruct (rss_of_filled_runs _ _ _ _ (proj1 R2) F2) as [rss2 Hr2].
  destruct (rss_of_shape _ _ _ Hr1) as [L1 K1].
  destruct (rss_of_shape _ _ _ Hr2) as [L2 K2].
  assert (Hk : length names <> O) by (destruct names; [contradiction|discriminate]).
  assert (N1 : rss1 <> []).
  { intros ->. simpl in L1. destruct (rows tr'); [contradiction|discriminate]. }
  assert (N2 : rss2 <> []).
  { intros ->. simpl in L2. destruct (rows te'); [contradiction|discriminate]. }
  destruct (coords_of_runs tr' Hco1 Hne1) as (c1 & Hc1 & Hk1).
  destruct (coords_of_runs te' Hco2 Hne2) as (c2 & Hc2 & Hk2).
  unfold Loader.process_data, Loader.fill_missing, Loader.the_no_waps,
    Loader.the_frame.
  rewrite Hn, Htr, Hte.
  erewrite bind_run.
  2:{ erewrite bind_run by reflexivity. erewrite bind_run by reflexivity.
      erewrite bind_run by (apply lift_run; exact F1).
      erewrite bind_run by reflexivity.
      erewrite bind_run by (apply lift_run; exact F2). reflexivity. }
  unfold Loader.scale_and_bundle, Loader.the_no_waps, Loader.the_frame.
  cbn [Loader.no_waps Loader.training_df Loader.testing_df
       Loader.rssi_scaler Loader.coords_preprocessing].
  rewrite He2.
  erewrite bind_run by reflexivity. erewrite bind_run by reflexivity.
  erewrite bind_run by (apply lift_run; exact Hr1).
  erewrite bind_run by reflexivity.
  erewrite bind_run by (apply lift_run; exact Hr2).
  rewrite <- L1, <- L2.
  destruct (scale_rss_runs (Loader.rssi_scaler self) (length names) rss1 w
              N1 Hk K1) as (w1 & s1 & S1).
  erewrite bind_run by exact S1.
  destruct (scale_rss_runs (Loader.rssi_scaler self) (length names) rss2 w1
              N2 Hk K2) as (w2 & s2 & S2).
  erewrite bind_run by exact S2.
  erewrite bind_run by (apply lift_run; exact Hc1).
  erewrite bind_run by (apply lift_run; exact Hc2).
  erewrite bind_run by reflexivity. cbn [fst snd].
  eexists. reflexivity.
Qed.

Lemma process_data_without_coordinate_scaler_witness :
  exists w',
    Loader.process_data
      (with_scalers (Some {| est_kind := MinMaxScaler; est_loc := 0 |}) None
                    loaded_loader)
      loaded_world
    = (w', Raise (UnboundLocalError "testing_coords_scaled")).
Proof.
  destruct sample_frames_ready
    as (names & tr & te & H1 & H2 & H3 & H4 & H5 & H6).
  apply (process_data_without_coordinate_scaler _ loaded_world names tr te);
    first [assumption | reflexivity].
Defined.

(** X12.  On a loader without an RSS scaler, the bundles [process_data]
    stores carry the raw RSS array as the scaled one, in both splits. *)
Theorem process_data_without_rss_scaler (self self' : Loader.Loader)
    (w w' : World) :
  Loader.rssi_scaler self = None ->
  Loader.process_data self w = (w', Ok self') ->
  exists rss_tr rss_te c_tr c_tr_s c_te c_te_s s,
    Loader.training_data self'
    = train_bundle rss_tr rss_tr c_tr c_tr_s PyNone s
    /\ Loader.testing_data self' = test_bundle rss_te rss_te c_te c_te_s s.
Proof.
  intros Hs H. apply process_data_spec in H as (self1 & Hfill & H).
  apply fill_missing_spec in Hfill as (_ & _ & Hs1 & _).
  apply scale_and_bundle_spec in H
    as (names & tr & te & rss_tr & rss_te & rss_tr_s & rss_te_s & c_tr
        & c_te & c_tr_s & c_te_s & e2 & w1 & w2 & w3 & H).
  destruct H as (_ & _ & _ & _ & _ & S1 & S2 & _ & _ & _ & _ & _ & Htr & Hte).
  rewrite Hs1, Hs in S1, S2, Htr. simpl in S1, S2, Htr.
  apply ret_ok in S1 as [<- _]. apply ret_ok in S2 as [<- _].
  exists rss_tr, rss_te, c_tr, c_tr_s, c_te, c_te_s, (PyEstimator e2).
  split; assumption.
Qed.

Lemma process_data_without_rss_scaler_witness :
  exists w' self' rss_tr rss_te,
    Loader.process_data
      (with_scalers None (Some {| est_kind := MinMaxScaler; est_loc := 1 |})
                    loaded_loader)
      loaded_world
    = (w', Ok self')
    /\ getattr (Loader.training_data self') "rss" = Ok (PyArray rss_tr)
    /\ getattr (Loader.training_data self') "rss_scaled"
       = Ok (PyArray rss_tr)
    /\ getattr (Loader.testing_data self') "rss" = Ok (PyArray rss_te)
    /\ getattr (Loader.testing_data self') "rss_scaled"
       = Ok (PyArray rss_te).
Proof.
  destruct sample_frames_ready
    as (names & tr & te & H1 & H2 & H3 & H4 & H5 & H6).
  destruct (process_data_runs
              (with_scalers None
                 (Some {| est_kind := MinMaxScaler; est_loc := 1 |})
                 loaded_loader)
              loaded_world names tr te
              {| est_kind := MinMaxScaler; est_loc := 1 |}
              H1 H2 H3 H4 H5 H6 eq_refl) as (w' & self' & Hrun).
  destruct (process_data_without_rss_scaler
              (with_scalers None
                 (Some {| est_kind := MinMaxScaler; est_loc := 1 |})
                 loaded_loader) self' loaded_world w' eq_refl Hrun)
    as (rss_tr & rss_te & c_tr & c_tr_s & c_te & c_te_s & s & Htr & Hte).
  exists w', self', rss_tr, rss_te. rewrite Htr, Hte.
  repeat split; assumption.
Defined.

(** A run of [process_data] on the loaded sample, for any class of the two
    scaler objects. *)
Lemma process_data_sample_kind_runs (k : scaler_kind) :
  exists w' self',
    Loader.process_data
      (with_scalers (Some {| est_kind := k; est_loc := 0 |})
                    (Some {| est_kind := k; est_loc := 1 |}) loaded_loader)
      loaded_world
    = (w', Ok self').
Proof.
  destruct sample_frames_ready
    as (names & tr & te & H1 & H2 & H3 & H4 & H5 & H6).
  apply (process_data_runs _ loaded_world names tr te
           {| est_kind := k; est_loc := 1 |});
    first [assumption | reflexivity].
Qed.

(** X14.  With a standard or min-max coordinate scaler, the scaler stored
    in the testing bundle inverts that bundle's scaled coordinates: at the
    return of [process_data] the object holds the testing fit. *)
Theorem process_data_testing_round_trip (self self' : Loader.Loader)
    (w w' : World) (e : estimator) :
  Loader.process_data self w = (w', Ok self') ->
  Loader.coords_preprocessing self = Some e ->
  est_kind e <> Normalizer ->
  (est_loc e < length (heap w))%nat ->
  exists rss rss_s c_te c_te_s,
    Loader.testing_data self'
    = test_bundle rss rss_s c_te c_te_s (PyEstimator e)
    /\ Sklearn.inverse_transform e c_te_s w' = (w', Ok c_te).
Proof.
  intros H He Hk Hloc. apply process_data_spec in H as (self1 & Hfill & H).
  apply fill_missing_spec in Hfill as (_ & _ & _ & Hc1 & _).
  apply scale_and_bundle_spec in H
    as (names & tr & te & rss_tr & rss_te & rss_tr_s & rss_te_s & c_tr
        & c_te & c_tr_s & c_te_s & e2 & w1 & w2 & w3 & H).
  destruct H as (_ & _ & _ & _ & _ & Hs1 & Hs2 & _ & _ & He2 & Hf1 & Hf2
                 & _ & Hte).
  rewrite Hc1, He in He2. injection He2 as <-.
  exists rss_te, rss_te_s, c_te, c_te_s. split; [exact Hte|].
  apply scale_rss_heap_length in Hs1, Hs2.
  apply fit_transform_heap_length in Hf1.
  apply fit_transform_spec in Hf2 as (Hc2 & -> & Ht2).
  apply inverse_of_own_fit; [exact Hk | exact Hc2 | | exact Ht2].
  simpl. apply list_lookup_insert_eq. lia.
Qed.

Lemma process_data_testing_round_trip_witness :
  exists w' self' rss rss_s c_te c_te_s,
    Loader.process_data
      (with_scalers (Some {| est_kind := MinMaxScaler; est_loc := 0 |})
                    (Some {| est_kind := MinMaxScaler; est_loc := 1 |})
                    loaded_loader)
      loaded_world
    = (w', Ok self')
    /\ Loader.testing_data self'
       = test_bundle rss rss_s c_te c_te_s
           (PyEstimator {| est_kind := MinMaxScaler; est_loc := 1 |})
    /\ Sklearn.inverse_transform
         {| est_kind := MinMaxScaler; est_loc := 1 |} c_te_s w'
       = (w', Ok c_te).
Proof.
  destruct (process_data_sample_kind_runs MinMaxScaler)
    as (w' & self' & Hrun).
  destruct (process_data_testing_round_trip _ self' loaded_world w'
              {| est_kind := MinMaxScaler; est_loc := 1 |} Hrun eq_refl)
    as (rss & rss_s & c_te & c_te_s & Hb & Hinv);
    [discriminate | simpl; lia |].
  exists w', self', rss, rss_s, c_te, c_te_s.
  repeat split; assumption.
Defined.

(** ** What the methods leave alone *)

(** X15.  Whatever its outcome, [load_data] prints nothing, changes no
    file, fits no scaler and touches no model: it only opens the data file
    and draws from the random generator. *)
Theorem load_data_leaves_objects (self : Loader.Loader) (w : World) :
  let w' := fst (Loader.load_data self w) in
  stdout w' = stdout w /\ files w' = files w /\ heap w' = heap w
  /\ models w' = models w.
Proof. exact (load_data_only_read self w). Qed.

(** X16.  Whatever its outcome, [process_data] prints nothing, opens and
    changes no file, touches no model and draws no random number; it
    creates no scaler object, it only re-fits existing ones. *)
Theorem process_data_leaves_world (self : Loader.Loader) (w : World) :
  let w' := fst (Loader.process_data self w) in
  stdout w' = stdout w /\ opened w' = opened w /\ files w' = files w
  /\ models w' = models w /\ rng_pos w' = rng_pos w
  /\ length (heap w') = length (heap w).
Proof. exact (process_data_only_refitted self w). Qed.

(** X17.  Whatever the network predicts and whatever its outcome,
    [evaluate] re-fits no scaler, changes no model object, opens no file
    and draws no random number: it only prints. *)
Theorem evaluate_leaves_objects
    (predict : Keras.Model -> list pyval -> result (list pyval))
    (self : DNN_Regression.DNN_Regression) (w : World) :
  let w' := fst (DNN_Regression.evaluate predict self w) in
  opened w' = opened w /\ files w' = files w /\ heap w' = heap w
  /\ models w' = models w /\ rng_pos w' = rng_pos w.
Proof. exact (evaluate_only_printed predict self w). Qed.

(** ** The values of the scaled RSS arrays *)

(** The scaled RSS arrays of the two bundles, for a loader with an RSS
    scaler. *)
Lemma process_data_scaled_rss (self self' : Loader.Loader) (w w' : World)
    (e : estimator) :
  Loader.rssi_scaler self = Some e ->
  Loader.process_data self w = (w', Ok self') ->
  exists rss_tr rss_te c_tr c_tr_s c_te c_te_s e2,
    Loader.training_data self'
    = train_bundle rss_tr
        (map (map (shared_transform (est_kind e) (concat rss_tr))) rss_tr)
        c_tr c_tr_s (PyEstimator e) (PyEstimator e2)
    /\ Loader.testing_data self'
       = test_bundle rss_te
           (map (map (shared_transform (est_kind e) (concat rss_te))) rss_te)
           c_te c_te_s (PyEstimator e2).
Proof.
  intros He H. apply process_data_spec in H as (self1 & Hfill & H).
  apply fill_missing_spec in Hfill as (_ & _ & Hs & _).
  apply scale_and_bundle_spec in H
    as (names & tr & te & rss_tr & rss_te & rss_tr_s & rss_te_s & c_tr
        & c_te & c_tr_s & c_te_s & e2 & w1 & w2 & w3 & H).
  destruct H as (_ & _ & _ & Hr1 & Hr2 & Hs1 & Hs2 & _ & _ & _ & _ & _
                 & Htr & Hte).
  rewrite Hs, He in Hs1, Hs2, Htr. simpl in Htr.
  apply rss_of_shape in Hr1 as [Hl1 Hk1]. apply rss_of_shape in Hr2 as [Hl2 Hk2].
  rewrite <- Hl1 in Hs1. rewrite <- Hl2 in Hs2.
  apply scale_rss_spec in Hs1 as [-> _]; [|exact Hk1].
  apply scale_rss_spec in Hs2 as [-> _]; [|exact Hk2].
  exists rss_tr, rss_te, c_tr, c_tr_s, c_te, c_te_s, e2.
  split; assumption.
Qed.

Lemma fold_Rmin_le (a : R) (l : list R) :
  (fold_right Rmin a l <= a)%R
  /\ forall x, In x l -> (fold_right Rmin a l <= x)%R.
Proof.
  induction l as [|y l [IHa IH]]; simpl.
  - split; [lra | intros x []].
  - split.
    + eapply Rle_trans; [apply Rmin_r | exact IHa].
    + intros x [<-|Hx]; [apply Rmin_l|].
      eapply Rle_trans; [apply Rmin_r | exact (IH x Hx)].
Qed.

Lemma fold_Rmax_ge (a : R) (l : list R) :
  (a <= fold_right Rmax a l)%R
  /\ forall x, In x l -> (x <= fold_right Rmax a l)%R.
Proof.
  induction l as [|y l [IHa IH]]; simpl.
  - split; [lra | intros x []].
  - split.
    + eapply Rle_trans; [exact IHa | apply Rmax_r].
    + intros x [<-|Hx]; [apply Rmax_l|].
      eapply Rle_trans; [exact (IH x Hx) | apply Rmax_r].
Qed.

Lemma list_min_le (l : list R) (x : R) :
  In x l -> (Sklearn.list_min l <= x)%R.
Proof. intros H. now apply fold_Rmin_le. Qed.

Lemma list_max_ge (l : list R) (x : R) :
  In x l -> (x <= Sklearn.list_max l)%R.
Proof. intros H. now apply fold_Rmax_ge. Qed.

(** Min-max scaling sends every value of the column it was fitted on into
    the unit interval. *)
Lemma min_max_transform_range (flat : list R) (x : R) :
  In x flat ->
  (0 <= shared_transform MinMaxScaler flat x <= 1)%R.
Proof.
  intros Hx. pose proof (list_min_le _ _ Hx) as Hmin.
  pose proof (list_max_ge _ _ Hx) as Hmax.
  unfold shared_transform, shared_statistic, Sklearn.handle_zeros_in_scale.
  set (lo := Sklearn.list_min flat) in *.
  set (hi := Sklearn.list_max flat) in *.
  destruct (Req_dec_T (hi - lo) 0) as [E|E].
  - replace (x * ((1 - 0) / 1) + (0 - lo * ((1 - 0) / 1)))%R
      with (x - lo)%R by field. lra.
  - assert (Hd : (0 < hi - lo)%R) by lra.
    replace (x * ((1 - 0) / (hi - lo)) + (0 - lo * ((1 - 0) / (hi - lo))))%R
      with ((x - lo) / (hi - lo))%R by (field; exact E).
    split.
    + unfold Rdiv. apply Rmult_le_pos; [lra|].
      left. apply Rinv_0_lt_compat. exact Hd.
    + apply (Rmult_le_reg_r (hi - lo)); [exact Hd|].
      unfold Rdiv. rewrite Rmult_assoc, Rinv_l by exact E. lra.
Qed.

Lemma Forall_entries_transform (P : R -> Prop) (g : R -> R) (X : matrix) :
  (forall x, In x (concat X) -> P (g x)) ->
  Forall (Forall P) (map (map g) X).
Proof.
  intros H. apply Forall_forall. intros r Hr.
  apply list_elem_of_In, in_map_iff in Hr as (r0 & <- & Hr0).
  apply Forall_forall. intros y Hy.
  apply list_elem_of_In, in_map_iff in Hy as (x & <- & Hx0).
  apply H. apply in_concat. exists r0. split; assumption.
Qed.

(** X18.  With a min-max RSS scaler, every entry of the scaled RSS array
    of either bundle lies between 0 and 1. *)
Theorem process_data_min_max_range (self self' : Loader.Loader)
    (w w' : World) (e : estimator) :
  Loader.rssi_scaler self = Some e ->
  est_kind e = MinMaxScaler ->
  Loader.process_data self w = (w', Ok self') ->
  exists rss_tr rss_tr_s rss_te rss_te_s c_tr c_tr_s c_te c_te_s e2,
    Loader.training_data self'
    = train_bundle rss_tr rss_tr_s c_tr c_tr_s (PyEstimator e)
        (PyEstimator e2)
    /\ Loader.testing_data self'
       = test_bundle rss_te rss_te_s c_te c_te_s (PyEstimator e2)
    /\ Forall (Forall (fun y => 0 <= y <= 1)%R) rss_tr_s
    /\ Forall (Forall (fun y => 0 <= y <= 1)%R) rss_te_s.
Proof.
  intros He Hk H.
  destruct (process_data_scaled_rss _ _ _ _ _ He H)
    as (rss_tr & rss_te & c_tr & c_tr_s & c_te & c_te_s & e2 & Htr & Hte).
  rewrite Hk in Htr, Hte.
  eexists rss_tr, _, rss_te, _, c_tr, c_tr_s, c_te, c_te_s, e2.
  split; [exact Htr|]. split; [exact Hte|].
  split; apply Forall_entries_transform; intros x Hx;
    now apply min_max_transform_range.
Qed.

Lemma process_data_min_max_range_witness :
  exists w' self' rss_tr_s rss_te_s,
    Loader.process_data
      (with_scalers (Some {| est_kind := MinMaxScaler; est_loc := 0 |})
                    (Some {| est_kind := MinMaxScaler; est_loc := 1 |})
                    loaded_loader)
      loaded_world
    = (w', Ok self')
    /\ getattr (Loader.training_data self') "rss_scaled"
       = Ok (PyArray rss_tr_s)
    /\ getattr (Loader.testing_data self') "rss_scaled"
       = Ok (PyArray rss_te_s)
    /\ Forall (Forall (fun y => 0 <= y <= 1)%R) rss_tr_s
    /\ Forall (Forall (fun y => 0 <= y <= 1)%R) rss_te_s.
Proof.
  destruct (process_data_sample_kind_runs MinMaxScaler)
    as (w' & self' & Hrun).
  destruct (process_data_min_max_range
              (loaded_loader_of_kind MinMaxScaler) self' loaded_world w'
              {| est_kind := MinMaxScaler; est_loc := 0 |}
              eq_refl eq_refl Hrun)
    as (rss_tr & rss_tr_s & rss_te & rss_te_s & c_tr & c_tr_s & c_te
        & c_te_s & e2 & Htr & Hte & R1 & R2).
  exists w', self', rss_tr_s, rss_te_s. rewrite Htr, Hte.
  repeat split; assumption.
Defined.

Lemma Rsum_map_affine (m s : R) (l : list R) :
  Sklearn.Rsum (map (fun x => (x - m) / s)%R l)
  = ((Sklearn.Rsum l - INR (length l) * m) / s)%R.
Proof.
  unfold Sklearn.Rsum. induction l as [|x l IH].
  - simpl. unfold Rdiv. ring.
  - change (fold_right Rplus 0%R (map (fun x0 => (x0 - m) / s)%R (x :: l)))
      with ((x - m) / s
            + fold_right Rplus 0%R (map (fun x0 => (x0 - m) / s)%R l))%R.
    rewrite IH. change (length (x :: l)) with (S (length l)).
    rewrite S_INR. simpl. unfold Rdiv. ring.
Qed.

Lemma INR_length_nonzero {A} (l : list A) : l <> [] -> INR (length l) <> 0%R.
Proof.
  intros H. apply not_0_INR. destruct l; [contradiction|discriminate].
Qed.

(** Standardised values sum to zero. *)
Lemma Rsum_standardised (s : R) (l : list R) :
  Sklearn.Rsum (map (fun x => (x - Sklearn.mean l) / s)%R l) = 0%R.
Proof.
  rewrite Rsum_map_affine. destruct l as [|x l].
  - unfold Sklearn.Rsum. simpl. unfold Rdiv. ring.
  - unfold Sklearn.mean.
    replace (INR (length (x :: l))
             * (Sklearn.Rsum (x :: l) / INR (length (x :: l))))%R
      with (Sklearn.Rsum (x :: l))
      by (field; apply INR_length_nonzero; discriminate).
    unfold Rdiv. ring.
Qed.

Lemma Rsum_nonneg (l : list R) :
  Forall (fun x => 0 <= x)%R l -> (0 <= Sklearn.Rsum l)%R.
Proof.
  unfold Sklearn.Rsum. induction 1 as [|x l Hx _ IH]; simpl; lra.
Qed.

Lemma variance_nonneg (l : list R) : (0 <= Sklearn.variance l)%R.
Proof.
  unfold Sklearn.variance, Sklearn.mean at 1. rewrite length_map.
  destruct l as [|x l].
  - unfold Sklearn.Rsum. simpl. unfold Rdiv. rewrite Rmult_0_l. lra.
  - unfold Rdiv. apply Rmult_le_pos.
    + apply Rsum_nonneg. apply Forall_forall. intros y Hy.
      apply list_elem_of_In, in_map_iff in Hy as (z & <- & _).
      cbv beta. apply Rle_0_sqr.
    + left. apply Rinv_0_lt_compat. apply lt_0_INR. simpl. lia.
Qed.

Lemma Rsum_map_scale (c : R) (f : R -> R) (l : list R) :
  Sklearn.Rsum (map (fun x => f x * c)%R l)
  = (Sklearn.Rsum (map f l) * c)%R.
Proof.
  unfold Sklearn.Rsum. induction l as [|x l IH]; simpl; [ring|].
  rewrite IH. ring.
Qed.

(** The mean of the standardised values is zero, and their variance is one
    unless all the values are equal. *)
Lemma standardised_moments (flat : list R) :
  let scaled := map (shared_transform StandardScaler flat) flat in
  Sklearn.mean scaled = 0%R
  /\ (Sklearn.variance flat <> 0%R -> Sklearn.variance scaled = 1%R).
Proof.
  simpl. unfold shared_transform, shared_statistic.
  set (s := Sklearn.handle_zeros_in_scale (sqrt (Sklearn.variance flat))).
  assert (Hm : Sklearn.mean
                 (map (fun x => (x - Sklearn.mean flat) / s)%R flat) = 0%R).
  { unfold Sklearn.mean at 1. rewrite Rsum_standardised. unfold Rdiv.
    apply Rmult_0_l. }
  split; [exact Hm|]. intros Hv.
  pose proof (variance_nonneg flat) as Hnn.
  assert (Hs : s = sqrt (Sklearn.variance flat)).
  { unfold s, Sklearn.handle_zeros_in_scale.
    destruct (Req_dec_T (sqrt (Sklearn.variance flat)) 0) as [E|E];
      [|reflexivity].
    apply sqrt_eq_0 in E; [contradiction | exact Hnn]. }
  assert (Hss : (s * s = Sklearn.variance flat)%R)
    by (rewrite Hs; apply sqrt_sqrt; exact Hnn).
  assert (Hs0 : s <> 0%R) by (intros E; rewrite E in Hss; lra).
  assert (Hflat : flat <> []).
  { intros ->. apply Hv. unfold Sklearn.variance, Sklearn.mean,
      Sklearn.Rsum. simpl. unfold Rdiv. apply Rmult_0_l. }
  unfold Sklearn.variance at 1. rewrite Hm. unfold Sklearn.mean at 1.
  rewrite !length_map, map_map.
  rewrite (map_ext _
             (fun x => ((x - Sklearn.mean flat) * (x - Sklearn.mean flat))
                       * (/ s * / s))%R)
    by (intros x; unfold Rdiv; ring).
  rewrite Rsum_map_scale.
  assert (Hvar : (Sklearn.Rsum
                    (map (fun x => (x - Sklearn.mean flat)
                                   * (x - Sklearn.mean flat)) flat)
                  = Sklearn.variance flat * INR (length flat))%R).
  { unfold Sklearn.variance, Sklearn.mean at 3. rewrite length_map.
    field. now apply INR_length_nonzero. }
  rewrite Hvar, <- Hss. field.
  split; [exact Hs0 | now apply INR_length_nonzero].
Qed.

(** X19.  With a standard RSS scaler, the entries of the scaled RSS array
    of either bundle have mean 0, and variance 1 unless all the raw
    entries of that split are equal: the statistics are those of all the
    values together, not of each access point. *)
Theorem process_data_standardised_rss (self self' : Loader.Loader)
    (w w' : World) (e : estimator) :
  Loader.rssi_scaler self = Some e ->
  est_kind e = StandardScaler ->
  Loader.process_data self w = (w', Ok self') ->
  exists rss_tr rss_tr_s rss_te rss_te_s c_tr c_tr_s c_te c_te_s e2,
    Loader.training_data self'
    = train_bundle rss_tr rss_tr_s c_tr c_tr_s (PyEstimator e)
        (PyEstimator e2)
    /\ Loader.testing_data self'
       = test_bundle rss_te rss_te_s c_te c_te_s (PyEstimator e2)
    /\ Sklearn.mean (concat rss_tr_s) = 0%R
    /\ Sklearn.mean (concat rss_te_s) = 0%R
    /\ (Sklearn.variance (concat rss_tr) <> 0%R ->
        Sklearn.variance (concat rss_tr_s) = 1%R)
    /\ (Sklearn.variance (concat rss_te) <> 0%R ->
        Sklearn.variance (concat rss_te_s) = 1%R).
Proof.
  intros He Hk H.
  destruct (process_data_scaled_rss _ _ _ _ _ He H)
    as (rss_tr & rss_te & c_tr & c_tr_s & c_te & c_te_s & e2 & Htr & Hte).
  rewrite Hk in Htr, Hte.
  eexists rss_tr, _, rss_te, _, c_tr, c_tr_s, c_te, c_te_s, e2.
  split; [exact Htr|]. split; [exact Hte|].
  rewrite <- !concat_map.
  destruct (standardised_moments (concat rss_tr)) as [M1 V1].
  destruct (standardised_moments (concat rss_te)) as [M2 V2].
  repeat split; assumption.
Qed.

Lemma process_data_standardised_rss_witness :
  exists w' self' rss_tr_s rss_te_s,
    Loader.process_data (loaded_loader_of_kind StandardScaler) loaded_world
    = (w', Ok self')
    /\ getattr (Loader.training_data self') "rss_scaled"
       = Ok (PyArray rss_tr_s)
    /\ getattr (Loader.testing_data self') "rss_scaled"
       = Ok (PyArray rss_te_s)
    /\ Sklearn.mean (concat rss_tr_s) = 0%R
    /\ Sklearn.mean (concat rss_te_s) = 0%R.
Proof.
  destruct (process_data_sample_kind_runs StandardScaler)
    as (w' & self' & Hrun).
  destruct (process_data_standardised_rss
              (loaded_loader_of_kind StandardScaler) self' loaded_world w'
              {| est_kind := StandardScaler; est_loc := 0 |}
              eq_refl eq_refl Hrun)
    as (rss_tr & rss_tr_s & rss_te & rss_te_s & c_tr & c_tr_s & c_te
        & c_te_s & e2 & Htr & Hte & M1 & M2 & _).
  exists w', self', rss_tr_s, rss_te_s. rewrite Htr, Hte.
  repeat split; assumption.
Defined.

(** Row normalisation of a single value leaves its sign. *)
Lemma normalizer_transform_sign (flat : list R) (x : R) :
  let y := shared_transform Normalizer flat x in
  (x < 0 -> y = -1)%R /\ (x = 0 -> y = 0)%R /\ (0 < x -> y = 1)%R.
Proof.
  simpl. unfold shared_transform, shared_statistic, Sklearn.l2_norm,
    Sklearn.Rsum, Sklearn.handle_zeros_in_scale. simpl.
  rewrite Rplus_0_r. fold (Rsqr x). rewrite sqrt_Rsqr_abs.
  destruct (Req_dec_T (Rabs x) 0) as [E|E].
  - assert (x = 0%R) as ->.
    { destruct (Req_dec x 0) as [?|N]; [assumption|].
      exfalso. exact (Rabs_no_R0 _ N E). }
    repeat split; intros; try lra.
  - repeat split; intros Hx.
    + rewrite Rabs_left by exact Hx. field. lra.
    + rewrite Hx. unfold Rdiv. ring.
    + rewrite Rabs_right by lra. field. lra.
Qed.

(** X20.  With the [Normalizer] as RSS scaler, every entry of the scaled
    RSS array of either bundle is -1, 0 or 1, the sign of the raw entry:
    each value is normalised as a row of its own, so the magnitudes are
    lost. *)
Theorem process_data_normalized_rss_is_sign (self self' : Loader.Loader)
    (w w' : World) (e : estimator) :
  Loader.rssi_scaler self = Some e ->
  est_kind e = Normalizer ->
  Loader.process_data self w = (w', Ok self') ->
  exists rss_tr rss_tr_s rss_te rss_te_s c_tr c_tr_s c_te c_te_s e2,
    Loader.training_data self'
    = train_bundle rss_tr rss_tr_s c_tr c_tr_s (PyEstimator e)
        (PyEstimator e2)
    /\ Loader.testing_data self'
       = test_bundle rss_te rss_te_s c_te c_te_s (PyEstimator e2)
    /\ Forall (Forall (fun y => y = -1 \/ y = 0 \/ y = 1)%R) rss_tr_s
    /\ Forall (Forall (fun y => y = -1 \/ y = 0 \/ y = 1)%R) rss_te_s
    /\ (Forall (Forall (fun x => x < 0)%R) rss_tr ->
        rss_tr_s = map (map (fun _ => (-1)%R)) rss_tr)
    /\ (Forall (Forall (fun x => x < 0)%R) rss_te ->
        rss_te_s = map (map (fun _ => (-1)%R)) rss_te).
Proof.
  intros He Hk H.
  destruct (process_data_scaled_rss _ _ _ _ _ He H)
    as (rss_tr & rss_te & c_tr & c_tr_s & c_te & c_te_s & e2 & Htr & Hte).
  rewrite Hk in Htr, Hte.
  eexists rss_tr, _, rss_te, _, c_tr, c_tr_s, c_te, c_te_s, e2.
  split; [exact Htr|]. split; [exact Hte|].
  assert (Hsign : forall flat x,
             (fun y => y = -1 \/ y = 0 \/ y = 1)%R
               (shared_transform Normalizer flat x)).
  { intros flat x. destruct (normalizer_transform_sign flat x)
      as (Hn & Hz & Hp).
    destruct (Rtotal_order x 0) as [L|[Z|G]]; auto. }
  assert (Hneg : forall X flat,
             Forall (Forall (fun x => x < 0)%R) X ->
             map (map (shared_transform Normalizer flat)) X
             = map (map (fun _ => (-1)%R)) X).
  { intros X flat HX. apply map_ext_in. intros r Hr.
    apply map_ext_in. intros x Hx.
    apply (normalizer_transform_sign flat x).
    rewrite Forall_forall in HX.
    specialize (HX r (proj2 (list_elem_of_In _ _) Hr)).
    rewrite Forall_forall in HX.
    exact (HX x (proj2 (list_elem_of_In _ _) Hx)). }
  split; [apply Forall_entries_transform; intros; apply Hsign|].
  split; [apply Forall_entries_transform; intros; apply Hsign|].
  split; apply Hneg.
Qed.

Lemma process_data_normalized_rss_is_sign_witness :
  exists w' self' rss_tr_s rss_te_s,
    Loader.process_data (loaded_loader_of_kind Normalizer) loaded_world
    = (w', Ok self')
    /\ getattr (Loader.training_data self') "rss_scaled"
       = Ok (PyArray rss_tr_s)
    /\ getattr (Loader.testing_data self') "rss_scaled"
       = Ok (PyArray rss_te_s)
    /\ Forall (Forall (fun y => y = -1 \/ y = 0 \/ y = 1)%R) rss_tr_s
    /\ Forall (Forall (fun y => y = -1 \/ y = 0 \/ y = 1)%R) rss_te_s.
Proof.
  destruct (process_data_sample_kind_runs Normalizer)
    as (w' & self' & Hrun).
  destruct (process_data_normalized_rss_is_sign
              (loaded_loader_of_kind Normalizer) self' loaded_world w'
              {| est_kind := Normalizer; est_loc := 0 |}
              eq_refl eq_refl Hrun)
    as (rss_tr & rss_tr_s & rss_te & rss_te_s & c_tr & c_tr_s & c_te
        & c_te_s & e2 & Htr & Hte & S1 & S2 & _).
  exists w', self', rss_tr_s, rss_te_s. rewrite Htr, Hte.
  repeat split; assumption.
Defined.

(** ** The trainer: building, training and evaluating *)



Lemma evaluate_raises_on_coordinate_scaler_witness :
  DNN_Regression.evaluate zero_predict
    (sample_evaluator (PyEstimator {| est_kind := StandardScaler;
                                      est_loc := 0 |}))
    (evaluation_world (StandardFit [3; 4] [1; 2])%R)
  = (evaluation_world (StandardFit [3; 4] [1; 2])%R,
     Raise (ValueError "operands could not be broadcast together")).
Proof.
  eapply (evaluate_raises_on_coordinate_scaler zero_predict _ _
            {| est_kind := StandardScaler; est_loc := 0 |} O);
    reflexivity.
Defined.







(** ** The raw arrays of the bundles *)

Lemma asarray_map_inv {A} (f : A -> cell) (g : A -> R) (l : list A)
    (xs : list R) :
  Numpy.asarray (map f l) = Ok xs ->
  (forall a q, In a l -> f a = Some q -> g a = Q2R q) ->
  xs = map g l.
Proof.
  revert xs. induction l as [|a l IH]; intros xs H Hg; simpl in H.
  - now injection H as <-.
  - destruct (f a) as [q|] eqn:Hf; simpl in H; [|discriminate H].
    destruct (Numpy.asarray (map f l)) as [xs'|] eqn:Hxs; [|discriminate H].
    injection H as <-. simpl. f_equal.
    + symmetry. apply (Hg a q); [now left | exact Hf].
    + apply IH; [reflexivity|]. intros b q' Hb. apply Hg. now right.
Qed.

Lemma asarray2_map_inv {A} (F : A -> list cell) (G : A -> list R)
    (l : list A) (X : matrix) :
  Numpy.asarray2 (map F l) = Ok X ->
  (forall a xs, In a l -> Numpy.asarray (F a) = Ok xs -> xs = G a) ->
  X = map G l.
Proof.
  revert X. induction l as [|a l IH]; intros X H HG; simpl in H.
  - now injection H as <-.
  - destruct (Numpy.asarray (F a)) as [xs|] eqn:Hf; [|discriminate H].
    destruct (Numpy.asarray2 (map F l)) as [X'|] eqn:HX; [|discriminate H].
    injection H as <-. simpl. f_equal.
    + apply HG; [now left | exact Hf].
    + apply IH; [reflexivity|]. intros b xs' Hb. apply HG. now right.
Qed.

(** The cell at a column of a row after the fill. *)
Lemma filled_cell (js : list nat) (v : Q) (row : list cell) (j : nat) :
  (j < length row)%nat ->
  exists c,
    write_cells js
      (map (fun j => Some (default v (default None (row !! j)))) js) row
    !! j = Some c
    /\ forall q, c = Some q -> q = default v (default None (row !! j)).
Proof.
  intros Hlt. destruct (decide (j ∈ js)) as [Hin|Hout].
  - eexists. split; [apply (write_cells_listed
                              (fun j => Some (default v
                                           (default None (row !! j))))
                              js row j Hin Hlt)|].
    intros q H. now injection H as <-.
  - rewrite write_cells_other by exact Hout.
    destruct (lookup_lt_is_Some_2 row j Hlt) as [c Hc].
    exists c. split; [exact Hc|]. intros q ->. unfold cell in *.
    rewrite Hc. reflexivity.
Qed.

Lemma map_col_indices {B} (f : nat -> B) (d : B) (names cols : list string)
    (js : list nat) :
  col_indices names cols = Ok js ->
  map f js
  = map (fun n => match col_index n cols with
                  | Some j => f j
                  | None => d
                  end) names.
Proof.
  revert js. induction names as [|n names IH]; simpl; intros js H.
  - now injection H as <-.
  - destruct (col_index n cols) as [j|]; [|discriminate H].
    destruct (col_indices names cols) as [js'|]; [|discriminate H].
    injection H as <-. simpl. f_equal. now apply IH.
Qed.

(** The array read from the feature columns of a filled frame. *)
Lemma rss_of_filled_values (names : list string) (v : Z)
    (df df' : DataFrame) (rss : matrix) :
  frame_wf df ->
  Loader.fill_frame names v df = Ok df' ->
  Loader.rss_of df' names = Ok rss ->
  rss = map (fun r => map (reading v df r) names) (rows df).
Proof.
  intros Hwf Hfill Hrss.
  apply fill_frame_rows in Hfill as (js & Hjs & Hcols & Hrows).
  unfold Loader.rss_of, getitem_list in Hrss.
  rewrite Hcols, Hjs, Hrows in Hrss. simpl in Hrss.
  rewrite !map_map in Hrss. simpl in Hrss.
  apply (asarray2_map_inv _
           (fun r => map (reading v df r) names)) in Hrss; [exact Hrss|].
  intros r xs Hr Hxs. unfold reading.
  rewrite <- (map_col_indices
                (fun j => Q2R (default (inject_Z v)
                                       (default None (snd r !! j))))
                0%R names (columns df) js Hjs).
  apply (asarray_map_inv _ _ _ _ Hxs). intros j q Hj Hq.
  assert (Hlt : (j < length (snd r))%nat).
  { unfold frame_wf in Hwf. rewrite Forall_forall in Hwf.
    rewrite (Hwf r (proj2 (list_elem_of_In _ _) Hr)).
    destruct (col_indices_elem _ _ _ j Hjs (proj2 (list_elem_of_In _ _) Hj))
      as (name & _ & Hname).
    exact (col_index_lt _ _ _ Hname). }
  destruct (filled_cell js (inject_Z v) (snd r) j Hlt) as (c & Hc & Hcq).
  rewrite Hc in Hq. simpl in Hq. f_equal. symmetry. now apply Hcq.
Qed.

(** The array read from one column of a filled frame. *)
Lemma column_of_filled_values (names : list string) (v : Z)
    (df df' : DataFrame) (name : string) (cs : list cell) (xs : list R) :
  frame_wf df ->
  Loader.fill_frame names v df = Ok df' ->
  getitem df' name = Ok cs -> Numpy.asarray cs = Ok xs ->
  xs = map (fun r => reading v df r name) (rows df).
Proof.
  intros Hwf Hfill Hcs Hxs.
  apply fill_frame_rows in Hfill as (js & Hjs & Hcols & Hrows).
  unfold getitem in Hcs. rewrite Hcols in Hcs.
  destruct (col_index name (columns df)) as [j|] eqn:Hj; [|discriminate Hcs].
  injection Hcs as <-. rewrite Hrows, map_map in Hxs. simpl in Hxs.
  apply (asarray_map_inv _ (fun r => reading v df r name)) in Hxs;
    [exact Hxs|].
  intros r q Hr Hq. unfold reading. rewrite Hj.
  assert (Hlt : (j < length (snd r))%nat).
  { unfold frame_wf in Hwf. rewrite Forall_forall in Hwf.
    rewrite (Hwf r (proj2 (list_elem_of_In _ _) Hr)).
    exact (col_index_lt _ _ _ Hj). }
  destruct (filled_cell js (inject_Z v) (snd r) j Hlt) as (c & Hc & Hcq).
  rewrite Hc in Hq. simpl in Hq. f_equal. symmetry. now apply Hcq.
Qed.

Lemma coords_of_filled_values (names : list string) (v : Z)
    (df df' : DataFrame) (c : matrix) :
  frame_wf df ->
  Loader.fill_frame names v df = Ok df' ->
  Loader.coords_of df' = Ok c ->
  c = map (fun r => [reading v df r "xr"; reading v df r "yr"]) (rows df).
Proof.
  intros Hwf Hfill. unfold Loader.coords_of, Numpy.column_stack.
  destruct (getitem df' "xr") as [xs|] eqn:Hx; [|discriminate].
  destruct (Numpy.asarray xs) as [cx|] eqn:Ax; [|discriminate].
  destruct (getitem df' "yr") as [ys|] eqn:Hy; [|discriminate].
  destruct (Numpy.asarray ys) as [cy|] eqn:Ay; [|discriminate].
  destruct (Nat.eqb (length cx) (length cy)); [|discriminate].
  intros H. injection H as <-.
  rewrite (column_of_filled_values _ _ _ _ _ _ _ Hwf Hfill Hx Ax).
  rewrite (column_of_filled_values _ _ _ _ _ _ _ Hwf Hfill Hy Ay).
  generalize (rows df). intros l. induction l as [|r l IH]; simpl;
    [reflexivity|]. now rewrite IH.
Qed.

(** X24.  The raw arrays of the two bundles are read off the frames row by
    row: the RSS array has, for every row and every feature column, the
    reading of the frame, or the sentinel [no_val_rss] where the reading
    is missing, and the coordinate array has the row's [xr] and [yr].  The
    rows keep the order of the frames. *)
Theorem process_data_raw_arrays (self self' : Loader.Loader) (w w' : World)
    (names : list string) (tr te : DataFrame) :
  Loader.process_data self w = (w', Ok self') ->
  Loader.no_waps self = Some names ->
  Loader.training_df self = Some tr -> Loader.testing_df self = Some te ->
  frame_wf tr -> frame_wf te ->
  let v := Loader.no_val_rss self in
  let rss_of df := map (fun r => map (reading v df r) names) (rows df) in
  let coords_of df :=
    map (fun r => [reading v df r "xr"; reading v df r "yr"]) (rows df) in
  exists rss_tr_s rss_te_s c_tr_s c_te_s s1 s2,
    Loader.training_data self'
    = train_bundle (rss_of tr) rss_tr_s (coords_of tr) c_tr_s s1 s2
    /\ Loader.testing_data self'
       = test_bundle (rss_of te) rss_te_s (coords_of te) c_te_s s2.
Proof.
  intros H Hn Htr Hte W1 W2. simpl.
  apply process_data_spec in H as (self1 & Hfill & H).
  apply fill_missing_spec in Hfill
    as (_ & Hn1 & _ & _ & _ & names' & tr0 & te0 & tr' & te' & Hn'
        & Htr0 & Hte0 & F1 & F2 & Htr' & Hte').
  rewrite Hn in Hn'. injection Hn' as <-.
  rewrite Htr in Htr0. injection Htr0 as <-.
  rewrite Hte in Hte0. injection Hte0 as <-.
  apply scale_and_bundle_spec in H
    as (names1 & tr1 & te1 & rss_tr & rss_te & rss_tr_s & rss_te_s & c_tr
        & c_te & c_tr_s & c_te_s & e2 & w1 & w2 & w3 & H).
  destruct H as (Hn2 & Htr1 & Hte1 & Hr1 & Hr2 & _ & _ & Hco1 & Hco2 & _
                 & _ & _ & Hb1 & Hb2).
  rewrite Hn1, Hn in Hn2. injection Hn2 as <-.
  rewrite Htr' in Htr1. injection Htr1 as <-.
  rewrite Hte' in Hte1. injection Hte1 as <-.
  rewrite (rss_of_filled_values _ _ _ _ _ W1 F1 Hr1) in Hb1.
  rewrite (rss_of_filled_values _ _ _ _ _ W2 F2 Hr2) in Hb2.
  rewrite (coords_of_filled_values _ _ _ _ _ W1 F1 Hco1) in Hb1.
  rewrite (coords_of_filled_values _ _ _ _ _ W2 F2 Hco2) in Hb2.
  do 6 eexists. split; [exact Hb1 | exact Hb2].
Qed.

Lemma process_data_raw_arrays_witness :
  exists w' self' names tr te rss_tr_s rss_te_s c_tr_s c_te_s s1 s2,
    Loader.process_data loaded_loader loaded_world = (w', Ok self')
    /\ Loader.no_waps loaded_loader = Some names
    /\ Loader.training_df loaded_loader = Some tr
    /\ Loader.testing_df loaded_loader = Some te
    /\ Loader.training_data self'
       = train_bundle
           (map (fun r => map (reading (-100) tr r) names) (rows tr))
           rss_tr_s
           (map (fun r => [reading (-100) tr r "xr";
                           reading (-100) tr r "yr"]) (rows tr))
           c_tr_s s1 s2
    /\ Loader.testing_data self'
       = test_bundle
           (map (fun r => map (reading (-100) te r) names) (rows te))
           rss_te_s
           (map (fun r => [reading (-100) te r "xr";
                           reading (-100) te r "yr"]) (rows te))
           c_te_s s2.
Proof.
  destruct sample_frames_ready
    as (names & tr & te & H1 & H2 & H3 & H4 & H5 & H6).
  destruct (process_data_runs loaded_loader loaded_world names tr te
              {| est_kind := StandardScaler; est_loc := 1 |}
              H1 H2 H3 H4 H5 H6 eq_refl) as (w' & self' & Hrun).
  destruct (process_data_raw_arrays loaded_loader self' loaded_world w'
              names tr te Hrun H1 H3 H4 (proj1 H5) (proj1 H6))
    as (rss_tr_s & rss_te_s & c_tr_s & c_te_s & s1 & s2 & Hb1 & Hb2).
  exists w', self', names, tr, te, rss_tr_s, rss_te_s, c_tr_s, c_te_s, s1,
    s2.
  repeat split; assumption.
Defined.

(** ** When the constructor returns *)

Lemma make_scalers_runs (name prefix : string) (k : scaler_kind) (w : World) :
  scaler_of_name name = Some k ->
  Loader.make_scalers name prefix w
  = (with_heap ((heap w ++ [NotFitted]) ++ [NotFitted])
       (with_heap (heap w ++ [NotFitted]) w),
     Ok ({| est_kind := k; est_loc := length (heap w) |},
         {| est_kind := k; est_loc := S (length (heap w)) |})).
Proof.
  unfold scaler_of_name, Loader.make_scalers.
  destruct (String.eqb name "standard_scaler");
    [|destruct (String.eqb name "min_max_scaler");
      [|destruct (String.eqb name "normalization"); [|discriminate]]];
    intros H; injection H as <-; run; rewrite length_app; simpl;
    rewrite Nat.add_1_r; reflexivity.
Qed.

Lemma validate_test_nonempty (n : nat) (ts : Q) (a b : nat) :
  Sklearn.validate_shuffle_split n ts = Ok (a, b) ->
  b <> O /\ (b < n)%nat.
Proof.
  intros H. pose proof (validate_ok _ _ _ _ H) as (Hb & Ha & Ha0).
  split; [|lia].
  unfold Sklearn.validate_shuffle_split in H.
  destruct (Qle_bool ts 0) eqn:E0; [discriminate H|].
  assert (Hts : (0 < ts)%Q).
  { apply Qnot_le_lt. intros Hle. apply Qle_bool_iff in Hle. congruence. }
  assert (Hn : (0 < inject_Z (Z.of_nat n))%Q).
  { change (inject_Z 0 < inject_Z (Z.of_nat n))%Q.
    rewrite <- Zlt_Qlt. lia. }
  pose proof (Qmult_lt_0_compat _ _ Hts Hn) as Hpos.
  pose proof (Qle_ceiling (ts * inject_Z (Z.of_nat n))) as Hc.
  assert (Hz : (0 < Qceiling (ts * inject_Z (Z.of_nat n)))%Z).
  { rewrite Zlt_Qlt. change (inject_Z 0) with 0%Q.
    eapply Qlt_le_trans; [exact Hpos | exact Hc]. }
  lia.
Qed.

Lemma has_coords_subset (df df' : DataFrame) :
  columns df' = columns df ->
  (forall r, r ∈ rows df' -> r ∈ rows df) ->
  has_coords df -> has_coords df'.
Proof.
  intros Hc Hsub (jx & jy & Hx & Hy & Hall). exists jx, jy.
  rewrite Hc. split; [exact Hx|]. split; [exact Hy|].
  rewrite Forall_forall in Hall. apply Forall_forall. intros r Hr.
  apply Hall, Hsub, Hr.
Qed.

(** After [load_data] without down-sampling, on a file with a feature
    column and with both coordinates in every row of the floor, the two
    frames are ready for [process_data]. *)
Lemma load_data_frames_ready (self self' : Loader.Loader) (w w' : World)
    (t : Table) (data : DataFrame) :
  Loader.load_data self w = (w', Ok self') ->
  files w (Loader.data_fname self) = Some t ->
  existsb (fun l => Nat.ltb (length (header t)) (length l)) (lines t)
  = false ->
  filter_eq (frame_of_table t) "floor" (inject_Z (Loader.floor self))
  = Ok data ->
  Qle_bool 1 (Loader.frac self) = true ->
  List.filter (Loader.contains "AP") (header t) <> [] ->
  has_coords data ->
  exists names tr te,
    Loader.no_waps self' = Some names /\ names <> []
    /\ Loader.training_df self' = Some tr
    /\ Loader.testing_df self' = Some te
    /\ frame_ready names tr /\ frame_ready names te.
Proof.
  intros Hl Hf Hlines Hfilter Hfrac Hap Hco.
  pose proof (load_data_frames _ _ _ _ Hl)
    as (tr' & te' & Htr' & Hte' & W1 & W2 & _).
  apply load_data_inv in Hl
    as (w1 & data0 & data' & a & b & perm & tr & te & Hr & Hfi & Hv & Hperm
        & Htr & Hte & C1 & C2 & Hn & _ & Hrows).
  rewrite (read_csv_runs _ _ _ Hf Hlines) in Hr. injection Hr as _ <-.
  fold (frame_of_table t) in Hfi. rewrite Hfilter in Hfi.
  injection Hfi as <-.
  rewrite Htr in Htr'. injection Htr' as <-.
  rewrite Hte in Hte'. injection Hte' as <-.
  rewrite Hfrac in Hrows. simpl in Hrows. destruct Hrows as [R1 R2].
  apply filter_eq_spec in Hfilter as (jf & _ & Hcols & _).
  pose proof (validate_ok _ _ _ _ Hv) as (_ & Ha & Ha0).
  pose proof (validate_test_nonempty _ _ _ _ Hv) as (Hb0 & Hbn).
  pose proof (perm_in_range _ _ Hperm) as Hrange.
  assert (Hplen : length perm = length (rows data)).
  { rewrite Hperm. apply length_seq. }
  exists (List.filter (Loader.contains "AP") (columns data)), tr, te.
  split; [exact Hn|]. split; [now rewrite Hcols|].
  split; [exact Htr|]. split; [exact Hte|].
  split.
  - split; [exact W1|]. split.
    + intros E. apply (f_equal length) in E. rewrite R1 in E.
      rewrite length_iloc in E by (apply Forall_drop; exact Hrange).
      rewrite length_drop in E. simpl in E. lia.
    + split; [rewrite C1; apply no_waps_in_columns|].
      apply (has_coords_subset data); [exact C1 | | exact Hco].
      intros r Hr. rewrite R1 in Hr. eapply iloc_subseteq, Hr.
  - split; [exact W2|]. split.
    + intros E. apply (f_equal length) in E. rewrite R2 in E.
      rewrite length_iloc in E by (apply Forall_take; exact Hrange).
      rewrite length_take in E. simpl in E. lia.
    + split; [rewrite C2; apply no_waps_in_columns|].
      apply (has_coords_subset data); [exact C2 | | exact Hco].
      intros r Hr. rewrite R2 in Hr. eapply iloc_subseteq, Hr.
Qed.

(** X25.  The constructor returns a loader when the preprocessor name is
    supported, the file [path + 'data.csv'] parses, has a [floor] column,
    at least one column whose name contains [AP], and both coordinates in
    every row of the configured floor, the split sizes are valid for the
    rows of that floor, and no down-sampling is asked for
    ([frac >= 1]). *)
Theorem init_succeeds (path : string) (frac : Q)
    (preprocessor prefix : string) (no_val_rss floor : Z) (test_size : Q)
    (w : World) (k : scaler_kind) (t : Table) (data : DataFrame)
    (sizes : nat * nat) :
  scaler_of_name preprocessor = Some k ->
  files w (path ++ "data.csv") = Some t ->
  existsb (fun l => Nat.ltb (length (header t)) (length l)) (lines t)
  = false ->
  filter_eq (frame_of_table t) "floor" (inject_Z floor) = Ok data ->
  Sklearn.validate_shuffle_split (length (rows data)) test_size = Ok sizes ->
  Qle_bool 1 frac = true ->
  List.filter (Loader.contains "AP") (header t) <> [] ->
  has_coords data ->
  exists w' self',
    Loader.init path frac preprocessor prefix no_val_rss floor test_size w
    = (w', Ok self').
Proof.
  intros Hk Hf Hlines Hfilter Hv Hfrac Hap Hco. unfold Loader.init.
  erewrite bind_run by (apply make_scalers_runs; exact Hk).
  cbv zeta.
  match goal with
  | |- exists w' self', bind (Loader.load_data ?s) _ ?w0 = _ =>
      set (self0 := s); set (w1 := w0)
  end.
  assert (Hf1 : files w1 (Loader.data_fname self0) = Some t) by exact Hf.
  assert (Hfrac0 : Qle_bool 0 (Loader.frac self0) = true).
  { apply Qle_bool_iff. apply Qle_bool_iff in Hfrac.
    eapply Qle_trans; [|exact Hfrac]. discriminate. }
  destruct (load_data_runs self0 w1
              (with_opened (opened w1 ++ [Loader.data_fname self0]) w1)
              (frame_of_table t) data sizes
              (read_csv_runs _ _ _ Hf1 Hlines) Hfilter Hv Hfrac0)
    as (w2 & self1 & Hl).
  erewrite bind_run by exact Hl.
  destruct (load_data_frames_ready self0 self1 w1 w2 t data Hl Hf1 Hlines
              Hfilter Hfrac Hap Hco)
    as (names & tr & te & H1 & H2 & H3 & H4 & H5 & H6).
  pose proof (load_data_fields _ _ _ _ Hl) as (_ & F2 & _).
  exact (process_data_runs self1 w2 names tr te _ H1 H2 H3 H4 H5 H6
           (eq_trans F2 eq_refl)).
Qed.

Lemma init_succeeds_witness :
  exists w' self',
    Loader.init "../datas/" 1 "min_max_scaler" "IPS-LOADER" (-100) 1 (2 # 5)
      sample_world
    = (w', Ok self').
Proof.
  eapply (init_succeeds "../datas/" 1 "min_max_scaler" "IPS-LOADER" (-100) 1
            (2 # 5) sample_world MinMaxScaler sample_table).
  - reflexivity.
  - reflexivity.
  - reflexivity.
  - vm_compute. reflexivity.
  - vm_compute. reflexivity.
  - reflexivity.
  - discriminate.
  - exists 3%nat, 4%nat. split; [reflexivity|]. split; [reflexivity|].
    repeat constructor; eexists; reflexivity.
Defined.
